(** * DelphOs: signal aggregation, indicators and backtest harness

    A shallow embedding of the analytics core of the DelphOs backend
    (backend/advanced_indicators.py, simple_rsi.py, enhanced_ml.py,
    backtesting.py, multi_signal_analyzer.py) and the properties of its
    specification.

    Numbers.  Python and numpy floats are modelled as extended rationals
    [fnum]: a finite value is an exact rational, and the three special
    values NaN, +inf and -inf follow the IEEE rules for the operations the
    code uses.  Rounding error, overflow and the sign of zero are not
    modelled.

    Effects.  Logging, the clock, the analyzer caches and Python exceptions
    are modelled by one state-and-exception monad [M] over a [World]. *)

From Stdlib Require Import QArith Qabs Qround Lqa ZArith Lia.
From stdpp Require Import base option list strings pretty gmap.

Set Default Proof Using "Type".
Set Warnings "-register-all".

(** ** Extended rationals: the float model *)

Inductive fnum : Type :=
| NaN
| NInf
| Fin (q : Q)
| PInf.

Definition Qltb (a b : Q) : bool := negb (Qle_bool b a).

Definition is_nan (x : fnum) : bool :=
  match x with NaN => true | _ => false end.

(** Sign of a value that is not NaN: -1, 0 or 1. *)
Definition fsgn (x : fnum) : Z :=
  match x with
  | NaN => 0
  | NInf => -1
  | PInf => 1
  | Fin q => if Qltb 0 q then 1 else if Qltb q 0 then -1 else 0
  end.

Definition inf_of_sign (s : Z) : fnum :=
  if (0 <? s)%Z then PInf else if (s <? 0)%Z then NInf else NaN.

Definition fneg (x : fnum) : fnum :=
  match x with
  | NaN => NaN
  | NInf => PInf
  | PInf => NInf
  | Fin q => Fin (- q)
  end.

Definition fadd (x y : fnum) : fnum :=
  match x, y with
  | NaN, _ | _, NaN => NaN
  | Fin a, Fin b => Fin (a + b)
  | PInf, NInf | NInf, PInf => NaN
  | PInf, _ | _, PInf => PInf
  | NInf, _ | _, NInf => NInf
  end.

Definition fsub (x y : fnum) : fnum := fadd x (fneg y).

Definition fmul (x y : fnum) : fnum :=
  match x, y with
  | NaN, _ | _, NaN => NaN
  | Fin a, Fin b => Fin (a * b)
  | _, _ => inf_of_sign (fsgn x * fsgn y)
  end.

(** numpy division: a zero divisor gives an infinity or NaN, never a fault. *)
Definition fdiv (x y : fnum) : fnum :=
  match x, y with
  | NaN, _ | _, NaN => NaN
  | Fin a, Fin b => if Qeq_bool b 0 then inf_of_sign (fsgn x) else Fin (a / b)
  | Fin _, _ => Fin 0
  | _, Fin b => if Qeq_bool b 0 then x else inf_of_sign (fsgn x * fsgn y)
  | _, _ => NaN
  end.

Definition fabs (x : fnum) : fnum :=
  match x with
  | NaN => NaN
  | NInf | PInf => PInf
  | Fin q => Fin (Qabs q)
  end.

(** Comparisons: every comparison with NaN is false. *)
Definition flt (x y : fnum) : bool :=
  match x, y with
  | NaN, _ | _, NaN => false
  | Fin a, Fin b => Qltb a b
  | NInf, NInf | PInf, _ | _, NInf => false
  | NInf, _ | _, PInf => true
  end.

Definition fgt (x y : fnum) : bool := flt y x.

Definition feqb (x y : fnum) : bool :=
  match x, y with
  | Fin a, Fin b => Qeq_bool a b
  | NInf, NInf | PInf, PInf => true
  | _, _ => false
  end.

Definition fle (x y : fnum) : bool := flt x y || feqb x y.
Definition fge (x y : fnum) : bool := fle y x.

(** Equality of float values up to the representation of the rational;
    NaN is related to NaN here (this is the "same cell" relation, not
    Python's ==, which is [feqb]). *)
Definition feq (x y : fnum) : Prop :=
  match x, y with
  | NaN, NaN | NInf, NInf | PInf, PInf => True
  | Fin a, Fin b => a == b
  | _, _ => False
  end.

(** A value that is not negative: a rational from 0 on, or +inf. *)
Definition fnonneg (x : fnum) : Prop :=
  match x with
  | Fin q => (0 <= q)%Q
  | PInf => True
  | _ => False
  end.

(** A cell that is undefined or not negative. *)
Definition nan_or_nonneg (x : fnum) : Prop := x = NaN \/ fnonneg x.

(** A defined value of an index between 0 and 100. *)
Definition in_percent_range (x : fnum) : Prop :=
  match x with
  | Fin q => (0 <= q <= 100)%Q
  | NaN => True
  | _ => False
  end.

Definition fz (z : Z) : fnum := Fin (inject_Z z).
Definition fnat (n : nat) : fnum := fz (Z.of_nat n).

(** Python's builtin [min(a, b)] and [max(a, b)] on two arguments: the
    first argument is kept unless the second compares strictly better. *)
Definition py_min (a b : fnum) : fnum := if flt b a then b else a.
Definition py_max (a b : fnum) : fnum := if fgt b a then b else a.

Declare Scope fnum_scope.
Delimit Scope fnum_scope with F.
Bind Scope fnum_scope with fnum.
Infix "+" := fadd : fnum_scope.
Infix "-" := fsub : fnum_scope.
Infix "*" := fmul : fnum_scope.
Infix "/" := fdiv : fnum_scope.
Notation "- x" := (fneg x) : fnum_scope.
Infix "<?" := flt : fnum_scope.
Infix ">?" := fgt : fnum_scope.
Infix "=?" := feqb : fnum_scope.

(** ** Python exceptions and values *)

Inductive exn : Type :=
| KeyError (k : string)
| ValueError (msg : string)
| TypeError (msg : string)
| ZeroDivisionError (msg : string)
| IndexError (msg : string)
| LibraryError (msg : string).

(** [str(e)] *)
Definition exn_str (e : exn) : string :=
  match e with
  | KeyError k => "'" +:+ k +:+ "'"
  | ValueError m | TypeError m | ZeroDivisionError m
  | IndexError m | LibraryError m => m
  end.

Inductive res (A : Type) : Type :=
| Ok (a : A)
| Raise (e : exn).
Arguments Ok {A} a.
Arguments Raise {A} e.

(** The fragment of Python's values that the analyzers pass around:
    dictionaries keep insertion order, as Python's do. *)
Inductive pyval : Type :=
| PNone
| PBool (b : bool)
| PNum (x : fnum)
| PStr (s : string)
| PSeries (xs : list fnum)
| PTuple (vs : list pyval)
| PList (vs : list pyval)
| PDict (kvs : list (string * pyval)).

Definition pint (z : Z) : pyval := PNum (fz z).

(** Truth value of an object, as [if obj:] takes it. *)
Definition py_truthy (v : pyval) : res bool :=
  match v with
  | PNone => Ok false
  | PBool b => Ok b
  | PNum x => Ok (negb (feqb x (Fin 0)))
  | PStr s => Ok (negb (String.eqb s ""))
  | PSeries _ => Raise (ValueError "The truth value of a Series is ambiguous")
  | PTuple vs | PList vs => Ok (negb (Nat.eqb (length vs) 0))
  | PDict kvs => Ok (negb (Nat.eqb (length kvs) 0))
  end.

Definition string_chars (s : string) : list pyval :=
  (fun c => PStr (String c EmptyString)) <$> String.list_ascii_of_string s.

(** The items that iterating over an object yields; iterating over a
    dictionary yields its keys. *)
Definition py_iter (v : pyval) : res (list pyval) :=
  match v with
  | PNone => Raise (TypeError "cannot unpack non-iterable NoneType object")
  | PBool _ => Raise (TypeError "cannot unpack non-iterable bool object")
  | PNum _ => Raise (TypeError "cannot unpack non-iterable float object")
  | PStr s => Ok (string_chars s)
  | PSeries xs => Ok (PNum <$> xs)
  | PTuple vs | PList vs => Ok vs
  | PDict kvs => Ok ((fun kv => PStr kv.1) <$> kvs)
  end.

(** Tuple assignment [a, b, c = v]: the number of items must be the
    number of targets. *)
Definition py_unpack (n : nat) (v : pyval) : res (list pyval) :=
  match py_iter v with
  | Raise e => Raise e
  | Ok items =>
      if (n <? length items)%nat then
        Raise (ValueError ("too many values to unpack (expected " +:+ pretty n +:+ ")"))
      else if (length items <? n)%nat then
        Raise (ValueError ("not enough values to unpack (expected " +:+ pretty n
                           +:+ ", got " +:+ pretty (length items) +:+ ")"))
      else Ok items
  end.

(** Dictionary access: [d[k]], [d.get(k, default)], [k in d], [d[k] = v]. *)
Fixpoint assoc_get {V} (k : string) (kvs : list (string * V)) : option V :=
  match kvs with
  | [] => None
  | (k', v) :: rest => if String.eqb k k' then Some v else assoc_get k rest
  end.

Fixpoint assoc_set {V} (k : string) (v : V) (kvs : list (string * V))
  : list (string * V) :=
  match kvs with
  | [] => [(k, v)]
  | (k', v') :: rest =>
      if String.eqb k k' then (k', v) :: rest else (k', v') :: assoc_set k v rest
  end.

Definition dict_getitem (d : pyval) (k : string) : res pyval :=
  match d with
  | PDict kvs =>
      match assoc_get k kvs with
      | Some v => Ok v
      | None => Raise (KeyError k)
      end
  | _ => Raise (TypeError "object is not subscriptable")
  end.

Definition dict_get (d : pyval) (k : string) (dflt : pyval) : res pyval :=
  match d with
  | PDict kvs => Ok (default dflt (assoc_get k kvs))
  | _ => Raise (TypeError "object has no attribute 'get'")
  end.

Definition dict_contains (d : pyval) (k : string) : bool :=
  match d with
  | PDict kvs => bool_decide (is_Some (assoc_get k kvs))
  | _ => false
  end.

Definition as_num (v : pyval) : res fnum :=
  match v with
  | PNum x => Ok x
  | PBool b => Ok (if b then Fin 1 else Fin 0)
  | _ => Raise (TypeError "unsupported operand type(s)")
  end.

(** Ordering of two objects, [a < b]: numbers compare as numbers, strings
    as strings, and a number against a string is a TypeError. *)
Definition py_lt (a b : pyval) : res bool :=
  match a, b with
  | PStr s, PStr t => Ok (bool_decide (String.ltb s t = true))
  | (PNum _ | PBool _), (PNum _ | PBool _) =>
      match as_num a, as_num b with
      | Ok x, Ok y => Ok (flt x y)
      | Raise e, _ | _, Raise e => Raise e
      end
  | _, _ => Raise (TypeError "'<' not supported between these instances")
  end.

Definition py_gt (a b : pyval) : res bool := py_lt b a.

(** [v == 'text'] *)
Definition py_is_str (v : pyval) (s : string) : bool :=
  match v with
  | PStr t => String.eqb t s
  | _ => false
  end.

(** Python's float division: a zero divisor raises. *)
Definition py_truediv (x y : fnum) : res fnum :=
  if feqb y (Fin 0) then Raise (ZeroDivisionError "float division by zero")
  else Ok (fdiv x y).

(** ** The world and the monad of effects *)

Inductive level : Type := INFO | WARNING | ERROR.

Record World : Type := mkWorld {
  w_log : list (level * string);
  (** [datetime.now().timestamp()] *)
  w_now : Q;
  (** [MultiSignalAnalyzer.cache] of the module-level analyzer *)
  w_cache : gmap string (Q * pyval);
  (** [OnChainAnalyzer.cache] *)
  w_onchain_cache : gmap string (Q * pyval);
  (** [SocialSentimentAnalyzer.cache] *)
  w_social_cache : gmap string (Q * pyval)
}.

Definition M (A : Type) : Type := World -> res A * World.

Definition ret {A} (a : A) : M A := fun w => (Ok a, w).
Definition raise {A} (e : exn) : M A := fun w => (Raise e, w).
Definition bind {A B} (c : M A) (k : A -> M B) : M B :=
  fun w =>
    match c w with
    | (Ok a, w') => k a w'
    | (Raise e, w') => (Raise e, w')
    end.
Definition lift {A} (r : res A) : M A := fun w => (r, w).

(** [try: body except Exception as e: handler e]; effects of the body that
    happened before the exception are kept. *)
Definition try_except {A} (body : M A) (handler : exn -> M A) : M A :=
  fun w =>
    match body w with
    | (Ok a, w') => (Ok a, w')
    | (Raise e, w') => handler e w'
    end.

#[global] Instance M_ret : MRet M := @ret.
#[global] Instance M_bind : MBind M := fun A B k c => bind c k.

Definition logger (lv : level) (msg : string) : M unit :=
  fun w => (Ok tt, mkWorld (w_log w ++ [(lv, msg)]) (w_now w) (w_cache w)
                           (w_onchain_cache w) (w_social_cache w)).

Definition now_timestamp : M Q := fun w => (Ok (w_now w), w).

Definition value_of {A} (c : M A) (w : World) : res A := (c w).1.
Definition world_after {A} (c : M A) (w : World) : World := (c w).2.

(** What a step of the analysis may do to the world besides the cache of
    the multi-signal analyzer: the clock is as it was, the log is extended,
    and the caches of the two scorers change at most under the keys that
    [onchain_key] and [social_key] admit. *)
Definition scorer_frame (onchain_key social_key : string -> Prop) (w w1 : World) : Prop :=
  w_now w1 = w_now w
  /\ (exists more, w_log w1 = w_log w ++ more)
  /\ (forall k, ~ onchain_key k -> w_onchain_cache w1 !! k = w_onchain_cache w !! k)
  /\ (forall k, ~ social_key k -> w_social_cache w1 !! k = w_social_cache w !! k).

(** A computation that leaves the cache of the multi-signal analyzer as
    it was and stays inside the frame. *)
Definition frames (onchain_key social_key : string -> Prop) {A} (c : M A) : Prop :=
  forall w, w_cache (c w).2 = w_cache w
            /\ scorer_frame onchain_key social_key w (c w).2.

(** The world when the clock reads [t]: time passes between two requests
    and nothing else changes. *)
Definition at_time (t : Q) (w : World) : World :=
  mkWorld (w_log w) t (w_cache w) (w_onchain_cache w) (w_social_cache w).


(** ** pandas: series and tables *)

Abbreviation series := (list fnum).

Definition nan_series (n : nat) : series := replicate n NaN.

Definition smap2 (f : fnum -> fnum -> fnum) (xs ys : series) : series :=
  zip_with f xs ys.

(** The [w] values ending at position [i]. *)
Definition window {A} (w i : nat) (xs : list A) : list A :=
  take w (drop (S i - w) xs).

Definition fsum (xs : series) : fnum := foldl fadd (Fin 0) xs.
Definition fmean (xs : series) : fnum := fdiv (fsum xs) (fnat (length xs)).
Definition fminl (xs : series) : fnum :=
  match xs with [] => NaN | x :: r => foldl (fun a b => if flt b a then b else a) x r end.
Definition fmaxl (xs : series) : fnum :=
  match xs with [] => NaN | x :: r => foldl (fun a b => if flt a b then b else a) x r end.

(** [s.rolling(window=w).agg()]: the value is undefined until [w]
    observations are available, and wherever the window holds a NaN. *)
Definition rolling (agg : series -> fnum) (w : nat) (xs : series) : series :=
  imap (fun i _ =>
          if (S i <? w)%nat then NaN
          else let win := window w i xs in
               if existsb is_nan win then NaN else agg win) xs.

Definition rolling_mean := rolling fmean.
Definition rolling_min := rolling fminl.
Definition rolling_max := rolling fmaxl.

(** [s.diff(n)] *)
Definition diff (n : nat) (xs : series) : series :=
  imap (fun i x => if (i <? n)%nat then NaN
                   else fsub x (default NaN (xs !! (i - n)%nat))) xs.

(** [s.where(cond, other)] keeps the value where the condition holds. *)
Definition where_ (cond : fnum -> bool) (other : fnum) (xs : series) : series :=
  (fun x => if cond x then x else other) <$> xs.

(** [s[cond] = v] assigns where the condition holds. *)
Definition mask_assign (cond : fnum -> bool) (v : fnum) (xs : series) : series :=
  (fun x => if cond x then v else x) <$> xs.

Definition fillna (v : fnum) (xs : series) : series :=
  (fun x => if is_nan x then v else x) <$> xs.

(** [s.replace(a, b)] *)
Definition replace_val (a b : fnum) (xs : series) : series :=
  (fun x => if feqb x a then b else x) <$> xs.

(** [fillna(method='bfill')]: a NaN takes the next defined value, if any. *)
Fixpoint bfill (xs : series) : series :=
  match xs with
  | [] => []
  | x :: rest =>
      let rest' := bfill rest in
      (if is_nan x then default NaN (head rest') else x) :: rest'
  end.

(** [fillna(method='ffill')]: a NaN takes the last defined value, if any. *)
Fixpoint ffill_from (last : fnum) (xs : series) : series :=
  match xs with
  | [] => []
  | x :: rest =>
      let y := if is_nan x then last else x in y :: ffill_from y rest
  end.
Definition ffill (xs : series) : series := ffill_from NaN xs.

(** [s.ewm(span=span, adjust=False).mean()], as pandas computes it: the
    running value [weighted] and the weight [old_wt] of the history.  A NaN
    observation keeps the running value and lets the history decay; an
    observation equal to the running value leaves it as it is. *)
Fixpoint ewm_go (alpha : Q) (weighted : fnum) (old_wt : Q) (xs : series) : series :=
  match xs with
  | [] => []
  | cur :: rest =>
      if is_nan weighted then
        cur :: ewm_go alpha cur 1 rest
      else
        let old_wt' := (old_wt * (1 - alpha))%Q in
        if is_nan cur then
          weighted :: ewm_go alpha weighted old_wt' rest
        else
          let weighted' :=
            if feqb weighted cur then weighted
            else ((Fin old_wt' * weighted + Fin alpha * cur) / Fin (old_wt' + alpha))%F in
          weighted' :: ewm_go alpha weighted' 1 rest
  end.

Definition ewm_mean (span : Z) (xs : series) : res series :=
  if (span <? 1)%Z then Raise (ValueError "span must satisfy: span >= 1")
  else
    match xs with
    | [] => Ok []
    | x :: rest => Ok (x :: ewm_go (2 / (inject_Z span + 1))%Q x 1 rest)
    end.

(** [s.iloc[i]] with Python's negative indices. *)
Definition iloc {A} (xs : list A) (i : Z) : res A :=
  let n := Z.of_nat (length xs) in
  let j := if (i <? 0)%Z then (n + i)%Z else i in
  if (j <? 0)%Z || (n <=? j)%Z then
    Raise (IndexError "single positional indexer is out-of-bounds")
  else
    match xs !! Z.to_nat j with
    | Some x => Ok x
    | None => Raise (IndexError "single positional indexer is out-of-bounds")
    end.

(** A table: a row index (epoch seconds) and named columns, in the order
    in which they were added. *)
Record DataFrame : Type := mkDF {
  df_index : list Z;
  df_cols : list (string * series)
}.

Definition df_len (df : DataFrame) : nat := length (df_index df).

(** [df.empty]: no rows or no columns. *)
Definition df_empty (df : DataFrame) : bool :=
  Nat.eqb (df_len df) 0 || Nat.eqb (length (df_cols df)) 0.

Definition df_has (df : DataFrame) (col : string) : bool :=
  bool_decide (is_Some (assoc_get col (df_cols df))).

Definition df_getitem (df : DataFrame) (col : string) : res series :=
  match assoc_get col (df_cols df) with
  | Some s => Ok s
  | None => Raise (KeyError col)
  end.

Definition df_setitem (df : DataFrame) (col : string) (s : series) : DataFrame :=
  mkDF (df_index df) (assoc_set col s (df_cols df)).

(** [df[col] = scalar] *)
Definition df_setscalar (df : DataFrame) (col : string) (x : fnum) : DataFrame :=
  df_setitem df col (replicate (df_len df) x).

(** [df.iloc[:n]] *)
Definition df_head (n : nat) (df : DataFrame) : DataFrame :=
  mkDF (take n (df_index df)) ((fun kv => (kv.1, take n kv.2)) <$> df_cols df).

(** [df.fillna(method='bfill').fillna(method='ffill').fillna(0)] *)
Definition df_map_cols (f : series -> series) (df : DataFrame) : DataFrame :=
  mkDF (df_index df) ((fun kv => (kv.1, f kv.2)) <$> df_cols df).

Definition df_has_nan (df : DataFrame) : bool :=
  existsb (fun kv => existsb is_nan kv.2) (df_cols df).

(** The table after the assignments [data[c] = s], in the order of the list. *)
Definition assign_all (cols : list (string * series)) (data : DataFrame) : DataFrame :=
  foldl (fun d kv => df_setitem d kv.1 kv.2) data cols.

(** A table whose columns have as many cells as the table has rows. *)
Definition df_wf (df : DataFrame) : Prop :=
  Forall (fun kv => length kv.2 = df_len df) (df_cols df).

(** Python's [round(x)] on a finite value: to the nearest integer, ties
    to the even one. *)
Definition round_half_even (q : Q) : Z :=
  let f := Qfloor q in
  let d := (q - inject_Z f)%Q in
  if Qltb d (1 # 2) then f
  else if Qltb (1 # 2) d then (f + 1)%Z
  else if Z.even f then f else (f + 1)%Z.

(** [int(round(x))] *)
Definition py_int_round (x : fnum) : res Z :=
  match x with
  | Fin q => Ok (round_half_even q)
  | NaN => Raise (ValueError "cannot convert float NaN to integer")
  | _ => Raise (ValueError "cannot convert float infinity to integer")
  end.

(** [round(x, 2)], on the exact value. *)
Definition py_round2 (x : fnum) : fnum :=
  match x with
  | Fin q => Fin (inject_Z (round_half_even (q * 100)) / 100)
  | _ => x
  end.

(** [int(x)]: truncation towards zero. *)
Definition py_int (x : fnum) : res Z :=
  match x with
  | Fin q => Ok (if Qltb q 0 then (- Qfloor (- q))%Z else Qfloor q)
  | NaN => Raise (ValueError "cannot convert float NaN to integer")
  | _ => Raise (ValueError "cannot convert float infinity to integer")
  end.

(** ** The libraries outside the repository

    The [ta] indicator classes, the parts of pandas that need a square
    root, the market-data download and the rendering of numbers and dates
    are not part of the repository.  The simulations of the two scorers
    are, but they draw from Python's [random], seeded with the symbol,
    the timeframe and the day, and the news sentiment comes from the
    network.  All of these are the fields of [Lib]; a field of type
    [res _] is a call that may raise. *)
Record Lib : Type := mkLib {
  (** [RSIIndicator(close, window).rsi()] *)
  ta_rsi : series -> nat -> res series;
  (** [MACD(close)]: [.macd()], [.macd_signal()], [.macd_diff()] *)
  ta_macd : series -> res (series * series * series);
  (** [EMAIndicator(close, window).ema_indicator()] *)
  ta_ema : series -> nat -> res series;
  (** [BollingerBands(close, window, window_dev)]: high, low and middle band *)
  ta_bollinger : series -> nat -> fnum -> res (series * series * series);
  (** [StochasticOscillator(high, low, close)]: [.stoch()], [.stoch_signal()] *)
  ta_stoch : series -> series -> series -> res (series * series);
  (** [ADXIndicator(high, low, close).adx()] *)
  ta_adx : series -> series -> series -> res series;
  (** [OnBalanceVolumeIndicator(close, volume).on_balance_volume()] *)
  ta_obv : series -> series -> res series;
  (** [StochRSIIndicator(close)]: [.stochrsi_k()], [.stochrsi_d()] *)
  ta_stochrsi : series -> res (series * series);
  (** [s.rolling(window).std()] *)
  rolling_std : nat -> series -> series;
  (** [yf.download(symbol, period=period)] *)
  yf_download : string -> string -> res DataFrame;
  (** [f"{x:.1f}"] and [str(x)] *)
  fmt1 : fnum -> string;
  str_num : fnum -> string;
  (** [ts.strftime('%Y-%m-%d')] and [strftime('%Y-%m-%d %H:%M:%S')] *)
  strftime_date : Z -> string;
  strftime_datetime : Q -> string;
  (** [str(v)] of a value that is neither a string nor a number *)
  py_repr : pyval -> string;
  (** [datetime.now().isoformat()] *)
  isoformat : Q -> string;
  (** [s.upper()] *)
  str_upper : string -> string;
  (** [OnChainAnalyzer._simulate_whale_activity] and
      [_simulate_wallet_activity]: the dictionaries they build for a
      symbol and a timeframe at a given time. *)
  simulate_whale_activity : string -> string -> Q -> res pyval;
  simulate_wallet_activity : string -> string -> Q -> res pyval;
  (** [SocialSentimentAnalyzer._simulate_twitter_sentiment],
      [_simulate_reddit_sentiment] and [_get_news_sentiment]. *)
  simulate_twitter_sentiment : string -> Q -> res pyval;
  simulate_reddit_sentiment : string -> Q -> res pyval;
  get_news_sentiment : string -> Q -> res pyval
}.

(** An indicator library whose series are aligned with the series they
    are computed from, as the series of [ta] and pandas are. *)
Record aligned (lib : Lib) : Prop := mk_aligned {
  al_rsi : forall c n s, ta_rsi lib c n = Ok s -> length s = length c;
  al_macd : forall c m, ta_macd lib c = Ok m ->
            length m.1.1 = length c /\ length m.1.2 = length c /\ length m.2 = length c;
  al_ema : forall c n s, ta_ema lib c n = Ok s -> length s = length c;
  al_bollinger : forall c n dev b, ta_bollinger lib c n dev = Ok b ->
            length b.1.1 = length c /\ length b.1.2 = length c /\ length b.2 = length c;
  al_stoch : forall h l c s, length h = length c -> length l = length c ->
            ta_stoch lib h l c = Ok s -> length s.1 = length c /\ length s.2 = length c;
  al_adx : forall h l c s, length h = length c -> length l = length c ->
            ta_adx lib h l c = Ok s -> length s = length c;
  al_obv : forall c v s, length v = length c ->
            ta_obv lib c v = Ok s -> length s = length c;
  al_stochrsi : forall c s, ta_stochrsi lib c = Ok s ->
            length s.1 = length c /\ length s.2 = length c;
  al_rolling_std : forall n c, length (rolling_std lib n c) = length c
}.

(** ** advanced_indicators.py *)

Module Indicators.
Section WithLib.
Context (lib : Lib).

(** [calculate_ema(data, period=14)] *)
Definition calculate_ema (data : series) (period : Z) : M series :=
  try_except
    (lift (ewm_mean period data))
    (fun e =>
       logger ERROR ("Error calculating EMA: " +:+ exn_str e);;
       ret (nan_series (length data))).

(** [calculate_macd(data, fast_period=12, slow_period=26, signal_period=9)] *)
Definition calculate_macd (data : series) (fast_period slow_period signal_period : Z)
  : M (series * series * series) :=
  try_except
    (fast_ema ← calculate_ema data fast_period;
     slow_ema ← calculate_ema data slow_period;
     let macd_line := smap2 fsub fast_ema slow_ema in
     signal_line ← calculate_ema macd_line signal_period;
     let histogram := smap2 fsub macd_line signal_line in
     ret (macd_line, signal_line, histogram))
    (fun e =>
       logger ERROR ("Error calculating MACD: " +:+ exn_str e);;
       let n := nan_series (length data) in ret (n, n, n)).

(** The RSI of [calculate_stochastic_rsi]: [np.where(avg_loss == 0, 0,
    avg_gain / avg_loss)] takes 0 for the relative strength wherever the
    average loss is 0, and the quotient elsewhere. *)
Definition relative_strength (avg_gain avg_loss : series) : series :=
  zip_with (fun g l => if feqb l (Fin 0) then Fin 0 else fdiv g l) avg_gain avg_loss.

Definition rsi_of_rs (rs : series) : series :=
  (fun r => (Fin 100 - Fin 100 / (Fin 1 + r))%F) <$> rs.

Definition average_gain (data : series) (period : nat) : series :=
  let delta := diff 1 data in
  rolling_mean period (where_ (fun x => fgt x (Fin 0)) (Fin 0) delta).

Definition average_loss (data : series) (period : nat) : series :=
  let delta := diff 1 data in
  rolling_mean period (fneg <$> where_ (fun x => flt x (Fin 0)) (Fin 0) delta).

Definition stochastic_rsi_body (data : series) (period k_period d_period : nat)
  : series * series * series :=
  let avg_gain := average_gain data period in
  let avg_loss := average_loss data period in
  let rs := relative_strength avg_gain avg_loss in
  let rsi := rsi_of_rs rs in
  let min_rsi := rolling_min period rsi in
  let max_rsi := rolling_max period rsi in
  let denominator := replace_val (Fin 0) NaN (smap2 fsub max_rsi min_rsi) in
  let stoch_rsi :=
    fillna (Fin 50)
      (zip_with (fun num den => (Fin 100 * (num / den))%F)
                (smap2 fsub rsi min_rsi) denominator) in
  let k := rolling_mean k_period stoch_rsi in
  let d := rolling_mean d_period k in
  (rsi, k, d).

(** [calculate_stochastic_rsi(data, period=14, k_period=3, d_period=3)] *)
Definition calculate_stochastic_rsi (data : series) (period k_period d_period : nat)
  : M (series * series * series) :=
  try_except
    (ret (stochastic_rsi_body data period k_period d_period))
    (fun e =>
       logger ERROR ("Error calculating Stochastic RSI: " +:+ exn_str e);;
       let n := nan_series (length data) in ret (n, n, n)).

(** [check_ema_crossover(data, short_period=50, long_period=200)]: a
    dictionary of five entries. *)
Definition check_ema_crossover (data : series) (short_period long_period : Z)
  : M pyval :=
  try_except
    (short_ema ← calculate_ema data short_period;
     long_ema ← calculate_ema data long_period;
     current_short ← lift (iloc short_ema (-1));
     current_long ← lift (iloc long_ema (-1));
     prev_short ← (if (1 <? length short_ema)%nat
                   then x ← lift (iloc short_ema (-2)); ret (Some x)
                   else ret None);
     prev_long ← (if (1 <? length long_ema)%nat
                  then x ← lift (iloc long_ema (-2)); ret (Some x)
                  else ret None);
     let '(bullish_crossover, bearish_crossover) :=
       match prev_short, prev_long with
       | Some ps, Some pl =>
           (flt ps pl && fgt current_short current_long,
            fgt ps pl && flt current_short current_long)
       | _, _ => (false, false)
       end in
     let position := if fgt current_short current_long then "bullish" else "bearish" in
     ret (PDict [("short_ema", PNum current_short);
                 ("long_ema", PNum current_long);
                 ("position", PStr position);
                 ("bullish_crossover", PBool bullish_crossover);
                 ("bearish_crossover", PBool bearish_crossover)]))
    (fun e =>
       logger ERROR ("Error checking EMA crossover: " +:+ exn_str e);;
       ret (PDict [("short_ema", PNone);
                   ("long_ema", PNone);
                   ("position", PStr "unknown");
                   ("bullish_crossover", PBool false);
                   ("bearish_crossover", PBool false)])).

Definition bool_series (bs : list bool) : pyval := PList (PBool <$> bs).

(** [calculate_bollinger_bands(data, window=20, window_dev=2)]: a
    dictionary of six entries, or [None] when the indicator raises. *)
Definition calculate_bollinger_bands (data : series) (window : nat) (window_dev : fnum)
  : M pyval :=
  try_except
    (bands ← lift (ta_bollinger lib data window window_dev);
     let '(bb_high_band, bb_low_band, bb_mid_band) := bands in
     let bb_width := smap2 fdiv (smap2 fsub bb_high_band bb_low_band) bb_mid_band in
     let price_above_high := zip_with fgt data bb_high_band in
     let price_below_low := zip_with flt data bb_low_band in
     ret (PDict [("high_band", PSeries bb_high_band);
                 ("mid_band", PSeries bb_mid_band);
                 ("low_band", PSeries bb_low_band);
                 ("width", PSeries bb_width);
                 ("price_above_high", bool_series price_above_high);
                 ("price_below_low", bool_series price_below_low)]))
    (fun e =>
       logger ERROR ("Error calculating Bollinger Bands: " +:+ exn_str e);;
       ret PNone).

End WithLib.
End Indicators.

(** ** simple_rsi.py *)

Module SimpleRsi.

(** The replacement of a zero average loss: [1e-10]. *)
Definition tiny : Q := 1 # 10000000000.

Definition rsi_body (price_series : series) (window : nat) : series :=
  let delta := diff 1 price_series in
  let up := mask_assign (fun x => flt x (Fin 0)) (Fin 0) delta in
  let down := fabs <$> mask_assign (fun x => fgt x (Fin 0)) (Fin 0) delta in
  let roll_up := rolling_mean window up in
  let roll_down := rolling_mean window down in
  let roll_down_safe := mask_assign (fun x => feqb x (Fin 0)) (Fin tiny) roll_down in
  let rs := smap2 fdiv roll_up roll_down_safe in
  (fun r => (Fin 100 - Fin 100 / (Fin 1 + r))%F) <$> rs.

(** [calculate_rsi(price_series, window=14)] *)
Definition calculate_rsi (price_series : series) (window : nat) : M series :=
  try_except
    (ret (rsi_body price_series window))
    (fun e =>
       logger ERROR ("Error in RSI calculation: " +:+ exn_str e);;
       ret (nan_series (length price_series))).

End SimpleRsi.

(** ** enhanced_ml.py *)

Module EnhancedMl.
Section WithLib.
Context (lib : Lib).

(** [s.pct_change(1)], with pandas' default padding of missing values. *)
Definition pct_change (xs : series) : series :=
  let filled := ffill xs in
  imap (fun i x => if (i <? 1)%nat then NaN
                   else (x / default NaN (filled !! (i - 1)%nat) - Fin 1)%F) filled.

(** [s.shift(-1)] *)
Definition shift_back (xs : series) : series :=
  imap (fun i _ => default NaN (xs !! S i)) xs.

(** [all(s == 0)] *)
Definition all_zero (xs : series) : bool := forallb (fun x => feqb x (Fin 0)) xs.

Definition required_cols : list string := ["Open"; "High"; "Low"; "Close"; "Volume"].

(** The loop over the required columns: a missing [Volume] is set to 0,
    any other missing column to the close. *)
Fixpoint add_missing_cols (cols : list string) (data : DataFrame) : M DataFrame :=
  match cols with
  | [] => ret data
  | col :: rest =>
      if df_has data col then add_missing_cols rest data
      else
        logger WARNING ("Missing required column: " +:+ col);;
        if String.eqb col "Volume" then
          add_missing_cols rest (df_setscalar data col (Fin 0))
        else
          close ← lift (df_getitem data "Close");
          add_missing_cols rest (df_setitem data col close)
  end.

Definition divergence_flag (price_diff rsi_diff : fnum) : fnum :=
  if fgt price_diff (Fin 0) && flt rsi_diff (Fin 0) then Fin (-1)
  else if flt price_diff (Fin 0) && fgt rsi_diff (Fin 0) then Fin 1
  else Fin 0.

Definition fill_all (data : DataFrame) : DataFrame :=
  df_map_cols (fillna (Fin 0)) (df_map_cols ffill (df_map_cols bfill data)).

Definition col (data : DataFrame) (name : string) : M series :=
  lift (df_getitem data name).

(** The body of the [try] of [generate_features]. *)
Definition generate_features_body (df : DataFrame) : M DataFrame :=
  data ← add_missing_cols required_cols df;
  (* 1. technical indicators *)
  close ← col data "Close";
  rsi ← lift (ta_rsi lib close 14);
  let data := df_setitem data "rsi" rsi in
  close ← col data "Close";
  macd ← lift (ta_macd lib close);
  let data := df_setitem data "macd" macd.1.1 in
  let data := df_setitem data "macd_signal" macd.1.2 in
  let data := df_setitem data "macd_diff" macd.2 in
  close ← col data "Close";
  ema12 ← lift (ta_ema lib close 12);
  ema26 ← lift (ta_ema lib close 26);
  let data := df_setitem data "ema12" ema12 in
  let data := df_setitem data "ema26" ema26 in
  close ← col data "Close";
  bands ← lift (ta_bollinger lib close 20 (Fin 2));
  let data := df_setitem data "bb_high" bands.1.1 in
  let data := df_setitem data "bb_low" bands.1.2 in
  let data := df_setitem data "bb_mid" bands.2 in
  let data := df_setitem data "bb_width"
                (smap2 fdiv (smap2 fsub bands.1.1 bands.1.2) bands.2) in
  high ← col data "High";
  low ← col data "Low";
  close ← col data "Close";
  stoch ← lift (ta_stoch lib high low close);
  let data := df_setitem data "stoch_k" stoch.1 in
  let data := df_setitem data "stoch_d" stoch.2 in
  adx ← lift (ta_adx lib high low close);
  let data := df_setitem data "adx" adx in
  volume ← col data "Volume";
  data ← (if negb (all_zero volume) then
            obv ← lift (ta_obv lib close volume);
            ret (df_setitem data "obv" obv)
          else ret (df_setscalar data "obv" (Fin 0)));
  sr ← lift (ta_stochrsi lib close);
  let data := df_setitem data "stoch_rsi_k" sr.1 in
  let data := df_setitem data "stoch_rsi_d" sr.2 in
  (* 2. engineered features *)
  let data := df_setitem data "close_5d_mean" (rolling_mean 5 close) in
  let data := df_setitem data "close_10d_mean" (rolling_mean 10 close) in
  let data := df_setitem data "close_5d_std" (rolling_std lib 5 close) in
  let data := df_setitem data "close_10d_std" (rolling_std lib 10 close) in
  let data := df_setitem data "daily_spread" (smap2 fdiv (smap2 fsub high low) close) in
  let data :=
    if negb (all_zero volume) then
      let volume_5d_mean := rolling_mean 5 volume in
      let data := df_setitem data "volume_5d_mean" volume_5d_mean in
      df_setitem data "volume_spike" (smap2 fdiv volume volume_5d_mean)
    else df_setscalar data "volume_spike" (Fin 1) in
  let price_diff := diff 5 close in
  let rsi_diff := diff 5 rsi in
  let data := df_setitem data "price_diff" price_diff in
  let data := df_setitem data "rsi_diff" rsi_diff in
  let data := df_setitem data "divergence" (zip_with divergence_flag price_diff rsi_diff) in
  (* 3. target features *)
  let next_day_return := shift_back (pct_change close) in
  let data := df_setitem data "next_day_return" next_day_return in
  let data := df_setitem data "target"
                ((fun r => if fgt r (Fin 0) then Fin 1 else Fin 0) <$> next_day_return) in
  ret (fill_all data).

(** [generate_features(df)]: on any error the original table is returned. *)
Definition generate_features (df : DataFrame) : M DataFrame :=
  try_except
    (generate_features_body df)
    (fun e =>
       logger ERROR ("Error generating features: " +:+ exn_str e);;
       ret df).


(** [rule_based_prediction(df)]: always a triple. *)
Definition rule_based_body (df : option DataFrame) : M pyval :=
  match df with
  | None => ret (PTuple [PStr "Neutral"; pint 50; PStr "Insufficient data for prediction"])
  | Some df =>
      if (df_len df <? 5)%nat then
        ret (PTuple [PStr "Neutral"; pint 50; PStr "Insufficient data for prediction"])
      else
        let lookback := Nat.min 7 (df_len df - 1) in
        if (df_len df <=? lookback)%nat then
          ret (PTuple [PStr "Neutral"; pint 50; PStr "Insufficient historical data"])
        else
          close ← col df "Close";
          last ← lift (iloc close (-1));
          base ← lift (iloc close (- Z.of_nat lookback - 1));
          let recent_change := ((last / base - Fin 1) * Fin 100)%F in
          current_rsi ←
            (if negb (df_has df "rsi") then
               try_except
                 (close ← col df "Close";
                  r ← lift (ta_rsi lib close 14);
                  lift (iloc r (-1)))
                 (fun _ => ret (Fin 50))
             else
               r ← col df "rsi"; lift (iloc r (-1)));
          let '(prediction, confidence) :=
            if flt current_rsi (Fin 30) then
              ("Bullish", (Fin 70 + (Fin 30 - current_rsi))%F)
            else if fgt current_rsi (Fin 70) then
              ("Bearish", (Fin 70 + (current_rsi - Fin 70))%F)
            else if fgt recent_change (Fin 2) then
              ("Bullish", (Fin 50 + py_min recent_change (Fin 20))%F)
            else if flt recent_change (Fin (-2)) then
              ("Bearish", (Fin 50 + py_min (fabs recent_change) (Fin 20))%F)
            else
              ("Neutral", (Fin 50 + py_min (fabs recent_change * Fin (5 # 2)) (Fin 10))%F) in
          c ← lift (py_int confidence);
          let confidence := Z.min c 95 in
          let trend_text := fmt1 lib recent_change +:+ "%" in
          let rsi_text := fmt1 lib current_rsi in
          let reason := "RSI: " +:+ rsi_text +:+ " | Trend: " in
          let reason :=
            if fgt recent_change (Fin 10) then
              reason +:+ "Strong Uptrend | 7d Change: " +:+ trend_text
            else if fgt recent_change (Fin 3) then
              reason +:+ "Uptrend | 7d Change: " +:+ trend_text
            else if flt recent_change (Fin (-10)) then
              reason +:+ "Strong Downtrend | 7d Change: " +:+ trend_text
            else if flt recent_change (Fin (-3)) then
              reason +:+ "Downtrend | 7d Change: " +:+ trend_text
            else
              reason +:+ "Sideways | 7d Change: " +:+ trend_text in
          ret (PTuple [PStr prediction; pint confidence; PStr reason])
  end.

Definition rule_based_prediction (df : option DataFrame) : M pyval :=
  try_except
    (rule_based_body df)
    (fun e =>
       logger ERROR ("Rule-based prediction error: " +:+ exn_str e);;
       ret (PTuple [PStr "Neutral"; pint 50; PStr "Error in prediction algorithm"])).

(** The running lists of [enhanced_prediction]. *)
Record Votes : Type := mkVotes {
  signals : list fnum;
  confidences : list fnum;
  reasons : list string
}.

Definition vote (v : Votes) (s c : fnum) (r : string) : Votes :=
  mkVotes (signals v ++ [s]) (confidences v ++ [c]) (reasons v ++ [r]).

(** [sum(xs)] *)
Definition py_sum (xs : list fnum) : fnum := foldl fadd (Fin 0) xs.

(** [xs[-2:]] *)
Definition last_two {A} (xs : list A) : list A := drop (length xs - 2) xs.

(** [sorted(reasons, key=len, reverse=True)]: longest first, and strings
    of one length in their original order. *)
Fixpoint insert_by_len (r : string) (sorted : list string) : list string :=
  match sorted with
  | [] => [r]
  | x :: rest =>
      if (String.length x <? String.length r)%nat then r :: sorted
      else x :: insert_by_len r rest
  end.
Definition sorted_by_len_desc (rs : list string) : list string :=
  foldl (fun acc r => insert_by_len r acc) [] rs.

(** [" | ".join(xs)] *)
Fixpoint join (sep : string) (xs : list string) : string :=
  match xs with
  | [] => ""
  | [x] => x
  | x :: rest => x +:+ sep +:+ join sep rest
  end.

Definition pr2 (x : fnum) : pyval := PNum (py_round2 x).

Definition detailed_analysis (rsi macd macd_signal macd_diff bb_high bb_mid bb_low
    bb_width close stoch_k stoch_d adx ema12 ema26 divergence daily_spread
    close_5d_std close_10d_std close_5d_mean volume_spike : fnum)
    (prediction : string) (confidence : Z) : pyval :=
  let conf := fz confidence in
  PDict [
    ("indicators", PDict [
      ("rsi", PDict [
        ("value", pr2 rsi);
        ("interpretation",
          PStr (if flt rsi (Fin 30) then "Oversold"
                else if fgt rsi (Fin 70) then "Overbought" else "Neutral"));
        ("signal",
          PStr (if flt rsi (Fin 30) then "Buy"
                else if fgt rsi (Fin 70) then "Sell" else "Hold"))]);
      ("macd", PDict [
        ("value", pr2 macd);
        ("signal_line", pr2 macd_signal);
        ("histogram", pr2 macd_diff);
        ("trend", PStr (if fgt macd macd_signal then "Bullish" else "Bearish"));
        ("strength", PStr (if fgt (fabs macd_diff) (Fin (1 # 2)) then "Strong" else "Weak"))]);
      ("bollinger_bands", PDict [
        ("upper", pr2 bb_high);
        ("middle", pr2 bb_mid);
        ("lower", pr2 bb_low);
        ("width", pr2 bb_width);
        ("position", pr2 ((close - bb_low) / (bb_high - bb_low) * Fin 100)%F)]);
      ("stochastic", PDict [
        ("k", pr2 stoch_k);
        ("d", pr2 stoch_d);
        ("condition",
          PStr (if flt stoch_k (Fin 20) then "Oversold"
                else if fgt stoch_k (Fin 80) then "Overbought" else "Neutral"))]);
      ("adx", PDict [
        ("value", pr2 adx);
        ("trend_strength",
          PStr (if fgt adx (Fin 25) then "Strong"
                else if fgt adx (Fin 50) then "Very Strong" else "Weak"))]);
      ("ema_crossover", PDict [
        ("ema12", pr2 ema12);
        ("ema26", pr2 ema26);
        ("status", PStr (if fgt ema12 ema26 then "Golden Cross" else "Death Cross"));
        ("percent_diff", pr2 (fabs (ema12 - ema26) / ema26 * Fin 100)%F)]);
      ("divergence", PDict [
        ("type",
          PStr (if feqb divergence (Fin 1) then "Bullish"
                else if feqb divergence (Fin (-1)) then "Bearish" else "None"));
        ("strength",
          PStr (if feqb (fabs divergence) (Fin 1) then "Strong" else "None"))])]);
    ("price_metrics", PDict [
      ("volatility", PDict [
        ("daily_range", pr2 (daily_spread * Fin 100)%F);
        ("5d_std", pr2 close_5d_std);
        ("10d_std", pr2 close_10d_std)]);
      ("momentum", PDict [
        ("recent_trend", PStr (if fgt close close_5d_mean then "Up" else "Down"));
        ("volume_spike", pr2 volume_spike);
        ("magnitude",
          PStr (if fgt (fabs (close / close_5d_mean - Fin 1)%F) (Fin (5 # 100))
                then "Strong" else "Weak"))])]);
    ("prediction_weights", PDict [
      ("technical_indicators", pint 65);
      ("price_momentum", pint 25);
      ("volume_analysis", pint 10)]);
    ("best_timeframe",
      PStr (if String.eqb prediction "Bullish" && fgt conf (Fin 75) then "Short-term"
            else if String.eqb prediction "Bullish" && flt (Fin 60) conf && fle conf (Fin 75)
              then "Medium-term"
            else if String.eqb prediction "Bullish" then "Long-term"
            else if String.eqb prediction "Bearish" && fgt conf (Fin 75) then "Short-term"
            else if String.eqb prediction "Neutral" then "Wait" else "Medium-term"));
    ("sentiment_impact",
      PStr (if fgt conf (Fin 80) then "Strong Momentum"
            else if fgt conf (Fin 65) then "Building Momentum"
            else if fgt conf (Fin 50) then "Mixed Signals"
            else if fgt conf (Fin 30) then "Consolidating"
            else "Trend Reversal Possible"))].

(** [latest = enhanced_data.iloc[-1]] and then [latest[name]]. *)
Definition latest_of (data : DataFrame) (name : string) : M fnum :=
  c ← col data name; lift (iloc c (-1)).

(** The eight votes of the ensemble, in the order of the source. *)

(** 1. RSI *)
Definition rsi_vote (v : Votes) (rsi : fnum) : Votes :=
  if flt rsi (Fin 30) then
    vote v (Fin 1) (Fin 70 + (Fin 30 - rsi) * Fin (3 # 2))%F
         ("RSI oversold (" +:+ fmt1 lib rsi +:+ ")")
  else if fgt rsi (Fin 70) then
    vote v (Fin (-1)) (Fin 70 + (rsi - Fin 70) * Fin (3 # 2))%F
         ("RSI overbought (" +:+ fmt1 lib rsi +:+ ")")
  else
    let bias := if flt rsi (Fin 50) then Fin 1 else Fin (-1) in
    let strength := (fabs (rsi - Fin 50) / Fin 20)%F in
    vote v (bias * strength)%F (Fin 50 + strength * Fin 10)%F
         (if flt rsi (Fin 50)
          then "RSI transitioning lower (" +:+ fmt1 lib rsi +:+ ")"
          else "RSI transitioning higher (" +:+ fmt1 lib rsi +:+ ")").

(** 2. MACD *)
Definition macd_vote (v : Votes) (macd macd_signal macd_diff : fnum) : Votes :=
  let strength := py_min (fabs macd_diff * Fin 20)%F (Fin 25) in
  if fgt macd macd_signal then
    vote v (Fin 1) (Fin 50 + strength)%F "MACD above signal line"
  else
    vote v (Fin (-1)) (Fin 50 + strength)%F "MACD below signal line".

(** 3. EMA *)
Definition ema_vote (v : Votes) (ema12 ema26 : fnum) : Votes :=
  if fgt ema12 ema26 then
    let diff_pct := ((ema12 - ema26) / ema26 * Fin 100)%F in
    vote v (Fin 1) (Fin 50 + py_min (diff_pct * Fin 5)%F (Fin 30))%F
         "Short-term EMA above long-term EMA"
  else
    let diff_pct := ((ema26 - ema12) / ema26 * Fin 100)%F in
    vote v (Fin (-1)) (Fin 50 + py_min (diff_pct * Fin 5)%F (Fin 30))%F
         "Short-term EMA below long-term EMA".

(** 4. Bollinger Bands *)
Definition bollinger_vote (v : Votes) (close bb_low bb_high : fnum) : Votes :=
  let bb_pos := ((close - bb_low) / (bb_high - bb_low))%F in
  if flt bb_pos (Fin (2 # 10)) then
    vote v (Fin 1) (Fin 60 + (Fin (2 # 10) - bb_pos) * Fin 100)%F
         "Price near lower Bollinger Band"
  else if fgt bb_pos (Fin (8 # 10)) then
    vote v (Fin (-1)) (Fin 60 + (bb_pos - Fin (8 # 10)) * Fin 100)%F
         "Price near upper Bollinger Band"
  else v.

(** 5. Stochastic *)
Definition stochastic_vote (v : Votes) (stoch_k stoch_d : fnum) : Votes :=
  if flt stoch_k (Fin 20) && flt stoch_d (Fin 20) then
    vote v (Fin 1) (Fin 60 + (Fin 20 - stoch_k) * Fin (3 # 2))%F
         ("Stochastic oversold (" +:+ fmt1 lib stoch_k +:+ ")")
  else if fgt stoch_k (Fin 80) && fgt stoch_d (Fin 80) then
    vote v (Fin (-1)) (Fin 60 + (stoch_k - Fin 80) * Fin (3 # 2))%F
         ("Stochastic overbought (" +:+ fmt1 lib stoch_k +:+ ")")
  else if fgt stoch_k stoch_d && flt stoch_k (Fin 80) then
    vote v (Fin (1 # 2)) (Fin 55) "Stochastic K crossing above D"
  else if flt stoch_k stoch_d && fgt stoch_k (Fin 20) then
    vote v (Fin (- 1 # 2)) (Fin 55) "Stochastic K crossing below D"
  else v.

(** 6. ADX: a strong trend boosts every confidence so far. *)
Definition adx_boost (v : Votes) (adx : fnum) : Votes :=
  if fgt adx (Fin 25) then
    mkVotes (signals v)
      ((fun c => py_min (c * (Fin 1 + (adx - Fin 25) / Fin 100))%F (Fin 95))
         <$> confidences v)
      (reasons v ++ ["Strong trend (ADX: " +:+ fmt1 lib adx +:+ ")"])
  else v.

(** 7. Volume spike: confirms the direction of the last two signals. *)
Definition volume_vote (v : Votes) (volume_spike : fnum) : Votes :=
  if fgt volume_spike (Fin 2) then
    let avg_signal :=
      (py_sum (last_two (signals v)) / fnat (Nat.min (length (signals v)) 2))%F in
    if fgt avg_signal (Fin 0) then
      vote v (Fin 1) (Fin 60 + py_min (volume_spike * Fin 5)%F (Fin 25))%F
           ("High volume confirming uptrend (" +:+ fmt1 lib volume_spike +:+ "x)")
    else if flt avg_signal (Fin 0) then
      vote v (Fin (-1)) (Fin 60 + py_min (volume_spike * Fin 5)%F (Fin 25))%F
           ("High volume confirming downtrend (" +:+ fmt1 lib volume_spike +:+ "x)")
    else v
  else v.

(** 8. RSI divergence *)
Definition divergence_vote (v : Votes) (divergence : fnum) : Votes :=
  if feqb divergence (Fin 1) then
    vote v (Fin (3 # 2)) (Fin 80) "Bullish RSI divergence"
  else if feqb divergence (Fin (-1)) then
    vote v (Fin (- 3 # 2)) (Fin 80) "Bearish RSI divergence"
  else v.

Definition overall_of (v : Votes) : fnum :=
  (py_sum (signals v) / fnat (length (signals v)))%F.

Definition label_of (overall_signal : fnum) : string :=
  if fgt overall_signal (Fin (2 # 10)) then "Bullish"
  else if flt overall_signal (Fin (- 2 # 10)) then "Bearish"
  else "Neutral".

(** The confidence before rounding: the mean confidence scaled by the
    strength of the overall signal, at most 95. *)
Definition confidence_of (v : Votes) : fnum :=
  let base_confidence := (py_sum (confidences v) / fnat (length (confidences v)))%F in
  let signal_multiplier := py_min (fabs (overall_of v) * Fin (3 # 2))%F (Fin (3 # 2)) in
  py_min (base_confidence * signal_multiplier)%F (Fin 95).

(** The ensemble of indicators on the latest row of the augmented table,
    up to the [return] of the normal path. *)
Definition enhanced_scoring (enhanced_data : DataFrame) : M pyval :=
  _ ← lift (iloc (df_index enhanced_data) (-1));
  let latest := latest_of enhanced_data in
  let v := mkVotes [] [] [] in
  rsi ← latest "rsi";
  let v := rsi_vote v rsi in
  macd ← latest "macd";
  macd_signal ← latest "macd_signal";
  macd_diff ← latest "macd_diff";
  let v := macd_vote v macd macd_signal macd_diff in
  ema12 ← latest "ema12";
  ema26 ← latest "ema26";
  let v := ema_vote v ema12 ema26 in
  close ← latest "Close";
  bb_low ← latest "bb_low";
  bb_high ← latest "bb_high";
  let v := bollinger_vote v close bb_low bb_high in
  stoch_k ← latest "stoch_k";
  stoch_d ← latest "stoch_d";
  let v := stochastic_vote v stoch_k stoch_d in
  adx ← latest "adx";
  let v := adx_boost v adx in
  volume_spike ← latest "volume_spike";
  let v := volume_vote v volume_spike in
  divergence ← latest "divergence";
  let v := divergence_vote v divergence in
  let prediction := label_of (overall_of v) in
  confidence ← lift (py_int_round (confidence_of v));
  let reason := join " | " (take 3 (sorted_by_len_desc (reasons v))) in
  bb_mid ← latest "bb_mid";
  bb_width ← latest "bb_width";
  daily_spread ← latest "daily_spread";
  close_5d_std ← latest "close_5d_std";
  close_10d_std ← latest "close_10d_std";
  close_5d_mean ← latest "close_5d_mean";
  ret (PTuple [PStr prediction; pint confidence; PStr reason;
               detailed_analysis rsi macd macd_signal macd_diff bb_high bb_mid bb_low
                 bb_width close stoch_k stoch_d adx ema12 ema26 divergence daily_spread
                 close_5d_std close_10d_std close_5d_mean volume_spike
                 prediction confidence]).

(** The part of [enhanced_prediction] after the length check. *)
Definition enhanced_body (data : DataFrame) : M pyval :=
  _ ← col data "Close";
  generated ←
    try_except
      (enhanced_data ← generate_features data; ret (Some enhanced_data))
      (fun e =>
         logger ERROR ("Error generating features: " +:+ exn_str e);;
         ret None);
  match generated with
  | None => rule_based_prediction (Some data)
  | Some enhanced_data => enhanced_scoring enhanced_data
  end.

(** [enhanced_prediction(data)]: the documented result is the triple
    (prediction, confidence, reason); the function returns what its
    [return] statements build. *)
Definition enhanced_prediction (data : option DataFrame) : M pyval :=
  try_except
    (match data with
     | None =>
         logger WARNING "Not enough data for enhanced prediction, using rule-based fallback";;
         rule_based_prediction data
     | Some df =>
         if (df_len df <? 30)%nat then
           logger WARNING "Not enough data for enhanced prediction, using rule-based fallback";;
           rule_based_prediction data
         else enhanced_body df
     end)
    (fun e =>
       logger ERROR ("Error in enhanced prediction: " +:+ exn_str e);;
       rule_based_prediction data).

End WithLib.
End EnhancedMl.

(** The feature columns of [generate_features] before the fills, in the
    order of their assignment. *)
Definition raw_features (lib : Lib) (rows : nat) (close high low volume : series)
    (rsi : series) (macd : series * series * series) (ema12 ema26 : series)
    (bands : series * series * series) (stoch : series * series) (adx obv : series)
    (sr : series * series) : list (string * series) :=
  let price_diff := diff 5 close in
  let rsi_diff := diff 5 rsi in
  let next_day_return := EnhancedMl.shift_back (EnhancedMl.pct_change close) in
  [("rsi", rsi);
   ("macd", macd.1.1); ("macd_signal", macd.1.2); ("macd_diff", macd.2);
   ("ema12", ema12); ("ema26", ema26);
   ("bb_high", bands.1.1); ("bb_low", bands.1.2); ("bb_mid", bands.2);
   ("bb_width", smap2 fdiv (smap2 fsub bands.1.1 bands.1.2) bands.2);
   ("stoch_k", stoch.1); ("stoch_d", stoch.2);
   ("adx", adx);
   ("obv", if EnhancedMl.all_zero volume then replicate rows (Fin 0) else obv);
   ("stoch_rsi_k", sr.1); ("stoch_rsi_d", sr.2);
   ("close_5d_mean", rolling_mean 5 close);
   ("close_10d_mean", rolling_mean 10 close);
   ("close_5d_std", rolling_std lib 5 close);
   ("close_10d_std", rolling_std lib 10 close);
   ("daily_spread", smap2 fdiv (smap2 fsub high low) close)]
  ++ (if EnhancedMl.all_zero volume then [("volume_spike", replicate rows (Fin 1))]
      else [("volume_5d_mean", rolling_mean 5 volume);
            ("volume_spike", smap2 fdiv volume (rolling_mean 5 volume))])
  ++ [("price_diff", price_diff);
      ("rsi_diff", rsi_diff);
      ("divergence", zip_with EnhancedMl.divergence_flag price_diff rsi_diff);
      ("next_day_return", next_day_return);
      ("target", (fun r => if fgt r (Fin 0) then Fin 1 else Fin 0) <$> next_day_return)].

(** ** backtesting.py *)

Module Backtesting.
Section WithLib.
Context (lib : Lib).

(** [s.endswith(suffix)] *)
Definition ends_with (suffix s : string) : bool :=
  let n := String.length s in
  let m := String.length suffix in
  (m <=? n)%nat && String.eqb (String.substring (n - m) m s) suffix.

Record Trade : Type := mkTrade {
  t_date : string;
  t_timestamp : Z;
  t_prediction : pyval;
  t_confidence : pyval;
  t_price : fnum;
  t_future_price : fnum;
  t_actual_return : fnum;
  t_reason : pyval;
  t_outcome : string
}.

Definition trade_dict (t : Trade) : pyval :=
  PDict [("date", PStr (t_date t));
         ("timestamp", pint (t_timestamp t));
         ("prediction", t_prediction t);
         ("confidence", t_confidence t);
         ("price", PNum (t_price t));
         ("future_price", PNum (t_future_price t));
         ("actual_return", PNum (t_actual_return t));
         ("reason", t_reason t);
         ("outcome", PStr (t_outcome t))].

Definition outcome_of (prediction : pyval) (actual_return : fnum) : string :=
  if (py_is_str prediction "Bullish" && fgt actual_return (Fin 0))
     || (py_is_str prediction "Bearish" && flt actual_return (Fin 0))
  then "Success"
  else if py_is_str prediction "Neutral" then "Neutral"
  else "Failure".

(** One pass of the body of the walk-forward loop, at index [i]. *)
Definition step (enhanced_data : DataFrame) (prediction_interval i : nat) : M Trade :=
  let historical_slice := df_head (S i) enhanced_data in
  closes ← lift (df_getitem enhanced_data "Close");
  future_price ← lift (iloc closes (Z.of_nat (i + prediction_interval)));
  slice_closes ← lift (df_getitem historical_slice "Close");
  current_price ← lift (iloc slice_closes (-1));
  let actual_return := ((future_price / current_price - Fin 1) * Fin 100)%F in
  result ← EnhancedMl.enhanced_prediction lib (Some historical_slice);
  targets ← lift (py_unpack 3 result);
  match targets with
  | [prediction; confidence; reason] =>
      day ← lift (iloc (df_index historical_slice) (-1));
      ret (mkTrade (strftime_date lib day) (day * 1000) prediction confidence
                   current_price future_price actual_return reason
                   (outcome_of prediction actual_return))
  | _ => raise (ValueError "not enough values to unpack")
  end.

(** [for i in range(start_idx, len(enhanced_data) - prediction_interval)]:
    the loop variable takes every value of the range in turn; the
    assignment [i += 3] that ends the body is overwritten by the next
    value of the range. *)
Fixpoint walk (enhanced_data : DataFrame) (prediction_interval : nat)
    (idxs : list nat) (trades : list Trade) : M (list Trade) :=
  match idxs with
  | [] => ret trades
  | i :: rest =>
      t ← step enhanced_data prediction_interval i;
      walk enhanced_data prediction_interval rest (trades ++ [t])
  end.

Definition py_range (lo hi : nat) : list nat := seq lo (hi - lo).

Definition count_outcome (o : string) (trades : list Trade) : nat :=
  length (filter (fun t => t_outcome t = o) trades).

Definition initial_capital : fnum := Fin 10000.

(** The strategy: a Bullish prediction is held for the interval with the
    whole capital; Bearish and Neutral leave the portfolio as it is. *)
Definition portfolio (trades : list Trade) : fnum :=
  foldl (fun value t =>
           if py_is_str (t_prediction t) "Bullish"
           then (value * (Fin 1 + t_actual_return t / Fin 100))%F
           else value)
        initial_capital trades.

(** The buy-and-hold value, set when the loop reaches the last trade; a
    zero first price is a ZeroDivisionError. *)
Definition hodl (trades : list Trade) : res fnum :=
  match head trades, last trades with
  | Some first, Some final =>
      match py_truediv (t_price final) (t_price first) with
      | Ok ratio =>
          let hodl_return := ((ratio - Fin 1) * Fin 100)%F in
          Ok (initial_capital * (Fin 1 + hodl_return / Fin 100))%F
      | Raise e => Raise e
      end
  | _, _ => Ok initial_capital
  end.

Definition error_response (msg : string) (status : Z) : pyval :=
  PTuple [PDict [("error", PStr msg)]; pint status].

Definition report (symbol period : string) (prediction_interval : nat)
    (trades : list Trade) : M pyval :=
  let successful_trades := count_outcome "Success" trades in
  let failed_trades := count_outcome "Failure" trades in
  let neutral_trades := count_outcome "Neutral" trades in
  let total_predictions := (successful_trades + failed_trades + neutral_trades)%nat in
  let portfolio_value := portfolio trades in
  hodl_value ← lift (hodl trades);
  let success_rate :=
    if (0 <? total_predictions)%nat
    then (fnat successful_trades / fnat total_predictions * Fin 100)%F
    else Fin 0 in
  let portfolio_return := ((portfolio_value / initial_capital - Fin 1) * Fin 100)%F in
  let hodl_return := ((hodl_value / initial_capital - Fin 1) * Fin 100)%F in
  let alpha := (portfolio_return - hodl_return)%F in
  now ← now_timestamp;
  ret (PDict [("symbol", PStr symbol);
              ("period", PStr period);
              ("prediction_interval", PNum (fnat prediction_interval));
              ("num_trades", PNum (fnat (length trades)));
              ("successful_trades", PNum (fnat successful_trades));
              ("failed_trades", PNum (fnat failed_trades));
              ("neutral_trades", PNum (fnat neutral_trades));
              ("success_rate", PNum (py_round2 success_rate));
              ("initial_capital", PNum initial_capital);
              ("final_portfolio_value", PNum (py_round2 portfolio_value));
              ("portfolio_return", PNum (py_round2 portfolio_return));
              ("hodl_return", PNum (py_round2 hodl_return));
              ("alpha", PNum (py_round2 alpha));
              ("trades", PList (trade_dict <$> drop (length trades - 20) trades));
              ("timestamp", PStr (isoformat lib now))]).

Definition start_idx : nat := 30.

(** The symbol in upper case, with [-USD] appended unless it ends so. *)
Definition ticker (symbol : string) : string :=
  let symbol := str_upper lib symbol in
  if ends_with "-USD" symbol then symbol else symbol +:+ "-USD".

(** The [try] of [run_backtest], after the check of the symbol. *)
Definition run_backtest_body (symbol period : string) (prediction_interval : nat)
  : M pyval :=
  let symbol := ticker symbol in
  logger INFO ("Fetching data for " +:+ symbol +:+ " for backtesting (" +:+ period +:+ ")");;
  data ← lift (yf_download lib symbol period);
  if df_empty data || (df_len data <? 30)%nat then
    ret (error_response ("Insufficient data for " +:+ symbol +:+ " to run backtest") 400)
  else
    generated ←
      try_except
        (enhanced_data ← EnhancedMl.generate_features lib data; ret (inl enhanced_data))
        (fun e =>
           logger ERROR ("Error generating features for backtest: " +:+ exn_str e);;
           ret (inr (error_response
                       ("Failed to process data for backtest: " +:+ exn_str e) 500)));
    match generated with
    | inr response => ret response
    | inl enhanced_data =>
        trades ← walk enhanced_data prediction_interval
                   (py_range start_idx (df_len enhanced_data - prediction_interval)) [];
        match trades with
        | [] => ret (error_response "No valid trades generated during backtest" 400)
        | _ => report symbol period prediction_interval trades
        end
    end.

(** [run_backtest(symbol, period="1y", prediction_interval=7)] *)
Definition run_backtest (symbol period : string) (prediction_interval : nat) : M pyval :=
  try_except
    (if String.eqb symbol "" then ret (error_response "Symbol is required" 400)
     else run_backtest_body symbol period prediction_interval)
    (fun e =>
       logger ERROR ("Error running backtest: " +:+ exn_str e);;
       ret (error_response ("Backtest failed: " +:+ exn_str e) 500)).

(** The trade records a run builds, read off its report. *)
Definition num_trades (response : pyval) : option fnum :=
  match response with
  | PDict kvs =>
      match assoc_get "num_trades" kvs with
      | Some (PNum n) => Some n
      | _ => None
      end
  | _ => None
  end.

End WithLib.
End Backtesting.

(** ** The caches of the analyzers *)

(** [_get_cached_data]: the stored value if it is younger than the
    time to live, else [None]. *)
Definition cache_lookup (cache : gmap string (Q * pyval)) (ttl now : Q)
    (cache_key : string) : pyval :=
  match cache !! cache_key with
  | Some (timestamp, data) => if Qltb (now - timestamp) ttl then data else PNone
  | None => PNone
  end.

(** [d[k]] read as a number. *)
Definition num_at (d : pyval) (k : string) : M fnum :=
  v ← lift (dict_getitem d k); lift (as_num v).

(** [max(lo, min(hi, x))] *)
Definition clamp (lo hi x : fnum) : fnum := py_max lo (py_min hi x).

(** ** onchain_data.py *)

Module OnChain.
Section WithLib.
Context (lib : Lib).

Definition cache_ttl : Q := 3600.

Definition supported_chains : list (string * string) :=
  [("BTC", "Bitcoin"); ("ETH", "Ethereum"); ("BNB", "Binance Chain");
   ("MATIC", "Polygon"); ("SOL", "Solana"); ("ADA", "Cardano");
   ("DOT", "Polkadot"); ("AVAX", "Avalanche"); ("ALGO", "Algorand");
   ("XTZ", "Tezos")].

Definition mem (x : string) (xs : list string) : bool := existsb (String.eqb x) xs.

Definition _get_chain_for_symbol (symbol : string) : string :=
  if bool_decide (is_Some (assoc_get symbol supported_chains)) then symbol
  else if mem symbol ["WBTC"; "BTCB"] then "BTC"
  else if mem symbol ["WETH"; "BETH"; "UNI"; "LINK"; "AAVE"; "COMP"; "MKR"; "SNX"] then "ETH"
  else if mem symbol ["CAKE"; "BAKE"; "BURGER"] then "BNB"
  else "ETH".

Definition _get_cached_data (cache_key : string) : M pyval :=
  fun w => (Ok (cache_lookup (w_onchain_cache w) cache_ttl (w_now w) cache_key), w).

Definition _set_cache (cache_key : string) (data : pyval) : M unit :=
  fun w => (Ok tt, mkWorld (w_log w) (w_now w) (w_cache w)
                           (<[cache_key := (w_now w, data)]> (w_onchain_cache w))
                           (w_social_cache w)).

Definition analysis (symbol timeframe : string) : M pyval :=
  let chain := _get_chain_for_symbol symbol in
  now ← now_timestamp;
  whale_data ← lift (simulate_whale_activity lib symbol timeframe now);
  wallet_data ← lift (simulate_wallet_activity lib symbol timeframe now);
  outflows ← num_at whale_data "exchange_outflows";
  inflows ← num_at whale_data "exchange_inflows";
  let whale_sentiment := if fgt outflows inflows then "Bullish" else "Bearish" in
  new_addresses ← num_at wallet_data "new_addresses";
  active_addresses ← num_at wallet_data "active_addresses";
  address_growth_factor ← lift (py_truediv new_addresses active_addresses);
  let wallet_sentiment :=
    if fgt address_growth_factor (Fin (2 # 100)) then "Bullish"
    else if fgt address_growth_factor (Fin (1 # 100)) then "Neutral"
    else "Bearish" in
  ratio ← lift (py_truediv (outflows - inflows)%F (py_max inflows (Fin 1)));
  let whale_score := clamp (Fin (-80)) (Fin 80) (ratio * Fin 50)%F in
  let wallet_score :=
    clamp (Fin (-70)) (Fin 70) ((address_growth_factor - Fin (15 # 1000)) * Fin 1000)%F in
  let combined_score :=
    clamp (Fin (-100)) (Fin 100)
          (whale_score * Fin (6 # 10) + wallet_score * Fin (4 # 10))%F in
  ret (PDict [("symbol", PStr symbol);
              ("blockchain", PStr (default "Ethereum" (assoc_get chain supported_chains)));
              ("timeframe", PStr timeframe);
              ("whale_sentiment", PStr whale_sentiment);
              ("wallet_sentiment", PStr wallet_sentiment);
              ("overall_sentiment",
                PStr (if fgt combined_score (Fin 20) then "Bullish"
                      else if flt combined_score (Fin (-20)) then "Bearish"
                      else "Neutral"));
              ("score", PNum combined_score);
              ("details", PDict [("whale", whale_data); ("wallet", wallet_data)]);
              ("analysis_time", PStr (strftime_datetime lib now))]).

(** [OnChainAnalyzer.get_onchain_analysis(symbol, timeframe='24h')] *)
Definition get_onchain_analysis (symbol timeframe : string) : M pyval :=
  let cache_key := "onchain_" +:+ symbol +:+ "_" +:+ timeframe in
  cached_data ← _get_cached_data cache_key;
  hit ← lift (py_truthy cached_data);
  if (hit : bool) then ret cached_data
  else
    try_except
      (result ← analysis symbol timeframe;
       _set_cache cache_key result;;
       ret result)
      (fun e =>
         logger ERROR ("Error in on-chain analysis for " +:+ symbol +:+ ": " +:+ exn_str e);;
         ret (PDict [("symbol", PStr symbol);
                     ("timeframe", PStr timeframe);
                     ("overall_sentiment", PStr "Neutral");
                     ("score", pint 0);
                     ("error", PStr (exn_str e))])).

End WithLib.
End OnChain.

(** ** social_sentiment.py *)

Module Social.
Section WithLib.
Context (lib : Lib).

Definition cache_ttl : Q := 3600.

Definition _get_cached_data (cache_key : string) : M pyval :=
  fun w => (Ok (cache_lookup (w_social_cache w) cache_ttl (w_now w) cache_key), w).

Definition _set_cache (cache_key : string) (data : pyval) : M unit :=
  fun w => (Ok tt, mkWorld (w_log w) (w_now w) (w_cache w) (w_onchain_cache w)
                           (<[cache_key := (w_now w, data)]> (w_social_cache w))).

Definition neutral_source (e : exn) : pyval :=
  PDict [("sentiment", PStr "Neutral");
         ("sentiment_score", pint 0);
         ("error", PStr (exn_str e))].

(** [get_twitter_sentiment] and [get_reddit_sentiment] differ in the
    name of the platform and in the simulation they call. *)
Definition platform_sentiment (key_prefix platform : string)
    (simulate : string -> Q -> res pyval) (symbol : string) : M pyval :=
  let cache_key := key_prefix +:+ symbol in
  cached_data ← _get_cached_data cache_key;
  hit ← lift (py_truthy cached_data);
  if (hit : bool) then ret cached_data
  else
    try_except
      (now ← now_timestamp;
       sentiment_data ← lift (simulate symbol now);
       _set_cache cache_key sentiment_data;;
       ret sentiment_data)
      (fun e =>
         logger ERROR ("Error getting " +:+ platform +:+ " sentiment for "
                       +:+ symbol +:+ ": " +:+ exn_str e);;
         ret (neutral_source e)).

Definition get_twitter_sentiment : string -> M pyval :=
  platform_sentiment "twitter_sentiment_" "Twitter" (simulate_twitter_sentiment lib).

Definition get_reddit_sentiment : string -> M pyval :=
  platform_sentiment "reddit_sentiment_" "Reddit" (simulate_reddit_sentiment lib).

Definition count_if (p : fnum -> bool) (xs : list fnum) : nat :=
  length (List.filter p xs).

Definition combined (symbol : string) : M pyval :=
  twitter_data ← get_twitter_sentiment symbol;
  reddit_data ← get_reddit_sentiment symbol;
  now ← now_timestamp;
  news_data ← lift (get_news_sentiment lib symbol now);
  twitter_score ← num_at twitter_data "sentiment_score";
  reddit_score ← num_at reddit_data "sentiment_score";
  news_score ← num_at news_data "score";
  let weighted_score :=
    (twitter_score * Fin (4 # 10) + reddit_score * Fin (3 # 10)
     + news_score * Fin (3 # 10))%F in
  let scores := [twitter_score; reddit_score; news_score] in
  let positive x := fgt x (Fin (1 # 10)) in
  let negative x := flt x (Fin (- 1 # 10)) in
  let strong_agreement := forallb positive scores || forallb negative scores in
  let moderate_agreement :=
    (2 <=? count_if positive scores)%nat || (2 <=? count_if negative scores)%nat in
  let sentiment :=
    if fgt weighted_score (Fin (2 # 10)) then "Bullish"
    else if flt weighted_score (Fin (- 2 # 10)) then "Bearish"
    else "Neutral" in
  strength ← lift (py_int (fabs weighted_score * Fin 100)%F);
  let sentiment_strength := Z.min 100 (Z.max 20 strength) in
  twitter_label ← lift (dict_getitem twitter_data "sentiment");
  reddit_label ← lift (dict_getitem reddit_data "sentiment");
  news_label ← lift (dict_getitem news_data "sentiment");
  ret (PDict [("symbol", PStr symbol);
              ("sentiment", PStr sentiment);
              ("score", PNum weighted_score);
              ("strength", pint sentiment_strength);
              ("agreement",
                PStr (if strong_agreement then "Strong"
                      else if moderate_agreement then "Moderate" else "Weak"));
              ("twitter_sentiment", twitter_label);
              ("reddit_sentiment", reddit_label);
              ("news_sentiment", news_label);
              ("details", PDict [("twitter", twitter_data);
                                 ("reddit", reddit_data);
                                 ("news", news_data)]);
              ("analysis_time", PStr (strftime_datetime lib now))]).

(** [SocialSentimentAnalyzer.get_combined_social_sentiment(symbol)] *)
Definition get_combined_social_sentiment (symbol : string) : M pyval :=
  let cache_key := "combined_sentiment_" +:+ symbol in
  cached_data ← _get_cached_data cache_key;
  hit ← lift (py_truthy cached_data);
  if (hit : bool) then ret cached_data
  else
    try_except
      (result ← combined symbol;
       _set_cache cache_key result;;
       ret result)
      (fun e =>
         logger ERROR ("Error in combined sentiment analysis for " +:+ symbol
                       +:+ ": " +:+ exn_str e);;
         ret (PDict [("symbol", PStr symbol);
                     ("sentiment", PStr "Neutral");
                     ("score", pint 0);
                     ("strength", pint 50);
                     ("agreement", PStr "Unknown");
                     ("error", PStr (exn_str e))])).

End WithLib.
End Social.

(** ** multi_signal_analyzer.py *)

Module MultiSignal.
Section WithLib.
Context (lib : Lib).

Definition cache_ttl : Q := 1800.

(** [MultiSignalAnalyzer._get_cached_data] *)
Definition _get_cached_data (cache_key : string) : M pyval :=
  fun w => (Ok (cache_lookup (w_cache w) cache_ttl (w_now w) cache_key), w).

(** [MultiSignalAnalyzer._set_cache] *)
Definition _set_cache (cache_key : string) (data : pyval) : M unit :=
  fun w => (Ok tt, mkWorld (w_log w) (w_now w)
                           (<[cache_key := (w_now w, data)]> (w_cache w))
                           (w_onchain_cache w) (w_social_cache w)).

(** The text of a value inside an f-string. *)
Definition py_str (v : pyval) : string :=
  match v with
  | PStr s => s
  | PNum x => str_num lib x
  | _ => py_repr lib v
  end.

(** [s.mean()]: pandas skips the undefined values. *)
Definition nanmean (xs : series) : fnum :=
  fmean (List.filter (fun x => negb (is_nan x)) xs).

(** [s.rstrip(', ')] *)
Definition rstrip_comma_space (s : string) : string :=
  let strip := fix strip (cs : list Ascii.ascii) : list Ascii.ascii :=
    match cs with
    | c :: rest =>
        let c1 := String c EmptyString in
        if String.eqb c1 "," || String.eqb c1 " " then strip rest else cs
    | [] => []
    end in
  String.string_of_list_ascii
    (rev (strip (rev (String.list_ascii_of_string s)))).

Definition neutral_technical (explanation : string) : pyval :=
  PDict [("overall_signal", PStr "Neutral");
         ("confidence", pint 50);
         ("explanation", PStr explanation)].

(** The loop that steps back from the last row while the RSI is
    undefined; [fuel] bounds the number of rows looked at. *)
Fixpoint latest_valid (fuel : nat) (rsi : series) (n : nat) (idx : Z) : M Z :=
  match fuel with
  | O => ret idx
  | S fuel' =>
      x ← lift (iloc rsi idx);
      if is_nan x && (Z.abs idx <? Z.of_nat n)%Z
      then latest_valid fuel' rsi n (idx - 1)
      else ret idx
  end.

(** [df[name] = v] followed by [df[name].iloc[idx]]: a series is stored
    as it is, a scalar fills the column. *)
Definition stored_then_read (v : pyval) (n : nat) (idx : Z) : res pyval :=
  match v with
  | PSeries xs =>
      if Nat.eqb (length xs) n then
        match iloc xs idx with Ok x => Ok (PNum x) | Raise e => Raise e end
      else Raise (ValueError "Length of values does not match length of index")
  | PNone | PBool _ | PNum _ | PStr _ => Ok v
  | _ => Raise (ValueError "Length of values does not match length of index")
  end.

Definition bollinger_signal (latest_close : fnum) (latest_bb_upper latest_bb_lower : pyval)
  : res string :=
  match py_gt (PNum latest_close) latest_bb_upper with
  | Raise e => Raise e
  | Ok true => Ok "Overbought"
  | Ok false =>
      match py_lt (PNum latest_close) latest_bb_lower with
      | Raise e => Raise e
      | Ok true => Ok "Oversold"
      | Ok false =>
          match as_num latest_bb_upper, as_num latest_bb_lower with
          | Ok upper, Ok lower =>
              let position_in_band := ((latest_close - lower) / (upper - lower))%F in
              Ok (if fgt position_in_band (Fin (6 # 10)) then "Bullish"
                  else if flt position_in_band (Fin (4 # 10)) then "Bearish"
                  else "Neutral")
          | Raise e, _ | _, Raise e => Raise e
          end
      end
  end.

(** The scoring that follows the computation of the indicators. *)
Definition technical_scoring (df : DataFrame) (close rsi macd_line signal_line : series)
    (upper_band lower_band golden_cross death_cross : pyval) : M pyval :=
  let n := df_len df in
  latest_valid_idx ← latest_valid n rsi n (-1)%Z;
  latest_close ← lift (iloc close latest_valid_idx);
  latest_rsi ← lift (iloc rsi latest_valid_idx);
  latest_macd ← lift (iloc macd_line latest_valid_idx);
  latest_macd_signal ← lift (iloc signal_line latest_valid_idx);
  latest_bb_upper ← lift (stored_then_read upper_band n latest_valid_idx);
  latest_bb_lower ← lift (stored_then_read lower_band n latest_valid_idx);
  let rsi_signal :=
    if flt latest_rsi (Fin 30) then "Oversold"
    else if fgt latest_rsi (Fin 70) then "Overbought" else "Neutral" in
  let macd_signal := if fgt latest_macd latest_macd_signal then "Bullish" else "Bearish" in
  bb_signal ← lift (bollinger_signal latest_close latest_bb_upper latest_bb_lower);
  volume_trend ←
    (if (10 <=? n)%nat then
       volume ← lift (df_getitem df "Volume");
       let volume_5d := nanmean (drop (length volume - 5) volume) in
       let volume_10d := nanmean (drop (length volume - 10) volume) in
       ret (if fgt volume_5d (volume_10d * Fin (11 # 10))%F then "Increasing"
            else if flt volume_5d (volume_10d * Fin (9 # 10))%F then "Decreasing"
            else "Stable")
     else ret "Unknown");
  change ←
    (if (5 <=? n)%nat then
       last ← lift (iloc close (-1));
       base ← lift (iloc close (-5));
       ret ((last / base - Fin 1) * Fin 100)%F
     else ret (Fin 0));
  let price_5d_change : fnum := change in
  let momentum :=
    if (5 <=? n)%nat then
      if fgt price_5d_change (Fin 5) then "Strong"
      else if flt price_5d_change (Fin (-5)) then "Weak" else "Neutral"
    else "Unknown" in
  golden ← lift (py_truthy golden_cross);
  death ← lift (if (golden : bool) then Ok false else py_truthy death_cross);
  let s_rsi : Z :=
    (if String.eqb rsi_signal "Oversold" then 2
     else if String.eqb rsi_signal "Overbought" then -2 else 0)%Z in
  let s_macd : Z := (if String.eqb macd_signal "Bullish" then 2 else -2)%Z in
  let s_bb : Z :=
    (if String.eqb bb_signal "Oversold" then 2
     else if String.eqb bb_signal "Overbought" then -2
     else if String.eqb bb_signal "Bullish" then 1
     else if String.eqb bb_signal "Bearish" then -1 else 0)%Z in
  let s_ema : Z := (if (golden : bool) then 3 else if (death : bool) then -3 else 0)%Z in
  let s_momentum : Z :=
    (if String.eqb momentum "Strong" && fgt price_5d_change (Fin 0) then 1
     else if String.eqb momentum "Strong" && flt price_5d_change (Fin 0) then -1
     else 0)%Z in
  let signal_score :=
    Z.max (-10) (Z.min 10 (s_rsi + s_macd + s_bb + s_ema + s_momentum)) in
  let overall_signal :=
    if (3 <? signal_score)%Z then "Bullish"
    else if (signal_score <? -3)%Z then "Bearish" else "Neutral" in
  let confidence := (50 + Z.abs signal_score * 5)%Z in
  let add (b : bool) (text : string) (acc : string) := if b then acc +:+ text else acc in
  let explanation :=
    if String.eqb overall_signal "Bullish" then
      add (0 <? s_momentum)%Z
          ("Price momentum is positive " +:+ fmt1 lib price_5d_change +:+ "%, ")
      (add (0 <? s_ema)%Z "EMA indicates golden cross, "
      (add (0 <? s_bb)%Z "Price is near lower Bollinger Band, "
      (add (0 <? s_macd)%Z "MACD is above signal line, "
      (add (0 <? s_rsi)%Z ("RSI is oversold at " +:+ fmt1 lib latest_rsi +:+ ", ")
           "Technical indicators are bullish: "))))
    else if String.eqb overall_signal "Bearish" then
      add (s_momentum <? 0)%Z
          ("Price momentum is negative " +:+ fmt1 lib price_5d_change +:+ "%, ")
      (add (s_ema <? 0)%Z "EMA indicates death cross, "
      (add (s_bb <? 0)%Z "Price is near upper Bollinger Band, "
      (add (s_macd <? 0)%Z "MACD is below signal line, "
      (add (s_rsi <? 0)%Z ("RSI is overbought at " +:+ fmt1 lib latest_rsi +:+ ", ")
           "Technical indicators are bearish: "))))
    else
      "Technical indicators are mixed: RSI at " +:+ fmt1 lib latest_rsi +:+ ", "
      +:+ (if fgt latest_macd latest_macd_signal
           then "MACD slightly bullish, " else "MACD slightly bearish, ")
      +:+ "Price in mid Bollinger Band range." in
  let explanation := rstrip_comma_space explanation in
  ret (PDict [
    ("overall_signal", PStr overall_signal);
    ("confidence", pint confidence);
    ("explanation", PStr explanation);
    ("indicators", PDict [
      ("rsi", PNum latest_rsi);
      ("rsi_signal", PStr rsi_signal);
      ("macd", PNum latest_macd);
      ("macd_signal_line", PNum latest_macd_signal);
      ("macd_signal", PStr macd_signal);
      ("bb_upper", latest_bb_upper);
      ("bb_lower", latest_bb_lower);
      ("bb_signal", PStr bb_signal);
      ("ema_signal",
        PStr (if (golden : bool) then "Golden Cross"
              else if (death : bool) then "Death Cross" else "Neutral"));
      ("volume_trend", PStr volume_trend);
      ("momentum", PStr momentum);
      ("price_5d_change", PNum price_5d_change)]);
    ("signals", PDict [("RSI", pint s_rsi); ("MACD", pint s_macd); ("BB", pint s_bb);
                       ("EMA", pint s_ema); ("Momentum", pint s_momentum)]);
    ("signal_score", pint signal_score)]).

(** The RSI column of [_analyze_technical_indicators]: the relative
    strength is the plain quotient, so a zero average loss gives an
    infinite strength (or NaN when the average gain is 0 too). *)
Definition rsi_column (close : series) : series :=
  let delta := diff 1 close in
  let gain := where_ (fun x => fgt x (Fin 0)) (Fin 0) delta in
  let loss := fneg <$> where_ (fun x => flt x (Fin 0)) (Fin 0) delta in
  let avg_gain := rolling_mean 14 gain in
  let avg_loss := rolling_mean 14 loss in
  let rs := smap2 fdiv avg_gain avg_loss in
  (fun r => (Fin 100 - Fin 100 / (Fin 1 + r))%F) <$> rs.

(** The [try] of [_analyze_technical_indicators]. *)
Definition technical_body (df : DataFrame) : M pyval :=
  close ← lift (df_getitem df "Close");
  let rsi := rsi_column close in
  macd ← Indicators.calculate_macd close 12 26 9;
  let '(macd_line, signal_line, histogram) := macd in
  bollinger ← Indicators.calculate_bollinger_bands lib close 20 (Fin 2);
  bands ← lift (py_unpack 3 bollinger);
  match bands with
  | [middle_band; upper_band; lower_band] =>
      _ ← lift (stored_then_read middle_band (df_len df) (-1));
      crossover ← Indicators.check_ema_crossover close 50 200;
      crosses ← lift (py_unpack 2 crossover);
      match crosses with
      | [golden_cross; death_cross] =>
          technical_scoring df close rsi macd_line signal_line
                            upper_band lower_band golden_cross death_cross
      | _ => raise (ValueError "not enough values to unpack")
      end
  | _ => raise (ValueError "not enough values to unpack")
  end.

(** [MultiSignalAnalyzer._analyze_technical_indicators(price_data)] *)
Definition _analyze_technical_indicators (price_data : option DataFrame) : M pyval :=
  match price_data with
  | None => ret (neutral_technical "Insufficient price data for technical analysis")
  | Some df =>
      if (df_len df <? 30)%nat then
        ret (neutral_technical "Insufficient price data for technical analysis")
      else
        try_except
          (technical_body df)
          (fun e =>
             logger ERROR ("Error in technical analysis: " +:+ exn_str e);;
             ret (neutral_technical ("Error in technical analysis: " +:+ exn_str e)))
  end.


(** The weights of the technical, on-chain and social scores. *)
Definition weights (timeframe : string) : Q * Q * Q :=
  if String.eqb timeframe "1h" then (5 # 10, 2 # 10, 3 # 10)
  else if String.eqb timeframe "1d" then (4 # 10, 3 # 10, 3 # 10)
  else (3 # 10, 5 # 10, 2 # 10).

(** ['Bullish' if x > 3 else 'Bearish' if x < -3 else 'Neutral'] *)
Definition direction (score : fnum) : string :=
  if fgt score (Fin 3) then "Bullish"
  else if flt score (Fin (-3)) then "Bearish"
  else "Neutral".

Definition count_str (label : string) (labels : list string) : nat :=
  length (List.filter (String.eqb label) labels).

Definition weighted_score (timeframe : string)
    (technical_score onchain_score social_score : fnum) : fnum :=
  let '(technical_w, onchain_w, social_w) := weights timeframe in
  (technical_score * Fin technical_w + onchain_score * Fin onchain_w
   + social_score * Fin social_w)%F.

(** The three scores on the common scale from -10 to 10: the technical
    score as it is (0 when the key is absent), the on-chain score divided
    by 10, the social score multiplied by 10. *)
Definition normalized_scores (technical onchain social : pyval)
  : res (fnum * fnum * fnum) :=
  match dict_get technical "signal_score" (pint 0),
        dict_get onchain "score" (pint 0),
        dict_get social "score" (pint 0) with
  | Ok t, Ok o, Ok s =>
      match as_num t, as_num o, as_num s with
      | Ok technical_score, Ok onchain_raw, Ok social_raw =>
          Ok (technical_score, (onchain_raw / Fin 10)%F, (social_raw * Fin 10)%F)
      | Raise e, _, _ | _, Raise e, _ | _, _, Raise e => Raise e
      end
  | Raise e, _, _ | _, Raise e, _ | _, _, Raise e => Raise e
  end.

(** [MultiSignalAnalyzer._calculate_combined_signal] *)
Definition _calculate_combined_signal (technical onchain social : pyval)
    (timeframe : string) : M (fnum * fnum * string * string) :=
  scores ← lift (normalized_scores technical onchain social);
  let '(technical_score, onchain_score, social_score) := scores in
  let combined_score := weighted_score timeframe technical_score onchain_score social_score in
  let prediction :=
    if fgt combined_score (Fin 2) then "Bullish"
    else if flt combined_score (Fin (-2)) then "Bearish"
    else "Neutral" in
  let score_confidence := (Fin 50 + fabs combined_score * Fin 5)%F in
  let signals :=
    [direction technical_score; direction onchain_score; direction social_score] in
  let bullish_count := count_str "Bullish" signals in
  let bearish_count := count_str "Bearish" signals in
  let agreement_bonus :=
    if Nat.eqb bullish_count 3 || Nat.eqb bearish_count 3 then Fin 20
    else if (2 <=? bullish_count)%nat || (2 <=? bearish_count)%nat then Fin 10
    else Fin 0 in
  let combined_confidence := py_min (Fin 100) (score_confidence + agreement_bonus)%F in
  let explanation :=
    str_upper lib timeframe +:+ " Forecast: " +:+ prediction +:+ " with "
    +:+ str_num lib combined_confidence +:+ "% confidence. " in
  explanation ←
    (if String.eqb prediction "Bullish" then
       t ← (if fgt technical_score (Fin 0) then
              e ← lift (dict_getitem technical "explanation");
              ret ["technical indicators (" +:+ py_str e +:+ ")"]
            else ret []);
       let o := if fgt onchain_score (Fin 0)
                then ["on-chain data (exchange outflows suggest accumulation)"] else [] in
       s ← (if fgt social_score (Fin 0) then
              a ← lift (dict_getitem social "agreement");
              ret ["social sentiment (" +:+ py_str a +:+ " agreement across platforms)"]
            else ret []);
       ret (explanation +:+ "Positive signals from "
            +:+ EnhancedMl.join ", " (t ++ o ++ s))
     else if String.eqb prediction "Bearish" then
       t ← (if flt technical_score (Fin 0) then
              e ← lift (dict_getitem technical "explanation");
              ret ["technical indicators (" +:+ py_str e +:+ ")"]
            else ret []);
       let o := if flt onchain_score (Fin 0)
                then ["on-chain data (increasing exchange inflows suggest distribution)"]
                else [] in
       s ← (if flt social_score (Fin 0) then
              a ← lift (dict_getitem social "agreement");
              ret ["social sentiment (" +:+ py_str a +:+ " agreement across platforms)"]
            else ret []);
       ret (explanation +:+ "Negative signals from "
            +:+ EnhancedMl.join ", " (t ++ o ++ s))
     else
       ret (explanation +:+ "Mixed signals: "
            +:+ (if flt (fabs technical_score) (Fin 3)
                 then "Technical indicators are neutral. " else "")
            +:+ (if flt (fabs onchain_score) (Fin 3)
                 then "On-chain metrics show no clear trend. " else "")
            +:+ (if flt (fabs social_score) (Fin 3)
                 then "Social sentiment is balanced. " else "")));
  ret (combined_score, combined_confidence, prediction, explanation).

(** The agreement level of [analyze_all_signals], from the three labels
    it collects. *)
Definition agreement_of (signals : list pyval) : string :=
  let bullish_count := length (List.filter (fun s => py_is_str s "Bullish") signals) in
  let bearish_count := length (List.filter (fun s => py_is_str s "Bearish") signals) in
  if Nat.eqb bullish_count 3 || Nat.eqb bearish_count 3 then "Strong"
  else if (2 <=? bullish_count)%nat || (2 <=? bearish_count)%nat then "Moderate"
  else "Weak".

(** The three labels: the technical label, the on-chain score against
    20 and -20, and the label of the social analyzer. *)
Definition agreement_signals (technical onchain social : pyval) : M (list pyval) :=
  technical_label ← lift (dict_getitem technical "overall_signal");
  onchain_raw ← num_at onchain "score";
  let onchain_label :=
    if fgt onchain_raw (Fin 20) then "Bullish"
    else if flt onchain_raw (Fin (-20)) then "Bearish"
    else "Neutral" in
  social_label ← lift (dict_getitem social "sentiment");
  ret [technical_label; PStr onchain_label; social_label].

(** The [try] of [analyze_all_signals]. *)
Definition analyze_body (cache_key symbol : string) (price_data : option DataFrame)
    (timeframe : string) : M pyval :=
  technical ← _analyze_technical_indicators price_data;
  let onchain_timeframe :=
    if String.eqb timeframe "1h" || String.eqb timeframe "1d" then "24h" else "7d" in
  onchain ← OnChain.get_onchain_analysis lib symbol onchain_timeframe;
  social ← Social.get_combined_social_sentiment lib symbol;
  combined ← _calculate_combined_signal technical onchain social timeframe;
  let '(combined_score, combined_confidence, prediction, explanation) := combined in
  signals ← agreement_signals technical onchain social;
  let agreement := agreement_of signals in
  now ← now_timestamp;
  let result :=
    PDict [("symbol", PStr symbol);
           ("timeframe", PStr timeframe);
           ("prediction", PStr prediction);
           ("confidence", PNum combined_confidence);
           ("score", PNum combined_score);
           ("explanation", PStr explanation);
           ("agreement", PStr agreement);
           ("signals", PDict [("technical", technical);
                              ("onchain", onchain);
                              ("social", social)]);
           ("analysis_time", PStr (strftime_datetime lib now))] in
  _set_cache cache_key result;;
  ret result.

(** [MultiSignalAnalyzer.analyze_all_signals(symbol, price_data, timeframe='1d')] *)
Definition analyze_all_signals (symbol : string) (price_data : option DataFrame)
    (timeframe : string) : M pyval :=
  let cache_key := "multi_signal_" +:+ symbol +:+ "_" +:+ timeframe in
  cached_data ← _get_cached_data cache_key;
  hit ← lift (py_truthy cached_data);
  if (hit : bool) then ret cached_data
  else
    try_except
      (analyze_body cache_key symbol price_data timeframe)
      (fun e =>
         logger ERROR ("Error in multi-signal analysis for " +:+ symbol
                       +:+ ": " +:+ exn_str e);;
         ret (PDict [("symbol", PStr symbol);
                     ("timeframe", PStr timeframe);
                     ("prediction", PStr "Neutral");
                     ("confidence", pint 50);
                     ("explanation", PStr ("Error in analysis: " +:+ exn_str e));
                     ("agreement", PStr "Unknown");
                     ("error", PStr (exn_str e))])).

End WithLib.
End MultiSignal.

(** ** Concrete environments and inputs

    The examples below run the model on small inputs.  [steady_lib] is an
    indicator library that answers every request with a steady market;
    [failing_lib] is one whose indicator classes raise, so that every
    prediction comes from the rule-based fallback; [short_window_lib] is
    [steady_lib] with an ADX that raises on a table shorter than its
    window of 14 rows, as the ADX of [ta] does. *)

Module Examples.

Definition day (i : nat) : Z := (86400 * Z.of_nat i)%Z.

(** [n] daily bars of a flat market at 100. *)
Definition flat_table (n : nat) : DataFrame :=
  mkDF (day <$> seq 0 n)
       [("Open", replicate n (Fin 100)); ("High", replicate n (Fin 100));
        ("Low", replicate n (Fin 100)); ("Close", replicate n (Fin 100));
        ("Volume", replicate n (Fin 1000))].

Definition like (x : fnum) (c : series) : series := replicate (length c) x.

Definition whale_example : pyval :=
  PDict [("large_inflows", pint 5); ("large_outflows", pint 4);
         ("exchange_inflows", pint 10); ("exchange_outflows", pint 12);
         ("inflow_outflow_ratio", PNum (Fin (12 # 10))); ("timeframe", PStr "24h")].

Definition wallet_example : pyval :=
  PDict [("transactions_per_day", pint 20000); ("active_addresses", pint 10000);
         ("new_addresses", pint 300); ("transaction_volume", pint 5000000);
         ("avg_transaction_size", pint 250); ("timeframe", PStr "24h")].

Definition platform_example (score : Q) : pyval :=
  PDict [("sentiment", PStr "Neutral"); ("sentiment_score", PNum (Fin score))].

Definition news_example : pyval :=
  PDict [("sentiment", PStr "Neutral"); ("score", PNum (Fin 0));
         ("article_count", pint 5); ("sources", PList [PStr "CoinDesk"])].

Definition steady_lib : Lib := {|
  ta_rsi := fun c _ => Ok (like (Fin 50) c);
  ta_macd := fun c => Ok (like (Fin 0) c, like (Fin 0) c, like (Fin 0) c);
  ta_ema := fun c _ => Ok c;
  ta_bollinger := fun c _ dev =>
    Ok ((fun x => fadd x dev) <$> c, (fun x => fsub x dev) <$> c, c);
  ta_stoch := fun _ _ c => Ok (like (Fin 50) c, like (Fin 50) c);
  ta_adx := fun _ _ c => Ok (like (Fin 20) c);
  ta_obv := fun _ v => Ok v;
  ta_stochrsi := fun c => Ok (like (Fin 50) c, like (Fin 50) c);
  rolling_std := fun _ c => like (Fin 0) c;
  yf_download := fun _ _ => Ok (flat_table 40);
  fmt1 := fun _ => "50.0";
  str_num := fun _ => "50";
  strftime_date := fun _ => "2024-01-01";
  strftime_datetime := fun _ => "2024-01-01 00:00:00";
  py_repr := fun _ => "{}";
  isoformat := fun _ => "2024-01-01T00:00:00";
  str_upper := fun s => s;
  simulate_whale_activity := fun _ _ _ => Ok whale_example;
  simulate_wallet_activity := fun _ _ _ => Ok wallet_example;
  simulate_twitter_sentiment := fun _ _ => Ok (platform_example (1 # 10));
  simulate_reddit_sentiment := fun _ _ => Ok (platform_example 0);
  get_news_sentiment := fun _ _ => Ok news_example
|}.

Definition unavailable {A} : res A := Raise (LibraryError "indicator unavailable").

Definition failing_lib : Lib := {|
  ta_rsi := fun _ _ => unavailable;
  ta_macd := fun _ => unavailable;
  ta_ema := fun _ _ => unavailable;
  ta_bollinger := fun _ _ _ => unavailable;
  ta_stoch := fun _ _ _ => unavailable;
  ta_adx := fun _ _ _ => unavailable;
  ta_obv := fun _ _ => unavailable;
  ta_stochrsi := fun _ => unavailable;
  rolling_std := rolling_std steady_lib;
  yf_download := yf_download steady_lib;
  fmt1 := fmt1 steady_lib;
  str_num := str_num steady_lib;
  strftime_date := strftime_date steady_lib;
  strftime_datetime := strftime_datetime steady_lib;
  py_repr := py_repr steady_lib;
  isoformat := isoformat steady_lib;
  str_upper := str_upper steady_lib;
  simulate_whale_activity := simulate_whale_activity steady_lib;
  simulate_wallet_activity := simulate_wallet_activity steady_lib;
  simulate_twitter_sentiment := simulate_twitter_sentiment steady_lib;
  simulate_reddit_sentiment := simulate_reddit_sentiment steady_lib;
  get_news_sentiment := get_news_sentiment steady_lib
|}.

Definition short_window_lib : Lib := {|
  ta_rsi := ta_rsi steady_lib;
  ta_macd := ta_macd steady_lib;
  ta_ema := ta_ema steady_lib;
  ta_bollinger := ta_bollinger steady_lib;
  ta_stoch := ta_stoch steady_lib;
  ta_adx := fun h l c =>
    if (length c <? 14)%nat then Raise (ValueError "negative dimensions are not allowed")
    else ta_adx steady_lib h l c;
  ta_obv := ta_obv steady_lib;
  ta_stochrsi := ta_stochrsi steady_lib;
  rolling_std := rolling_std steady_lib;
  yf_download := yf_download steady_lib;
  fmt1 := fmt1 steady_lib;
  str_num := str_num steady_lib;
  strftime_date := strftime_date steady_lib;
  strftime_datetime := strftime_datetime steady_lib;
  py_repr := py_repr steady_lib;
  isoformat := isoformat steady_lib;
  str_upper := str_upper steady_lib;
  simulate_whale_activity := simulate_whale_activity steady_lib;
  simulate_wallet_activity := simulate_wallet_activity steady_lib;
  simulate_twitter_sentiment := simulate_twitter_sentiment steady_lib;
  simulate_reddit_sentiment := simulate_reddit_sentiment steady_lib;
  get_news_sentiment := get_news_sentiment steady_lib
|}.

(** A provider with twelve days of history. *)
Definition thin_lib : Lib := {|
  ta_rsi := ta_rsi steady_lib;
  ta_macd := ta_macd steady_lib;
  ta_ema := ta_ema steady_lib;
  ta_bollinger := ta_bollinger steady_lib;
  ta_stoch := ta_stoch steady_lib;
  ta_adx := ta_adx steady_lib;
  ta_obv := ta_obv steady_lib;
  ta_stochrsi := ta_stochrsi steady_lib;
  rolling_std := rolling_std steady_lib;
  yf_download := fun _ _ => Ok (flat_table 12);
  fmt1 := fmt1 steady_lib;
  str_num := str_num steady_lib;
  strftime_date := strftime_date steady_lib;
  strftime_datetime := strftime_datetime steady_lib;
  py_repr := py_repr steady_lib;
  isoformat := isoformat steady_lib;
  str_upper := str_upper steady_lib;
  simulate_whale_activity := simulate_whale_activity steady_lib;
  simulate_wallet_activity := simulate_wallet_activity steady_lib;
  simulate_twitter_sentiment := simulate_twitter_sentiment steady_lib;
  simulate_reddit_sentiment := simulate_reddit_sentiment steady_lib;
  get_news_sentiment := get_news_sentiment steady_lib
|}.

(** A fresh process: nothing logged, nothing cached. *)
Definition fresh : World := mkWorld [] 1700000000 ∅ ∅ ∅.

(** Closing prices that rise by one each day. *)
Definition rising (n : nat) : series := fnat <$> seq 1 n.

(** Two bars, the second one without a close. *)
Definition gap_table : DataFrame :=
  mkDF [day 0; day 1] [("Close", [Fin 100; NaN])].

(** Scorer outputs inside their ranges. *)
Definition technical_example : pyval :=
  PDict [("overall_signal", PStr "Bullish"); ("confidence", pint 70);
         ("explanation", PStr "Technical indicators are bullish: MACD is above signal line");
         ("signal_score", pint 4)].

Definition onchain_example : pyval :=
  PDict [("overall_sentiment", PStr "Bullish"); ("score", pint 50)].

Definition social_example : pyval :=
  PDict [("sentiment", PStr "Bullish"); ("score", PNum (Fin (1 # 2)));
         ("agreement", PStr "Moderate")].

(** A library like [steady_lib] with the given simulations of the chain
    and of the platforms. *)
Definition with_simulations (whale wallet : pyval) (platform news : pyval) : Lib := {|
  ta_rsi := ta_rsi steady_lib;
  ta_macd := ta_macd steady_lib;
  ta_ema := ta_ema steady_lib;
  ta_bollinger := ta_bollinger steady_lib;
  ta_stoch := ta_stoch steady_lib;
  ta_adx := ta_adx steady_lib;
  ta_obv := ta_obv steady_lib;
  ta_stochrsi := ta_stochrsi steady_lib;
  rolling_std := rolling_std steady_lib;
  yf_download := yf_download steady_lib;
  fmt1 := fmt1 steady_lib;
  str_num := str_num steady_lib;
  strftime_date := strftime_date steady_lib;
  strftime_datetime := strftime_datetime steady_lib;
  py_repr := py_repr steady_lib;
  isoformat := isoformat steady_lib;
  str_upper := str_upper steady_lib;
  simulate_whale_activity := fun _ _ _ => Ok whale;
  simulate_wallet_activity := fun _ _ _ => Ok wallet;
  simulate_twitter_sentiment := fun _ _ => Ok platform;
  simulate_reddit_sentiment := fun _ _ => Ok platform;
  get_news_sentiment := fun _ _ => Ok news
|}.

Definition whale_flows (inflows outflows : Z) : pyval :=
  PDict [("large_inflows", pint 5); ("large_outflows", pint 5);
         ("exchange_inflows", pint inflows); ("exchange_outflows", pint outflows);
         ("inflow_outflow_ratio", PNum (Fin (12 # 10))); ("timeframe", PStr "24h")].

Definition wallet_growth (new_addresses : Z) : pyval :=
  PDict [("transactions_per_day", pint 200000); ("active_addresses", pint 100000);
         ("new_addresses", pint new_addresses); ("transaction_volume", pint 900000000);
         ("avg_transaction_size", pint 4500); ("timeframe", PStr "24h")].

Definition platform_positive (score : Q) : pyval :=
  PDict [("sentiment", PStr "Positive"); ("sentiment_score", PNum (Fin score))].

Definition news_positive (score : Q) : pyval :=
  PDict [("sentiment", PStr "Positive"); ("score", PNum (Fin score));
         ("article_count", pint 5); ("sources", PList [PStr "CoinDesk"])].

(** Coins leave the exchanges and every platform is positive: on-chain
    score 43.5, social score 0.5. *)
Definition bullish_lib : Lib :=
  with_simulations (whale_flows 12 27) (wallet_growth 3000)
                   (platform_positive (1 # 2)) (news_positive (1 # 2)).

(** A mild accumulation and a mildly positive mood: on-chain score 22.5,
    social score 0.25. *)
Definition mild_lib : Lib :=
  with_simulations (whale_flows 12 17) (wallet_growth 4000)
                   (platform_positive (1 # 4)) (news_positive (1 # 4)).



End Examples.

(** ** The wording of the specification

    The agreement level as section 8 of the specification words it, from
    the three directions taken with the thresholds 3 and -3 on the common
    scale; it is compared below with the rule of the code,
    [MultiSignal.agreement_of]. *)
Module SpecWords.

Definition agreement (technical_score onchain_score social_score : fnum) : string :=
  let t := MultiSignal.direction technical_score in
  let o := MultiSignal.direction onchain_score in
  let s := MultiSignal.direction social_score in
  if String.eqb t o && String.eqb o s then "Strong"
  else if String.eqb t o || String.eqb o s || String.eqb t s then "Moderate"
  else "Weak".

End SpecWords.

(** * Properties *)

(** ** The monad *)

Lemma bind_run {A B} (c : M A) (k : A -> M B) (w : World) :
  (c ≫= k) w =
  match c w with
  | (Ok a, w') => k a w'
  | (Raise e, w') => (Raise e, w')
  end.
Proof. reflexivity. Qed.

Lemma bind_ok {A B} (c : M A) (k : A -> M B) (w w2 : World) (b : B) :
  (c ≫= k) w = (Ok b, w2) ->
  exists a w1, c w = (Ok a, w1) /\ k a w1 = (Ok b, w2).
Proof.
  rewrite bind_run. destruct (c w) as [[a|e] w1]; intros H.
  - exists a, w1. split; [reflexivity | exact H].
  - discriminate H.
Qed.

Lemma lift_run {A} (r : res A) (w : World) : lift r w = (r, w).
Proof. reflexivity. Qed.

Lemma try_except_run {A} (body : M A) (handler : exn -> M A) (w : World) :
  try_except body handler w =
  match body w with
  | (Ok a, w') => (Ok a, w')
  | (Raise e, w') => handler e w'
  end.
Proof. reflexivity. Qed.

(** ** The float model *)

Lemma Qltb_lt (a b : Q) : Qltb a b = true <-> (a < b)%Q.
Proof.
  unfold Qltb. rewrite negb_true_iff. split.
  - intros H. apply Qnot_le_lt. intros Hle.
    apply Qle_bool_iff in Hle. congruence.
  - intros H. destruct (Qle_bool b a) eqn:E; [| reflexivity].
    apply Qle_bool_iff in E. exfalso. exact (Qlt_not_le _ _ H E).
Qed.

Lemma Qltb_ge (a b : Q) : Qltb a b = false <-> (b <= a)%Q.
Proof.
  unfold Qltb. rewrite negb_false_iff. apply Qle_bool_iff.
Qed.

Lemma feqb_refl (x : fnum) : is_nan x = false -> feqb x x = true.
Proof.
  destruct x; simpl; try reflexivity; try discriminate.
  intros _. apply Qeq_bool_iff. reflexivity.
Qed.

(** ** Exponential moving average *)

Lemma ewm_go_constant (alpha : Q) (c : fnum) (m : nat) (old_wt : Q) :
  ewm_go alpha c old_wt (replicate m c) = replicate m c.
Proof.
  revert old_wt. induction m as [|m IH]; intros old_wt; [reflexivity|].
  simpl. destruct (is_nan c) eqn:Hc.
  - rewrite IH. reflexivity.
  - rewrite (feqb_refl c Hc), IH. reflexivity.
Qed.

Lemma ewm_mean_constant (span : Z) (c : fnum) (n : nat) :
  (1 <= span)%Z -> ewm_mean span (replicate n c) = Ok (replicate n c).
Proof.
  intros Hs. unfold ewm_mean.
  destruct (Z.ltb_spec span 1) as [Hlt|_]; [lia|].
  destruct n as [|n]; [reflexivity|].
  simpl. rewrite ewm_go_constant. reflexivity.
Qed.

(** The smoothing step itself returns the constant: the test for an
    observation equal to the running value is a shortcut, not what makes
    the average of a constant series constant. *)
Lemma smoothing_step_constant (old_wt alpha q : Q) :
  ~ (old_wt + alpha == 0)%Q ->
  feq ((Fin old_wt * Fin q + Fin alpha * Fin q) / Fin (old_wt + alpha))%F (Fin q).
Proof.
  intros Hw. cbn [fmul fadd]. unfold fdiv.
  destruct (Qeq_bool (old_wt + alpha) 0) eqn:E.
  - apply Qeq_bool_iff in E. contradiction.
  - cbn [feq]. field. exact Hw.
Qed.

(** C10. The exponential moving average of a constant series, computed
    by the recursive smoothing with [adjust=False], is that constant at
    every index at which it is defined (not NaN), for every period. *)
Theorem calculate_ema_constant (c : fnum) (n : nat) (period : Z) (w : World)
    (s : series) (i : nat) (v : fnum) :
  value_of (Indicators.calculate_ema (replicate n c) period) w = Ok s ->
  s !! i = Some v ->
  is_nan v = false ->
  v = c.
Proof.
  unfold value_of, Indicators.calculate_ema. rewrite try_except_run, lift_run.
  destruct (Z.ltb_spec period 1) as [Hlt|Hge].
  - unfold ewm_mean. rewrite (proj2 (Z.ltb_lt _ _) Hlt). simpl.
    intros [= <-] Hi Hv. unfold nan_series in Hi.
    apply lookup_replicate in Hi as [-> _]. discriminate Hv.
  - rewrite (ewm_mean_constant _ _ _ Hge). simpl.
    intros [= <-] Hi _. apply lookup_replicate in Hi as [-> _]. reflexivity.
Qed.

Lemma calculate_ema_constant_witness :
  value_of (Indicators.calculate_ema (replicate 5 (Fin 7)) 14) Examples.fresh
    = Ok (replicate 5 (Fin 7))
  /\ Fin 7 = Fin 7.
Proof.
  split; [reflexivity|].
  apply (calculate_ema_constant (Fin 7) 5 14 Examples.fresh (replicate 5 (Fin 7)) 2 (Fin 7));
    reflexivity.
Defined.

(** For a period of at least 1 the average of a constant series is
    defined wherever the series is: the statement above is not vacuous. *)
Lemma calculate_ema_constant_total (c : fnum) (n : nat) (period : Z) (w : World) :
  (1 <= period)%Z ->
  Indicators.calculate_ema (replicate n c) period w = (Ok (replicate n c), w).
Proof.
  intros Hp. unfold Indicators.calculate_ema.
  rewrite try_except_run, lift_run, (ewm_mean_constant _ _ _ Hp). reflexivity.
Qed.

(** ** Relative strength index *)

(** C3. On closing prices that rise every day the average loss over the
    window is exactly 0, and the RSI of [calculate_stochastic_rsi] is 0
    there, the opposite end of the scale from the 100 that the definition
    of the index gives for a window without losses. *)
Theorem stochastic_rsi_of_rising_prices :
  exists rsi k d,
    Indicators.calculate_stochastic_rsi (Examples.rising 16) 14 3 3 Examples.fresh
      = (Ok (rsi, k, d), Examples.fresh)
    /\ feqb (default NaN (Indicators.average_loss (Examples.rising 16) 14 !! 15%nat)) (Fin 0)
         = true
    /\ feqb (default NaN (rsi !! 15%nat)) (Fin 0) = true
    /\ feqb (default NaN (rsi !! 15%nat)) (Fin 100) = false.
Proof.
  eexists _, _, _. split; [vm_compute; reflexivity|].
  repeat split; vm_compute; reflexivity.
Qed.

(** The sibling implementation in simple_rsi.py replaces a zero average
    loss by 1e-10: on the same prices its RSI is just below 100. *)
Lemma simple_rsi_of_rising_prices :
  exists rsi,
    SimpleRsi.calculate_rsi (Examples.rising 16) 14 Examples.fresh
      = (Ok rsi, Examples.fresh)
    /\ flt (Fin (9999 # 100)) (default NaN (rsi !! 15%nat)) = true
    /\ flt (default NaN (rsi !! 15%nat)) (Fin 100) = true.
Proof.
  eexists. split; [vm_compute; reflexivity|].
  split; vm_compute; reflexivity.
Qed.

(** On a flat market both implementations give 0. *)
Lemma rsi_of_flat_prices :
  feqb (default NaN ((Indicators.stochastic_rsi_body (replicate 16 (Fin 100)) 14 3 3).1.1
                       !! 15%nat)) (Fin 0) = true
  /\ feqb (default NaN (SimpleRsi.rsi_body (replicate 16 (Fin 100)) 14 !! 15%nat)) (Fin 0)
       = true.
Proof. split; vm_compute; reflexivity. Qed.

(** ** The range of the RSI *)

Lemma Qeq_bool_false (a b : Q) : Qeq_bool a b = false -> ~ (a == b)%Q.
Proof. intros H E. apply Qeq_bool_iff in E. congruence. Qed.

Lemma fadd_nonneg (x y : fnum) : fnonneg x -> fnonneg y -> fnonneg (fadd x y).
Proof.
  destruct x, y; simpl; try tauto. intros. lra.
Qed.

Lemma fsum_nonneg_from (acc : fnum) (xs : series) :
  fnonneg acc -> Forall fnonneg xs -> fnonneg (foldl fadd acc xs).
Proof.
  revert acc. induction xs as [|x xs IH]; intros acc Ha Hxs; [exact Ha|].
  inversion Hxs; subst. simpl. apply IH; [apply fadd_nonneg|]; assumption.
Qed.

Lemma fmean_nan_or_nonneg (xs : series) :
  Forall fnonneg xs -> nan_or_nonneg (fmean xs).
Proof.
  intros Hxs. unfold fmean, fsum.
  assert (Hs : fnonneg (foldl fadd (Fin 0) xs))
    by (apply fsum_nonneg_from; [simpl; lra | exact Hxs]).
  destruct (foldl fadd (Fin 0) xs) as [| |s|]; simpl in Hs; try tauto.
  - unfold fnat, fz, fdiv.
    destruct (Qeq_bool (inject_Z (Z.of_nat (length xs))) 0) eqn:E.
    + unfold inf_of_sign, fsgn.
      destruct (Qltb 0 s); [right; exact I|].
      destruct (Qltb s 0) eqn:E2; simpl; [|left; reflexivity].
      apply Qltb_lt in E2. lra.
    + right. simpl. apply Qeq_bool_false in E.
      assert (0 < inject_Z (Z.of_nat (length xs)))%Q.
      { destruct (length xs) as [|n]; [exfalso; apply E; reflexivity|].
        unfold Qlt. simpl. lia. }
      apply Qle_shift_div_l; [assumption|]. lra.
  - unfold fnat, fz, fdiv.
    destruct (Qeq_bool (inject_Z (Z.of_nat (length xs))) 0) eqn:E; [right; exact I|].
    apply Qeq_bool_false in E. unfold inf_of_sign, fsgn.
    assert (H : Qltb 0 (inject_Z (Z.of_nat (length xs))) = true).
    { apply Qltb_lt. destruct (length xs) as [|n]; [exfalso; apply E; reflexivity|].
      unfold Qlt. simpl. lia. }
    rewrite H. right. exact I.
Qed.

Lemma Forall_imap_intro {A B} (P : B -> Prop) (f : nat -> A -> B) (xs : list A) :
  (forall i x, xs !! i = Some x -> P (f i x)) -> Forall P (imap f xs).
Proof.
  intros H. apply Forall_lookup. intros i y Hy.
  rewrite list_lookup_imap in Hy.
  destruct (xs !! i) as [x|] eqn:Hx; [|discriminate].
  injection Hy as <-. apply H, Hx.
Qed.

Lemma Forall_zip_with_intro {A B C} (P : A -> Prop) (Q : B -> Prop) (R : C -> Prop)
    (f : A -> B -> C) (xs : list A) (ys : list B) :
  (forall x y, P x -> Q y -> R (f x y)) ->
  Forall P xs -> Forall Q ys -> Forall R (zip_with f xs ys).
Proof.
  intros Hf Hxs. revert ys. induction Hxs as [|x xs Hx Hxs IH]; intros ys Hys.
  - constructor.
  - destruct Hys as [|y ys Hy Hys]; [constructor|].
    cbn [zip_with]. constructor; [apply Hf; assumption | apply IH; assumption].
Qed.

Lemma defined_nonneg (win : series) :
  Forall nan_or_nonneg win -> existsb is_nan win = false -> Forall fnonneg win.
Proof.
  induction 1 as [|x win Hx Hwin IH]; [constructor|].
  cbn [existsb]. intros H. apply orb_false_iff in H as [Hnan Hrest].
  constructor; [|apply IH; exact Hrest].
  destruct Hx as [->|Hx]; [discriminate Hnan | exact Hx].
Qed.

(** The rolling mean of cells that are undefined or not negative is
    undefined or not negative. *)
Lemma rolling_mean_nan_or_nonneg (w : nat) (xs : series) :
  Forall nan_or_nonneg xs -> Forall nan_or_nonneg (rolling_mean w xs).
Proof.
  intros Hxs. unfold rolling_mean, rolling. apply Forall_imap_intro.
  intros i x _. destruct (S i <? w)%nat; [left; reflexivity|].
  cbv zeta. destruct (existsb is_nan (window w i xs)) eqn:Hnan; [left; reflexivity|].
  apply fmean_nan_or_nonneg, defined_nonneg; [|exact Hnan].
  unfold window. apply Forall_take, Forall_drop, Hxs.
Qed.

Lemma gains_nonneg (delta : series) :
  Forall nan_or_nonneg (where_ (fun x => fgt x (Fin 0)) (Fin 0) delta).
Proof.
  unfold where_. apply Forall_fmap, Forall_forall. intros x _. right. cbn.
  destruct x as [| |q|]; cbn;
    try (destruct (Qltb 0 q) eqn:E; cbn; [apply Qltb_lt in E|]);
    try lra; try exact I.
Qed.

Lemma losses_nonneg (delta : series) :
  Forall nan_or_nonneg (fneg <$> where_ (fun x => flt x (Fin 0)) (Fin 0) delta).
Proof.
  unfold where_. rewrite <- list_fmap_compose.
  apply Forall_fmap, Forall_forall. intros x _. right. cbn.
  destruct x as [| |q|]; cbn;
    try (destruct (Qltb q 0) eqn:E; cbn; [apply Qltb_lt in E|]);
    try lra; try exact I.
Qed.

Lemma fdiv_nonneg_pos (g l : fnum) :
  nan_or_nonneg g -> nan_or_nonneg l -> feqb l (Fin 0) = false ->
  nan_or_nonneg (fdiv g l).
Proof.
  intros [->|Hg] [->|Hl] Hz; try (left; reflexivity).
  - destruct g; left; reflexivity.
  - destruct g as [| |a|], l as [| |b|]; simpl in *; try tauto.
    + rewrite Hz. right. simpl. apply Qeq_bool_false in Hz.
      apply Qle_shift_div_l; [|lra].
      destruct (Qlt_le_dec 0 b) as [Hpos|Hneg]; [exact Hpos|].
      exfalso. apply Hz. lra.
    + right. simpl. lra.
    + rewrite Hz. apply Qeq_bool_false in Hz.
      assert (Hb : Qltb 0 b = true).
      { apply Qltb_lt. destruct (Qlt_le_dec 0 b) as [Hpos|Hneg]; [exact Hpos|].
        exfalso. apply Hz. lra. }
      unfold inf_of_sign, fsgn. rewrite Hb. right. exact I.
    + left. reflexivity.
Qed.

Lemma rsi_value_in_range (r : fnum) :
  nan_or_nonneg r -> in_percent_range (Fin 100 - Fin 100 / (Fin 1 + r))%F.
Proof.
  intros [->|Hr]; [exact I|].
  destruct r as [| |q|]; simpl in Hr; try tauto.
  - change (Fin 1 + Fin q)%F with (Fin (1 + q)). unfold fdiv.
    destruct (Qeq_bool (1 + q) 0) eqn:E.
    + apply Qeq_bool_iff in E. lra.
    + simpl.
      assert (H1 : (0 <= 100 / (1 + q))%Q) by (apply Qle_shift_div_l; lra).
      assert (H2 : (100 / (1 + q) <= 100)%Q) by (apply Qle_shift_div_r; lra).
      lra.
  - simpl. lra.
Qed.

(** The RSI of [calculate_stochastic_rsi] is undefined or between 0 and
    100, on every series and for every period. *)
Lemma stochastic_rsi_in_range (data : series) (period k_period d_period : nat) :
  Forall in_percent_range
    (Indicators.stochastic_rsi_body data period k_period d_period).1.1.
Proof.
  unfold Indicators.stochastic_rsi_body. cbn [fst]. unfold Indicators.rsi_of_rs.
  apply Forall_fmap.
  assert (Hrs : Forall nan_or_nonneg
                  (Indicators.relative_strength (Indicators.average_gain data period)
                                                (Indicators.average_loss data period))).
  { unfold Indicators.relative_strength.
    apply (Forall_zip_with_intro nan_or_nonneg nan_or_nonneg).
    - intros g l Hg Hl. destruct (feqb l (Fin 0)) eqn:Hz.
      + right. simpl. lra.
      + apply fdiv_nonneg_pos; assumption.
    - apply rolling_mean_nan_or_nonneg, gains_nonneg.
    - apply rolling_mean_nan_or_nonneg, losses_nonneg. }
  eapply Forall_impl; [exact Hrs|].
  intros r Hr. apply rsi_value_in_range, Hr.
Qed.

(** So is the RSI of [simple_rsi.calculate_rsi]. *)
Lemma simple_rsi_in_range (price_series : series) (window : nat) :
  Forall in_percent_range (SimpleRsi.rsi_body price_series window).
Proof.
  unfold SimpleRsi.rsi_body. cbv zeta. apply Forall_fmap.
  eapply Forall_impl; [|intros r Hr; apply rsi_value_in_range, Hr].
  unfold smap2. apply (Forall_zip_with_intro nan_or_nonneg
                         (fun l => nan_or_nonneg l /\ feqb l (Fin 0) = false)).
  - intros g l Hg [Hl Hz]. apply fdiv_nonneg_pos; assumption.
  - apply rolling_mean_nan_or_nonneg. unfold mask_assign.
    apply Forall_fmap, Forall_forall. intros x _. cbn.
    destruct x as [| |q|]; cbn;
      try (destruct (Qltb q 0) eqn:E; cbn; [|apply Qltb_ge in E]);
      try (left; reflexivity); right; cbn; try lra; try exact I.
  - unfold mask_assign at 1. apply Forall_fmap.
    eapply Forall_impl.
    + apply rolling_mean_nan_or_nonneg. unfold mask_assign.
      rewrite <- list_fmap_compose.
      apply Forall_fmap, Forall_forall. intros x _. cbn.
      destruct x as [| |q|]; cbn;
        try (destruct (Qltb 0 q) eqn:E; cbn; [apply Qltb_lt in E|]);
        try (left; reflexivity); right; cbn;
        try (apply Qabs_nonneg); try lra; try exact I;
        try (unfold Qle; cbn; lia).
    + intros l Hl. cbn. destruct (feqb l (Fin 0)) eqn:Hz.
      * split; [right; cbn; unfold SimpleRsi.tiny; lra | reflexivity].
      * split; assumption.
Qed.

(** At every index at which the rolling average loss is exactly 0, the
    RSI of [calculate_stochastic_rsi] is 0, whatever the average gain. *)
Lemma stochastic_rsi_at_zero_loss (data : series) (period k_period d_period i : nat)
    (g l : fnum) :
  Indicators.average_gain data period !! i = Some g ->
  Indicators.average_loss data period !! i = Some l ->
  feqb l (Fin 0) = true ->
  exists r,
    (Indicators.stochastic_rsi_body data period k_period d_period).1.1 !! i = Some r
    /\ feqb r (Fin 0) = true.
Proof.
  intros Hg Hl Hz. unfold Indicators.stochastic_rsi_body. cbn [fst].
  unfold Indicators.rsi_of_rs, Indicators.relative_strength.
  rewrite list_lookup_fmap, lookup_zip_with, Hg. cbn. rewrite Hl. cbn. rewrite Hz.
  eexists. split; [reflexivity|]. reflexivity.
Qed.

(** The inline RSI of the multi-signal analyzer divides without a guard:
    on rising prices the strength is infinite and the index is 100. *)
Lemma inline_rsi_of_rising_prices :
  feqb (default NaN (MultiSignal.rsi_column (Examples.rising 16) !! 15%nat)) (Fin 100)
    = true.
Proof. vm_compute. reflexivity. Qed.

(** ** Signal fusion *)

Lemma bind_lift_ok {A B} (r : res A) (a : A) (k : A -> M B) (w : World) :
  r = Ok a -> (lift r ≫= k) w = k a w.
Proof. intros ->. reflexivity. Qed.

Lemma weights_sum (timeframe : string) :
  let '(t, o, s) := MultiSignal.weights timeframe in (t + o + s == 1)%Q.
Proof.
  unfold MultiSignal.weights.
  destruct (String.eqb timeframe "1h"); [reflexivity|].
  destruct (String.eqb timeframe "1d"); reflexivity.
Qed.

Lemma weighted_score_bounded (timeframe : string) (t o s : Q) :
  (-10 <= t <= 10)%Q -> (-100 <= o <= 100)%Q -> (-1 <= s <= 1)%Q ->
  exists q, MultiSignal.weighted_score timeframe (Fin t) (Fin o / Fin 10)%F
              (Fin s * Fin 10)%F = Fin q
            /\ (-10 <= q <= 10)%Q.
Proof.
  intros Ht Ho Hs. unfold MultiSignal.weighted_score, MultiSignal.weights.
  destruct (String.eqb timeframe "1h"); [|destruct (String.eqb timeframe "1d")];
    simpl; eexists; (split; [reflexivity|]);
    assert (E : (o / 10 == o * (1 # 10))%Q) by field; rewrite E; lra.
Qed.

(** C5. For every timeframe the three weights sum to 1, and scorer
    outputs inside their ranges (technical in [-10,10], on-chain in
    [-100,100], social in [-1,1]) give a combined score in [-10,10]. *)
Theorem combined_score_bounded (lib : Lib) (timeframe : string)
    (technical onchain social e a : pyval) (t o s : Q) (w : World) :
  dict_get technical "signal_score" (pint 0) = Ok (PNum (Fin t)) ->
  dict_getitem technical "explanation" = Ok e ->
  dict_get onchain "score" (pint 0) = Ok (PNum (Fin o)) ->
  dict_get social "score" (pint 0) = Ok (PNum (Fin s)) ->
  dict_getitem social "agreement" = Ok a ->
  (-10 <= t <= 10)%Q -> (-100 <= o <= 100)%Q -> (-1 <= s <= 1)%Q ->
  (let '(wt, wo, ws) := MultiSignal.weights timeframe in (wt + wo + ws == 1)%Q)
  /\ exists q confidence prediction explanation,
       MultiSignal._calculate_combined_signal lib technical onchain social timeframe w
         = (Ok (Fin q, confidence, prediction, explanation), w)
       /\ (-10 <= q <= 10)%Q.
Proof.
  intros Ht He Ho Hs Ha Bt Bo Bs. split; [apply weights_sum|].
  destruct (weighted_score_bounded timeframe t o s Bt Bo Bs) as (q & Hq & Bq).
  exists q. unfold MultiSignal._calculate_combined_signal, MultiSignal.normalized_scores.
  rewrite Ht, Ho, Hs. cbn [as_num]. rewrite bind_run, lift_run.
  cbv zeta. rewrite Hq.
  destruct (Fin q >? Fin 2)%F; [|destruct (Fin q <? Fin (-2))%F];
    cbn [String.eqb Ascii.eqb Bool.eqb];
    destruct (fgt (Fin t) (Fin 0)), (flt (Fin t) (Fin 0)),
             (fgt (Fin s * Fin 10)%F (Fin 0)), (flt (Fin s * Fin 10)%F (Fin 0));
    rewrite ?He, ?Ha;
    eexists _, _, _; (split; [reflexivity | exact Bq]).
Qed.

Lemma combined_score_bounded_witness :
  exists q confidence prediction explanation,
    MultiSignal._calculate_combined_signal Examples.steady_lib
      Examples.technical_example Examples.onchain_example Examples.social_example
      "1d" Examples.fresh
      = (Ok (Fin q, confidence, prediction, explanation), Examples.fresh)
    /\ (-10 <= q <= 10)%Q.
Proof.
  apply (combined_score_bounded Examples.steady_lib "1d"
           Examples.technical_example Examples.onchain_example Examples.social_example
           (PStr "Technical indicators are bullish: MACD is above signal line")
           (PStr "Moderate") 4 50 (1 # 2) Examples.fresh);
    try reflexivity; lra.
Defined.

(** ** Agreement level *)

Lemma py_is_str_true (v : pyval) (s : string) :
  py_is_str v s = true <-> v = PStr s.
Proof.
  destruct v; simpl; try (split; [discriminate | intros [=]]).
  rewrite String.eqb_eq. split; [intros -> | intros [= ->]]; reflexivity.
Qed.

Lemma py_is_str_false (v : pyval) (s : string) :
  py_is_str v s = false <-> v <> PStr s.
Proof.
  rewrite <- py_is_str_true. destruct (py_is_str v s); split; congruence.
Qed.

Lemma agreement_of_cases (a b c : pyval) :
  let all3 (x : string) := a = PStr x /\ b = PStr x /\ c = PStr x in
  let two (x : string) :=
    (a = PStr x /\ b = PStr x) \/ (a = PStr x /\ c = PStr x) \/ (b = PStr x /\ c = PStr x) in
  (MultiSignal.agreement_of [a; b; c] = "Strong" <-> all3 "Bullish" \/ all3 "Bearish")
  /\ (MultiSignal.agreement_of [a; b; c] = "Moderate" <->
        ~ (all3 "Bullish" \/ all3 "Bearish") /\ (two "Bullish" \/ two "Bearish"))
  /\ (MultiSignal.agreement_of [a; b; c] = "Weak" <-> ~ (two "Bullish" \/ two "Bearish")).
Proof.
  intros all3 two. unfold MultiSignal.agreement_of, all3, two. simpl.
  destruct (py_is_str a "Bullish") eqn:Ha1, (py_is_str a "Bearish") eqn:Ha2,
           (py_is_str b "Bullish") eqn:Hb1, (py_is_str b "Bearish") eqn:Hb2,
           (py_is_str c "Bullish") eqn:Hc1, (py_is_str c "Bearish") eqn:Hc2;
    simpl;
    repeat match goal with
      | H : py_is_str _ _ = true |- _ => apply py_is_str_true in H
      | H : py_is_str _ _ = false |- _ => apply py_is_str_false in H
      end;
    subst;
    try discriminate;
    (repeat split; intros; try discriminate; try tauto; try intuition congruence).
Qed.

(** ** Technical scorer of the fusion engine *)

(** What [calculate_bollinger_bands] returns is a dictionary of six
    entries or [None]; neither can be assigned to three names. *)
Lemma bollinger_bands_not_a_triple (lib : Lib) (data : series) (window : nat)
    (dev : fnum) (w w' : World) (v : pyval) :
  Indicators.calculate_bollinger_bands lib data window dev w = (Ok v, w') ->
  exists e, py_unpack 3 v = Raise e.
Proof.
  unfold Indicators.calculate_bollinger_bands.
  rewrite try_except_run, bind_run, lift_run.
  destruct (ta_bollinger lib data window dev) as [[[hi lo] mid]|e].
  - intros [= <- _]. eexists. reflexivity.
  - intros [= <- _]. eexists. reflexivity.
Qed.

Lemma technical_body_raises (lib : Lib) (df : DataFrame) (w : World) :
  exists e w', MultiSignal.technical_body lib df w = (Raise e, w').
Proof.
  unfold MultiSignal.technical_body. rewrite bind_run, lift_run.
  destruct (df_getitem df "Close") as [close|e]; [|eauto].
  rewrite bind_run.
  destruct (Indicators.calculate_macd close 12 26 9 w) as [[[[macd_line signal_line] hist]|e] w1];
    [|eauto].
  rewrite bind_run.
  destruct (Indicators.calculate_bollinger_bands lib close 20 (Fin 2) w1)
    as [[v|e] w2] eqn:Hbb; [|eauto].
  destruct (bollinger_bands_not_a_triple _ _ _ _ _ _ _ Hbb) as [e He].
  rewrite bind_run, lift_run, He. eauto.
Qed.

(** C9. Whatever the price table, [_analyze_technical_indicators]
    returns the neutral result: label Neutral, confidence 50 and no
    [signal_score] entry.  The fusion therefore takes 0 for the technical
    score, and its output is the one it gives for an empty technical
    result: it depends on the on-chain and social results only. *)
Theorem technical_analysis_always_neutral (lib : Lib) (price_data : option DataFrame)
    (w : World) :
  exists text,
    value_of (MultiSignal._analyze_technical_indicators lib price_data) w
      = Ok (MultiSignal.neutral_technical text)
    /\ dict_getitem (MultiSignal.neutral_technical text) "overall_signal" = Ok (PStr "Neutral")
    /\ dict_getitem (MultiSignal.neutral_technical text) "confidence" = Ok (pint 50)
    /\ dict_contains (MultiSignal.neutral_technical text) "signal_score" = false
    /\ dict_get (MultiSignal.neutral_technical text) "signal_score" (pint 0) = Ok (pint 0)
    /\ forall onchain social timeframe w',
         MultiSignal._calculate_combined_signal lib (MultiSignal.neutral_technical text)
           onchain social timeframe w'
         = MultiSignal._calculate_combined_signal lib (PDict []) onchain social timeframe w'.
Proof.
  assert (Hfuse : forall text onchain social timeframe w',
    MultiSignal._calculate_combined_signal lib (MultiSignal.neutral_technical text)
      onchain social timeframe w'
    = MultiSignal._calculate_combined_signal lib (PDict []) onchain social timeframe w').
  { intros text onchain social timeframe w'.
    unfold MultiSignal._calculate_combined_signal, MultiSignal.normalized_scores.
    cbn [dict_get MultiSignal.neutral_technical assoc_get String.eqb Ascii.eqb Bool.eqb
         default pint as_num].
    destruct (dict_get onchain "score" (pint 0)) as [o|]; [|reflexivity].
    destruct (dict_get social "score" (pint 0)) as [s|]; [|reflexivity].
    destruct (as_num o); [|reflexivity]. destruct (as_num s); reflexivity. }
  assert (Hshape : exists text,
    value_of (MultiSignal._analyze_technical_indicators lib price_data) w
      = Ok (MultiSignal.neutral_technical text)).
  { unfold value_of, MultiSignal._analyze_technical_indicators.
    destruct price_data as [df|]; [|eexists; reflexivity].
    destruct (df_len df <? 30)%nat; [eexists; reflexivity|].
    rewrite try_except_run.
    destruct (technical_body_raises lib df w) as (e & w' & ->).
    eexists. reflexivity. }
  destruct Hshape as [text Htext]. exists text.
  split; [exact Htext|]. repeat split. apply Hfuse.
Qed.

(** A market of forty days and no market at all give the same label
    and confidence. *)
Lemma technical_analysis_examples :
  exists t1 t2,
    value_of (MultiSignal._analyze_technical_indicators Examples.steady_lib
                (Some (Examples.flat_table 40)))
             Examples.fresh = Ok (MultiSignal.neutral_technical t1)
    /\ value_of (MultiSignal._analyze_technical_indicators Examples.steady_lib None)
                Examples.fresh = Ok (MultiSignal.neutral_technical t2).
Proof. eexists _, _. split; vm_compute; reflexivity. Qed.

(** ** Backtest harness *)

Ltac bind_inv H :=
  let a := fresh "a" in
  let w := fresh "w" in
  let Ha := fresh "Hstep" in
  apply bind_ok in H; destruct H as (a & w & Ha & H).

(** C7. When the fetched history is empty or shorter than 30 bars the
    harness returns the insufficient-data error with status 400 right
    after the fetch: nothing but the fetch is logged, no feature is
    generated, no prediction is asked for and no trade record is built. *)
Theorem backtest_insufficient_data (lib : Lib) (symbol period : string)
    (prediction_interval : nat) (data : DataFrame) (w : World) :
  symbol <> "" ->
  yf_download lib (Backtesting.ticker lib symbol) period = Ok data ->
  df_empty data = true \/ (df_len data < 30)%nat ->
  let response :=
    Backtesting.error_response
      ("Insufficient data for " +:+ Backtesting.ticker lib symbol +:+ " to run backtest")
      400 in
  Backtesting.run_backtest lib symbol period prediction_interval w
    = (Ok response,
       world_after (logger INFO ("Fetching data for " +:+ Backtesting.ticker lib symbol
                                 +:+ " for backtesting (" +:+ period +:+ ")")) w)
  /\ Backtesting.num_trades response = None
  /\ dict_contains response "trades" = false.
Proof.
  intros Hsym Hdata Hshort response. split; [|split; reflexivity].
  unfold Backtesting.run_backtest. rewrite try_except_run.
  destruct (String.eqb_spec symbol "") as [->|_]; [congruence|].
  unfold Backtesting.run_backtest_body. cbv zeta.
  rewrite bind_run. unfold logger at 1. rewrite bind_run, lift_run, Hdata.
  assert (Hguard : df_empty data || (df_len data <? 30)%nat = true).
  { destruct Hshort as [->|Hlt]; [reflexivity|].
    apply orb_true_iff. right. apply Nat.ltb_lt. exact Hlt. }
  rewrite Hguard. reflexivity.
Qed.

Lemma backtest_insufficient_data_witness :
  Backtesting.run_backtest Examples.thin_lib "btc" "1mo" 7 Examples.fresh
    = (Ok (Backtesting.error_response
             "Insufficient data for btc-USD to run backtest" 400),
       world_after (logger INFO "Fetching data for btc-USD for backtesting (1mo)")
                   Examples.fresh).
Proof.
  apply (backtest_insufficient_data Examples.thin_lib "btc" "1mo" 7
           (Examples.flat_table 12) Examples.fresh).
  - discriminate.
  - reflexivity.
  - right. vm_compute. lia.
Defined.

(** The normal path of [enhanced_prediction] ends in a [return] of four
    values. *)
Lemma enhanced_scoring_returns_four (lib : Lib) (enhanced_data : DataFrame)
    (w w' : World) (v : pyval) :
  EnhancedMl.enhanced_scoring lib enhanced_data w = (Ok v, w') ->
  exists prediction confidence reason details,
    v = PTuple [prediction; confidence; reason; details].
Proof.
  unfold EnhancedMl.enhanced_scoring. intros H.
  repeat (apply bind_ok in H; destruct H as (? & ? & _ & H)).
  injection H as <- _. eauto.
Qed.

(** Such a result cannot be assigned to the three names of the harness. *)
Lemma four_values_do_not_unpack (a b c d : pyval) :
  py_unpack 3 (PTuple [a; b; c; d])
    = Raise (ValueError "too many values to unpack (expected 3)").
Proof. reflexivity. Qed.

(** A step that raises ends the walk: the steps after it are not run. *)
Lemma walk_stops_at_raise (lib : Lib) (enhanced_data : DataFrame)
    (prediction_interval i : nat) (rest : list nat) (trades : list Backtesting.Trade)
    (w w' : World) (e : exn) :
  Backtesting.step lib enhanced_data prediction_interval i w = (Raise e, w') ->
  Backtesting.walk lib enhanced_data prediction_interval (i :: rest) trades w
    = (Raise e, w').
Proof.
  intros H. cbn [Backtesting.walk]. rewrite bind_run, H. reflexivity.
Qed.

(** A walk that completes has built one trade record per index. *)
Lemma walk_length (lib : Lib) (enhanced_data : DataFrame) (prediction_interval : nat)
    (idxs : list nat) (trades result : list Backtesting.Trade) (w w' : World) :
  Backtesting.walk lib enhanced_data prediction_interval idxs trades w = (Ok result, w') ->
  length result = (length trades + length idxs)%nat.
Proof.
  revert trades w. induction idxs as [|i rest IH]; intros trades w H.
  - injection H as <- _. simpl. lia.
  - cbn [Backtesting.walk] in H. bind_inv H.
    apply IH in H. rewrite H, length_app. simpl. lia.
Qed.

(** C2. A prediction that comes back from the normal path of
    [enhanced_prediction] carries four values; the harness assigns it to
    three names inside the one [try] of the whole function, so the first
    such step ends the run with the status 500 and no report.  Here the
    run is the backtest of forty flat days with working indicators. *)
Theorem backtest_aborts_at_first_prediction :
  Backtesting.run_backtest Examples.steady_lib "btc" "1y" 7 Examples.fresh
    = (Ok (Backtesting.error_response
             "Backtest failed: too many values to unpack (expected 3)" 500),
       mkWorld [(INFO, "Fetching data for btc-USD for backtesting (1y)");
                (ERROR, "Error running backtest: too many values to unpack (expected 3)")]
               (w_now Examples.fresh) ∅ ∅ ∅)
  /\ exists prediction confidence reason details,
       value_of (EnhancedMl.enhanced_prediction Examples.steady_lib
                   (Some (df_head 31 (Examples.flat_table 40)))) Examples.fresh
         = Ok (PTuple [prediction; confidence; reason; details]).
Proof.
  split; [vm_compute; reflexivity|].
  eexists _, _, _, _. vm_compute. reflexivity.
Qed.

(** C1. The walk visits every index from 30 up to the length minus the
    interval: the assignment [i += 3] does not skip any.  On forty days
    with an interval of 7 it builds 3 trade records, where a step of 3
    bars gives floor((40 - 30 - 7) / 3) = 1. *)
Theorem backtest_trade_count_on_forty_days :
  exists report,
    value_of (Backtesting.run_backtest Examples.failing_lib "btc" "1y" 7) Examples.fresh
      = Ok report
    /\ Backtesting.num_trades report = Some (fnat 3)
    /\ ((40 - 30 - 7) / 3 = 1)%nat
    /\ Backtesting.py_range Backtesting.start_idx (40 - 7) = [30; 31; 32]%nat.
Proof.
  eexists. split; [vm_compute; reflexivity|].
  repeat split; vm_compute; reflexivity.
Qed.

Lemma add_missing_cols_index (cols : list string) (data out : DataFrame) (w w' : World) :
  EnhancedMl.add_missing_cols cols data w = (Ok out, w') ->
  df_index out = df_index data.
Proof.
  revert data w. induction cols as [|c cols IH]; intros data w H.
  - injection H as <- _. reflexivity.
  - cbn [EnhancedMl.add_missing_cols] in H.
    destruct (df_has data c); [exact (IH _ _ H)|].
    bind_inv H. destruct (String.eqb c "Volume").
    + apply IH in H. exact H.
    + bind_inv H. apply IH in H. exact H.
Qed.

(** The feature generator keeps the rows of its input. *)
Lemma generate_features_index (lib : Lib) (df out : DataFrame) (w w' : World) :
  EnhancedMl.generate_features lib df w = (Ok out, w') ->
  df_index out = df_index df.
Proof.
  unfold EnhancedMl.generate_features. rewrite try_except_run.
  destruct (EnhancedMl.generate_features_body lib df w) as [[body|e] w1] eqn:Hbody.
  - intros [= <- _]. unfold EnhancedMl.generate_features_body in Hbody.
    bind_inv Hbody. apply add_missing_cols_index in Hstep.
    repeat (apply bind_ok in Hbody; destruct Hbody as (? & ? & ? & Hbody)).
    injection Hbody as <- _.
    cbn [df_index EnhancedMl.fill_all df_map_cols df_setitem df_setscalar].
    repeat match goal with
      | |- context [if ?b then _ else _] => destruct b
      end;
    cbn [df_index df_setitem df_setscalar];
    match goal with
    | H : _ = (Ok ?d, _) |- df_index ?d = _ =>
        try (apply bind_ok in H; destruct H as (? & ? & _ & H));
        injection H as <- _; exact Hstep
    end.
  - intros H. cbv beta in H. bind_inv H. injection H as <- _. reflexivity.
Qed.

(** Whatever the libraries do, a run that returns a report has built one
    trade record for each of the [len - interval - 30] indices of the
    range: the count of a walk that advances by one bar. *)
Lemma backtest_report_counts_every_index (lib : Lib) (symbol period : string)
    (prediction_interval : nat) (data : DataFrame) (w w' : World)
    (report : list (string * pyval)) :
  symbol <> "" ->
  yf_download lib (Backtesting.ticker lib symbol) period = Ok data ->
  Backtesting.run_backtest lib symbol period prediction_interval w
    = (Ok (PDict report), w') ->
  Backtesting.num_trades (PDict report)
    = Some (fnat (df_len data - prediction_interval - 30)).
Proof.
  intros Hsym Hdata. unfold Backtesting.run_backtest. rewrite try_except_run.
  destruct (String.eqb_spec symbol "") as [->|_]; [congruence|].
  destruct (Backtesting.run_backtest_body lib symbol period prediction_interval w)
    as [[response|e] w1] eqn:Hbody.
  2:{ intros H. cbv beta in H. bind_inv H. cbv [mret M_ret ret Backtesting.error_response] in H. discriminate H. }
  intros [= -> ->]. unfold Backtesting.run_backtest_body in Hbody. cbv zeta in Hbody.
  bind_inv Hbody. bind_inv Hbody. rewrite lift_run, Hdata in Hstep0.
  injection Hstep0 as <- <-.
  destruct (df_empty data || (df_len data <? 30)%nat); [cbv [mret M_ret ret Backtesting.error_response] in Hbody; discriminate Hbody|].
  bind_inv Hbody. rewrite try_except_run, bind_run in Hstep0.
  destruct (EnhancedMl.generate_features lib data w0) as [[ed|e] w3] eqn:Hgen.
  2:{ cbv beta in Hstep0. bind_inv Hstep0.
      cbv [mret M_ret ret] in Hstep0. injection Hstep0 as <- _.
      cbv [mret M_ret ret Backtesting.error_response] in Hbody. discriminate Hbody. }
  cbv [mret M_ret ret] in Hstep0. injection Hstep0 as <- <-.
  apply generate_features_index in Hgen.
  bind_inv Hbody. apply walk_length in Hstep0.
  destruct a0 as [|t trades]; [cbv [mret M_ret ret Backtesting.error_response] in Hbody; discriminate Hbody|].
  unfold Backtesting.report in Hbody. cbv zeta in Hbody.
  bind_inv Hbody. bind_inv Hbody. injection Hbody as <- _.
  cbn [Backtesting.num_trades assoc_get String.eqb Ascii.eqb Bool.eqb].
  unfold Backtesting.py_range, Backtesting.start_idx, df_len in Hstep0.
  rewrite length_seq, Hgen in Hstep0. simpl in Hstep0.
  unfold df_len. do 2 f_equal. lia.
Qed.

(** A step whose prediction carries four values raises, whatever the
    data. *)
Lemma step_rejects_four_values (lib : Lib) (enhanced_data : DataFrame)
    (prediction_interval i : nat) (a b c d : pyval) (w w' : World) :
  EnhancedMl.enhanced_prediction lib (Some (df_head (S i) enhanced_data)) w
    = (Ok (PTuple [a; b; c; d]), w') ->
  exists e w'', Backtesting.step lib enhanced_data prediction_interval i w = (Raise e, w'').
Proof.
  intros Hpred. unfold Backtesting.step. cbv zeta.
  repeat (rewrite bind_run, lift_run;
          match goal with
          | |- context [match ?r with Ok _ => _ | Raise _ => _ end] =>
              destruct r; [|eauto]
          end).
  rewrite bind_run, Hpred, bind_run, lift_run, four_values_do_not_unpack. eauto.
Qed.

(** An exception anywhere in the body is answered by the one handler of
    [run_backtest]: the status 500, and no report. *)
Lemma backtest_handler (lib : Lib) (symbol period : string) (prediction_interval : nat)
    (e : exn) (w w1 : World) :
  symbol <> "" ->
  Backtesting.run_backtest_body lib symbol period prediction_interval w = (Raise e, w1) ->
  Backtesting.run_backtest lib symbol period prediction_interval w
    = (Ok (Backtesting.error_response ("Backtest failed: " +:+ exn_str e) 500),
       world_after (logger ERROR ("Error running backtest: " +:+ exn_str e)) w1).
Proof.
  intros Hsym Hbody. unfold Backtesting.run_backtest. rewrite try_except_run.
  destruct (String.eqb_spec symbol "") as [->|_]; [congruence|].
  rewrite Hbody. reflexivity.
Qed.

(** ** Feature generator *)

Lemma fillna_no_nan (xs : series) : existsb is_nan (fillna (Fin 0) xs) = false.
Proof.
  induction xs as [|x xs IH]; [reflexivity|].
  cbn [fillna fmap list_fmap existsb]. fold (fillna (Fin 0) xs). rewrite IH.
  destruct x; reflexivity.
Qed.

Lemma fill_all_no_nan (data : DataFrame) :
  df_has_nan (EnhancedMl.fill_all data) = false.
Proof.
  unfold df_has_nan, EnhancedMl.fill_all, df_map_cols. cbn [df_cols].
  induction (df_cols data) as [|[k xs] cols IH]; [reflexivity|].
  cbn [fmap list_fmap existsb fst snd] in *. rewrite IH, fillna_no_nan. reflexivity.
Qed.

Lemma assoc_get_set {V} (c k : string) (v : V) (kvs : list (string * V)) :
  assoc_get c (assoc_set k v kvs)
  = if String.eqb c k then Some v else assoc_get c kvs.
Proof.
  induction kvs as [|[k' v'] kvs IH]; cbn [assoc_set assoc_get].
  - reflexivity.
  - destruct (String.eqb_spec k k') as [->|Hk]; cbn [assoc_get].
    + destruct (String.eqb c k'); reflexivity.
    + rewrite IH. destruct (String.eqb_spec c k') as [->|Hc]; [|reflexivity].
      destruct (String.eqb_spec k' k) as [->|_]; [congruence|reflexivity].
Qed.

Lemma df_has_setitem (data : DataFrame) (k c : string) (s : series) :
  df_has (df_setitem data k s) c = String.eqb c k || df_has data c.
Proof.
  unfold df_has, df_setitem. cbn [df_cols]. rewrite assoc_get_set.
  destruct (String.eqb c k); [reflexivity|]. reflexivity.
Qed.

Lemma df_has_setscalar (data : DataFrame) (k c : string) (x : fnum) :
  df_has (df_setscalar data k x) c = String.eqb c k || df_has data c.
Proof. apply df_has_setitem. Qed.

Lemma assoc_get_map_values {V W} (f : V -> W) (c : string) (kvs : list (string * V)) :
  assoc_get c ((fun kv => (kv.1, f kv.2)) <$> kvs) = f <$> assoc_get c kvs.
Proof.
  induction kvs as [|[k v] kvs IH]; [reflexivity|].
  cbn [fmap list_fmap assoc_get fst snd]. destruct (String.eqb c k); [reflexivity|].
  exact IH.
Qed.

Lemma df_has_fill_all (data : DataFrame) (c : string) :
  df_has (EnhancedMl.fill_all data) c = df_has data c.
Proof.
  unfold df_has, EnhancedMl.fill_all, df_map_cols. cbn [df_cols].
  rewrite !assoc_get_map_values.
  destruct (assoc_get c (df_cols data)); reflexivity.
Qed.

(** After the loop over the required columns every one of them is there,
    and no column was lost. *)
Lemma add_missing_cols_has (cols : list string) (data out : DataFrame) (w w' : World) :
  EnhancedMl.add_missing_cols cols data w = (Ok out, w') ->
  (forall c, df_has data c = true -> df_has out c = true)
  /\ (forall c, In c cols -> df_has out c = true).
Proof.
  revert data w. induction cols as [|c0 cols IH]; intros data w H.
  - injection H as <- _. split; [tauto | intros c []].
  - cbn [EnhancedMl.add_missing_cols] in H.
    destruct (df_has data c0) eqn:Hc0.
    + destruct (IH _ _ H) as [Hkeep Hnew]. split; [exact Hkeep|].
      intros c [<-|Hin]; [apply Hkeep; exact Hc0 | apply Hnew; exact Hin].
    + bind_inv H. destruct (String.eqb c0 "Volume").
      * destruct (IH _ _ H) as [Hkeep Hnew]. split.
        -- intros c Hc. apply Hkeep. rewrite df_has_setscalar, Hc. apply orb_true_r.
        -- intros c [<-|Hin]; [|apply Hnew; exact Hin].
           apply Hkeep. rewrite df_has_setscalar, String.eqb_refl. reflexivity.
      * bind_inv H. destruct (IH _ _ H) as [Hkeep Hnew]. split.
        -- intros c Hc. apply Hkeep. rewrite df_has_setitem, Hc. apply orb_true_r.
        -- intros c [<-|Hin]; [|apply Hnew; exact Hin].
           apply Hkeep. rewrite df_has_setitem, String.eqb_refl. reflexivity.
Qed.

Lemma df_has_setitem_mono (data : DataFrame) (k c : string) (s : series) :
  df_has data c = true -> df_has (df_setitem data k s) c = true.
Proof. intros H. rewrite df_has_setitem, H. apply orb_true_r. Qed.

Lemma df_has_setscalar_mono (data : DataFrame) (k c : string) (x : fnum) :
  df_has data c = true -> df_has (df_setscalar data k x) c = true.
Proof. apply df_has_setitem_mono. Qed.

(** What the body of the [try] returns when no step raises: a table
    whose every column went through the three fills, with the rows of
    the input and with the five required columns. *)
Lemma generate_features_body_shape (lib : Lib) (df out : DataFrame) (w w' : World) :
  EnhancedMl.generate_features_body lib df w = (Ok out, w') ->
  exists data,
    out = EnhancedMl.fill_all data
    /\ (forall c, In c EnhancedMl.required_cols -> df_has data c = true).
Proof.
  intros Hbody. unfold EnhancedMl.generate_features_body in Hbody.
  bind_inv Hbody. apply add_missing_cols_has in Hstep as [_ Hreq].
  repeat (apply bind_ok in Hbody; destruct Hbody as (? & ? & ? & Hbody)).
  injection Hbody as <- _. eexists. split; [reflexivity|].
  intros c Hc. specialize (Hreq c Hc).
  repeat first
    [ apply df_has_setitem_mono
    | apply df_has_setscalar_mono
    | match goal with |- context [if ?b then _ else _] => destruct b end ];
  match goal with
  | H : _ = (Ok ?d, _) |- df_has ?d _ = _ =>
      try (apply bind_ok in H; destruct H as (? & ? & _ & H));
      injection H as <- _
  end;
  repeat first [apply df_has_setitem_mono | apply df_has_setscalar_mono];
  exact Hreq.
Qed.

(** Assigning one column leaves the others as they are. *)
Lemma df_getitem_setitem (data : DataFrame) (k c : string) (s : series) :
  df_getitem (df_setitem data k s) c
  = if String.eqb c k then Ok s else df_getitem data c.
Proof.
  unfold df_getitem, df_setitem. cbn [df_cols]. rewrite assoc_get_set.
  destruct (String.eqb c k); reflexivity.
Qed.

Lemma df_getitem_setscalar (data : DataFrame) (k c : string) (x : fnum) :
  df_getitem (df_setscalar data k x) c
  = if String.eqb c k then Ok (replicate (df_len data) x) else df_getitem data c.
Proof. apply df_getitem_setitem. Qed.

Lemma df_getitem_has (data : DataFrame) (c : string) :
  df_has data c = true <-> exists s, df_getitem data c = Ok s.
Proof.
  unfold df_has, df_getitem. destruct (assoc_get c (df_cols data)) as [s|].
  - split; [intros _; exists s; reflexivity | intros _].
    apply bool_decide_eq_true. eexists. reflexivity.
  - split; [intros H | intros [s [=]]].
    apply bool_decide_eq_true in H. destruct H as [s [=]].
Qed.

Lemma df_getitem_fill_all (data : DataFrame) (c : string) (s : series) :
  df_getitem data c = Ok s ->
  df_getitem (EnhancedMl.fill_all data) c = Ok (fillna (Fin 0) (ffill (bfill s))).
Proof.
  unfold df_getitem, EnhancedMl.fill_all, df_map_cols. cbn [df_cols].
  rewrite !assoc_get_map_values.
  destruct (assoc_get c (df_cols data)); [intros [= ->]; reflexivity | discriminate].
Qed.

(** A column of zeros has nothing to fill. *)
Lemma fill_zeros (n : nat) :
  fillna (Fin 0) (ffill (bfill (replicate n (Fin 0)))) = replicate n (Fin 0).
Proof.
  assert (Hb : bfill (replicate n (Fin 0)) = replicate n (Fin 0)).
  { induction n as [|n IH]; [reflexivity|].
    cbn [replicate bfill is_nan]. rewrite IH. reflexivity. }
  assert (Hf : forall last, ffill_from last (replicate n (Fin 0)) = replicate n (Fin 0)).
  { clear Hb. induction n as [|n IH]; intros last; [reflexivity|].
    cbn [replicate ffill_from is_nan]. rewrite IH. reflexivity. }
  unfold ffill. rewrite Hb, Hf. clear Hb Hf.
  induction n as [|n IH]; [reflexivity|].
  cbn [replicate fillna fmap list_fmap is_nan]. f_equal. exact IH.
Qed.

(** The loop over the required columns leaves the columns of the input
    as they are; a missing Volume becomes a column of zeros and any other
    missing required column a copy of the close. *)
Lemma add_missing_cols_values (cols : list string) (data out : DataFrame) (w w' : World) :
  EnhancedMl.add_missing_cols cols data w = (Ok out, w') ->
  (forall c, df_has data c = true -> df_getitem out c = df_getitem data c)
  /\ (forall c, In c cols -> df_has data c = false ->
        df_getitem out c
        = if String.eqb c "Volume" then Ok (replicate (df_len data) (Fin 0))
          else df_getitem data "Close").
Proof.
  revert data w. induction cols as [|c0 cols IH]; intros data w H.
  - injection H as <- _. split; [reflexivity | intros c []].
  - cbn [EnhancedMl.add_missing_cols] in H.
    destruct (df_has data c0) eqn:Hc0.
    + destruct (IH _ _ H) as [Hkeep Hnew]. split; [exact Hkeep|].
      intros c [<-|Hin] Hc; [congruence | exact (Hnew c Hin Hc)].
    + bind_inv H. destruct (String.eqb_spec c0 "Volume") as [->|Hvol].
      * destruct (IH _ _ H) as [Hkeep Hnew]. split.
        -- intros c Hc. rewrite Hkeep by (apply df_has_setscalar_mono; exact Hc).
           rewrite df_getitem_setscalar.
           destruct (String.eqb_spec c "Volume") as [->|_]; [congruence | reflexivity].
        -- intros c Hin Hc. destruct (String.eqb_spec c "Volume") as [->|Hne].
           ++ rewrite Hkeep by (rewrite df_has_setscalar, String.eqb_refl; reflexivity).
              rewrite df_getitem_setscalar, String.eqb_refl. reflexivity.
           ++ destruct Hin as [<-|Hin]; [congruence|].
              rewrite (Hnew c Hin).
              ** apply String.eqb_neq in Hne. rewrite Hne.
                 rewrite df_getitem_setscalar. reflexivity.
              ** rewrite df_has_setscalar, Hc.
                 apply String.eqb_neq in Hne. rewrite Hne. reflexivity.
      * bind_inv H. rename a0 into close.
        assert (Hclose : df_getitem data "Close" = Ok close).
        { unfold lift in Hstep0. destruct (df_getitem data "Close"); congruence. }
        destruct (IH _ _ H) as [Hkeep Hnew]. split.
        -- intros c Hc. rewrite Hkeep by (apply df_has_setitem_mono; exact Hc).
           rewrite df_getitem_setitem.
           destruct (String.eqb_spec c c0) as [->|_]; [congruence | reflexivity].
        -- intros c Hin Hc. destruct (String.eqb_spec c c0) as [->|Hne].
           ++ rewrite Hkeep by (rewrite df_has_setitem, String.eqb_refl; reflexivity).
              rewrite df_getitem_setitem, String.eqb_refl.
              apply String.eqb_neq in Hvol. rewrite Hvol, Hclose. reflexivity.
           ++ destruct Hin as [->|Hin]; [congruence|].
              rewrite (Hnew c Hin).
              ** cbn [df_len df_setitem df_index]. rewrite df_getitem_setitem.
                 destruct (String.eqb "Close" c0); [rewrite Hclose|]; reflexivity.
              ** rewrite df_has_setitem, Hc.
                 apply String.eqb_neq in Hne. rewrite Hne. reflexivity.
Qed.

(** The features are added under names of their own: a required column
    of the output is the column that the loop over the required columns
    left, filled. *)
Lemma generate_features_body_required (lib : Lib) (df out : DataFrame) (w w' : World) :
  EnhancedMl.generate_features_body lib df w = (Ok out, w') ->
  exists prepared w1,
    EnhancedMl.add_missing_cols EnhancedMl.required_cols df w = (Ok prepared, w1)
    /\ forall c s, In c EnhancedMl.required_cols ->
         df_getitem prepared c = Ok s ->
         df_getitem out c = Ok (fillna (Fin 0) (ffill (bfill s))).
Proof.
  intros Hbody. unfold EnhancedMl.generate_features_body in Hbody.
  bind_inv Hbody. exists a, w0. split; [exact Hstep|]. clear Hstep.
  repeat (apply bind_ok in Hbody; destruct Hbody as (? & ? & ? & Hbody)).
  injection Hbody as <- _.
  intros c s Hc Hs. apply df_getitem_fill_all.
  assert (Hvol : forall d, df_getitem d c = Ok s ->
            df_getitem (df_setscalar d "obv" (Fin 0)) c = Ok s
            /\ forall o, df_getitem (df_setitem d "obv" o) c = Ok s).
  { intros d Hd. rewrite df_getitem_setscalar. split; [|intros o; rewrite df_getitem_setitem].
    all: cbn in Hc; destruct Hc as [<-|[<-|[<-|[<-|[<-|[]]]]]]; exact Hd. }
  cbn in Hc.
  destruct Hc as [<-|[<-|[<-|[<-|[<-|[]]]]]];
  repeat first
    [ rewrite df_getitem_setitem; cbn [String.eqb Ascii.eqb Bool.eqb]
    | rewrite df_getitem_setscalar; cbn [String.eqb Ascii.eqb Bool.eqb]
    | match goal with |- context [if negb ?b then _ else _] => destruct b; cbn [negb] end ];
  match goal with
  | H : _ = (Ok ?d, _) |- df_getitem ?d _ = _ =>
      try (apply bind_ok in H; destruct H as (? & ? & _ & H));
      injection H as <- _
  end;
  repeat first
    [ rewrite df_getitem_setitem; cbn [String.eqb Ascii.eqb Bool.eqb]
    | rewrite df_getitem_setscalar; cbn [String.eqb Ascii.eqb Bool.eqb] ];
  exact Hs.
Qed.

Lemma lift_ok {A} (r : res A) (a : A) (w w' : World) :
  lift r w = (Ok a, w') -> r = Ok a /\ w' = w.
Proof. unfold lift. intros [= -> ->]. split; reflexivity. Qed.

Lemma col_unchanged (data : DataFrame) (k c : string) (s xs : series) (w w' : World) :
  String.eqb c k = false ->
  EnhancedMl.col (df_setitem data k s) c w = (Ok xs, w') ->
  EnhancedMl.col data c w = (Ok xs, w').
Proof.
  intros Hne. unfold EnhancedMl.col. rewrite df_getitem_setitem, Hne. auto.
Qed.

(** The table that the body of the [try] builds before the fills. *)
Lemma generate_features_body_raw (lib : Lib) (df out : DataFrame) (w w' : World) :
  EnhancedMl.generate_features_body lib df w = (Ok out, w') ->
  exists prepared close high low volume rsi macd ema12 ema26 bands stoch adx obv sr,
    EnhancedMl.add_missing_cols EnhancedMl.required_cols df w = (Ok prepared, w')
    /\ df_getitem prepared "Close" = Ok close
    /\ df_getitem prepared "High" = Ok high
    /\ df_getitem prepared "Low" = Ok low
    /\ df_getitem prepared "Volume" = Ok volume
    /\ ta_rsi lib close 14 = Ok rsi
    /\ ta_macd lib close = Ok macd
    /\ ta_ema lib close 12 = Ok ema12
    /\ ta_ema lib close 26 = Ok ema26
    /\ ta_bollinger lib close 20 (Fin 2) = Ok bands
    /\ ta_stoch lib high low close = Ok stoch
    /\ ta_adx lib high low close = Ok adx
    /\ (EnhancedMl.all_zero volume = false -> ta_obv lib close volume = Ok obv)
    /\ ta_stochrsi lib close = Ok sr
    /\ out = EnhancedMl.fill_all
               (assign_all (raw_features lib (df_len df) close high low volume rsi macd
                              ema12 ema26 bands stoch adx obv sr) prepared).
Proof.
  intros H. unfold EnhancedMl.generate_features_body in H.
  apply bind_ok in H. destruct H as (prepared & w1 & Hprep & H).
  pose proof (add_missing_cols_index _ _ _ _ _ Hprep) as Hidx.
  apply bind_ok in H. destruct H as (close & ? & Hclose & H).
  apply lift_ok in Hclose as [Hclose ->].
  apply bind_ok in H. destruct H as (rsi & ? & Hrsi & H).
  apply lift_ok in Hrsi as [Hrsi ->].
  apply bind_ok in H. destruct H as (close1 & ? & Hclose1 & H).
  apply lift_ok in Hclose1 as [Hclose1 ->].
  rewrite df_getitem_setitem in Hclose1. cbn [String.eqb Ascii.eqb Bool.eqb] in Hclose1.
  assert (close1 = close) as -> by congruence. clear Hclose1.
  apply bind_ok in H. destruct H as (macd & ? & Hmacd & H).
  apply lift_ok in Hmacd as [Hmacd ->].
  apply bind_ok in H. destruct H as (close1 & ? & Hclose1 & H).
  apply lift_ok in Hclose1 as [Hclose1 ->].
  rewrite !df_getitem_setitem in Hclose1. cbn [String.eqb Ascii.eqb Bool.eqb] in Hclose1.
  assert (close1 = close) as -> by congruence. clear Hclose1.
  apply bind_ok in H. destruct H as (ema12 & ? & Hema12 & H).
  apply lift_ok in Hema12 as [Hema12 ->].
  apply bind_ok in H. destruct H as (ema26 & ? & Hema26 & H).
  apply lift_ok in Hema26 as [Hema26 ->].
  apply bind_ok in H. destruct H as (close1 & ? & Hclose1 & H).
  apply lift_ok in Hclose1 as [Hclose1 ->].
  rewrite !df_getitem_setitem in Hclose1. cbn [String.eqb Ascii.eqb Bool.eqb] in Hclose1.
  assert (close1 = close) as -> by congruence. clear Hclose1.
  apply bind_ok in H. destruct H as (bands & ? & Hbands & H).
  apply lift_ok in Hbands as [Hbands ->].
  apply bind_ok in H. destruct H as (high & ? & Hhigh & H).
  apply lift_ok in Hhigh as [Hhigh ->].
  rewrite !df_getitem_setitem in Hhigh. cbn [String.eqb Ascii.eqb Bool.eqb] in Hhigh.
  apply bind_ok in H. destruct H as (low & ? & Hlow & H).
  apply lift_ok in Hlow as [Hlow ->].
  rewrite !df_getitem_setitem in Hlow. cbn [String.eqb Ascii.eqb Bool.eqb] in Hlow.
  apply bind_ok in H. destruct H as (close1 & ? & Hclose1 & H).
  apply lift_ok in Hclose1 as [Hclose1 ->].
  rewrite !df_getitem_setitem in Hclose1. cbn [String.eqb Ascii.eqb Bool.eqb] in Hclose1.
  assert (close1 = close) as -> by congruence. clear Hclose1.
  apply bind_ok in H. destruct H as (stoch & ? & Hstoch & H).
  apply lift_ok in Hstoch as [Hstoch ->].
  apply bind_ok in H. destruct H as (adx & ? & Hadx & H).
  apply lift_ok in Hadx as [Hadx ->].
  apply bind_ok in H. destruct H as (volume & ? & Hvolume & H).
  apply lift_ok in Hvolume as [Hvolume ->].
  rewrite !df_getitem_setitem in Hvolume. cbn [String.eqb Ascii.eqb Bool.eqb] in Hvolume.
  apply bind_ok in H. destruct H as (with_obv & ? & Hobv & H).
  apply bind_ok in H. destruct H as (sr & ? & Hsr & H).
  apply lift_ok in Hsr as [Hsr ->].
  injection H as <- <-.
  assert (Hlen : df_len df = df_len prepared) by (unfold df_len; congruence).
  unfold raw_features. rewrite Hlen.
  destruct (EnhancedMl.all_zero volume) eqn:Hzero; cbn [negb] in Hobv |- *.
  - injection Hobv as <- <-.
    exists prepared, close, high, low, volume, rsi, macd, ema12, ema26, bands, stoch, adx,
      [], sr.
    rewrite Hzero.
    repeat (split; [first [assumption | intros; congruence]|]). reflexivity.
  - apply bind_ok in Hobv. destruct Hobv as (obv & ? & Hobv & Hret).
    apply lift_ok in Hobv as [Hobv ->]. injection Hret as <- <-.
    exists prepared, close, high, low, volume, rsi, macd, ema12, ema26, bands, stoch, adx,
      obv, sr.
    rewrite Hzero.
    repeat (split; [first [assumption | intros _; assumption]|]). reflexivity.
Qed.

(** ** Lengths *)

Lemma bfill_length (xs : series) : length (bfill xs) = length xs.
Proof. induction xs as [|x xs IH]; cbn [bfill length]; congruence. Qed.

Lemma ffill_from_length (last : fnum) (xs : series) :
  length (ffill_from last xs) = length xs.
Proof.
  revert last. induction xs as [|x xs IH]; intros last; cbn [ffill_from length];
    [reflexivity | rewrite IH; reflexivity].
Qed.

Lemma ffill_length (xs : series) : length (ffill xs) = length xs.
Proof. apply ffill_from_length. Qed.

Lemma fillna_length (v : fnum) (xs : series) : length (fillna v xs) = length xs.
Proof. apply length_fmap. Qed.

Lemma filled_length (xs : series) :
  length (fillna (Fin 0) (ffill (bfill xs))) = length xs.
Proof. rewrite fillna_length, ffill_length, bfill_length. reflexivity. Qed.

Lemma rolling_length (agg : series -> fnum) (w : nat) (xs : series) :
  length (rolling agg w xs) = length xs.
Proof. apply length_imap. Qed.

Lemma diff_length (n : nat) (xs : series) : length (diff n xs) = length xs.
Proof. apply length_imap. Qed.

Lemma pct_change_length (xs : series) : length (EnhancedMl.pct_change xs) = length xs.
Proof. unfold EnhancedMl.pct_change. cbv zeta. rewrite length_imap. apply ffill_length. Qed.

Lemma shift_back_length (xs : series) : length (EnhancedMl.shift_back xs) = length xs.
Proof. apply length_imap. Qed.

Lemma smap2_length (f : fnum -> fnum -> fnum) (xs ys : series) (n : nat) :
  length xs = n -> length ys = n -> length (smap2 f xs ys) = n.
Proof. intros Hx Hy. unfold smap2. rewrite length_zip_with. lia. Qed.

(** ** Well-formed tables *)

Lemma assoc_set_forall {V} (P : string * V -> Prop) (k : string) (v : V)
    (kvs : list (string * V)) :
  (forall k', P (k', v)) -> Forall P kvs -> Forall P (assoc_set k v kvs).
Proof.
  intros Hv. induction 1 as [|[k' v'] kvs Hkv Hall IH]; cbn [assoc_set].
  - constructor; [apply Hv | constructor].
  - destruct (String.eqb k k'); constructor; auto.
Qed.

Lemma df_wf_setitem (data : DataFrame) (k : string) (s : series) :
  df_wf data -> length s = df_len data -> df_wf (df_setitem data k s).
Proof.
  intros Hwf Hs. unfold df_wf, df_setitem. cbn [df_cols df_len df_index].
  apply assoc_set_forall; [intros k'; exact Hs | exact Hwf].
Qed.

Lemma df_wf_getitem (data : DataFrame) (c : string) (s : series) :
  df_wf data -> df_getitem data c = Ok s -> length s = df_len data.
Proof.
  unfold df_wf, df_getitem. intros Hwf.
  induction Hwf as [|[k v] kvs Hkv Hall IH]; cbn [assoc_get]; [discriminate|].
  destruct (String.eqb c k); [intros [= <-]; exact Hkv | exact IH].
Qed.

Lemma df_wf_add_missing_cols (cols : list string) (data out : DataFrame) (w w' : World) :
  EnhancedMl.add_missing_cols cols data w = (Ok out, w') ->
  df_wf data -> df_wf out.
Proof.
  revert data w. induction cols as [|c cols IH]; intros data w H Hwf.
  - injection H as <- _. exact Hwf.
  - cbn [EnhancedMl.add_missing_cols] in H.
    destruct (df_has data c); [eapply IH; eassumption|].
    apply bind_ok in H. destruct H as (? & w0 & _ & H).
    destruct (String.eqb c "Volume").
    + eapply IH; [exact H|]. apply df_wf_setitem; [exact Hwf | apply length_replicate].
    + apply bind_ok in H. destruct H as (close & ? & Hclose & H).
      apply lift_ok in Hclose as [Hclose ->].
      eapply IH; [exact H|]. apply df_wf_setitem; [exact Hwf|].
      eapply df_wf_getitem; eassumption.
Qed.

Lemma assign_all_index (cols : list (string * series)) (data : DataFrame) :
  df_index (assign_all cols data) = df_index data.
Proof.
  unfold assign_all. revert data.
  induction cols as [|[k s] cols IH]; intros data; [reflexivity|].
  cbn [foldl]. rewrite IH. reflexivity.
Qed.

Lemma df_wf_assign_all (cols : list (string * series)) (data : DataFrame) :
  df_wf data -> Forall (fun kv => length kv.2 = df_len data) cols ->
  df_wf (assign_all cols data).
Proof.
  unfold assign_all. revert data.
  induction cols as [|[k s] cols IH]; intros data Hwf Hcols; [exact Hwf|].
  cbn [foldl]. inversion Hcols as [|? ? Hs Hrest]; subst. apply IH.
  - apply df_wf_setitem; assumption.
  - exact Hrest.
Qed.

Lemma df_wf_fill_all (data : DataFrame) : df_wf data -> df_wf (EnhancedMl.fill_all data).
Proof.
  unfold df_wf, EnhancedMl.fill_all, df_map_cols, df_len. cbn [df_cols df_index].
  intros Hwf. rewrite !Forall_fmap. eapply Forall_impl; [exact Hwf|].
  intros [k s] Hs. cbn [fst snd compose] in *. cbn. rewrite filled_length. exact Hs.
Qed.

Lemma fill_all_cols (data : DataFrame) :
  df_cols (EnhancedMl.fill_all data)
  = (fun kv => (kv.1, fillna (Fin 0) (ffill (bfill kv.2)))) <$> df_cols data.
Proof.
  unfold EnhancedMl.fill_all, df_map_cols. cbn [df_cols].
  rewrite <- !list_fmap_compose. apply list_fmap_ext. intros i [k s] _. reflexivity.
Qed.

Lemma iloc_last (xs : series) :
  (1 <= length xs)%nat -> exists x, iloc xs (-1) = Ok x /\ In x xs.
Proof.
  intros Hlen. unfold iloc. cbv zeta.
  replace (-1 <? 0)%Z with true by reflexivity.
  destruct (Z.ltb_spec (Z.of_nat (length xs) + -1) 0) as [?|_]; [lia|].
  destruct (Z.leb_spec (Z.of_nat (length xs)) (Z.of_nat (length xs) + -1)) as [?|_]; [lia|].
  cbn [orb].
  destruct (xs !! Z.to_nat (Z.of_nat (length xs) + -1)) as [x|] eqn:Hx.
  - exists x. split; [reflexivity|]. apply list_elem_of_In. eapply list_elem_of_lookup_2. exact Hx.
  - apply lookup_ge_None in Hx. lia.
Qed.

Lemma iloc_last_index (xs : list Z) :
  (1 <= length xs)%nat -> exists x, iloc xs (-1) = Ok x.
Proof.
  intros Hlen. unfold iloc. cbv zeta.
  replace (-1 <? 0)%Z with true by reflexivity.
  destruct (Z.ltb_spec (Z.of_nat (length xs) + -1) 0) as [?|_]; [lia|].
  destruct (Z.leb_spec (Z.of_nat (length xs)) (Z.of_nat (length xs) + -1)) as [?|_]; [lia|].
  cbn [orb].
  destruct (xs !! Z.to_nat (Z.of_nat (length xs) + -1)) as [x|] eqn:Hx.
  - exists x. reflexivity.
  - apply lookup_ge_None in Hx. lia.
Qed.

(** In a table without NaN whose columns have at least one cell, the last
    cell of every column is defined. *)
Lemma last_row_defined (out : DataFrame) :
  df_wf out -> (1 <= df_len out)%nat -> df_has_nan out = false ->
  Forall (fun kv => length kv.2 = df_len out
                    /\ exists x, iloc kv.2 (-1) = Ok x /\ is_nan x = false) (df_cols out).
Proof.
  intros Hwf Hlen Hnan. unfold df_has_nan in Hnan. unfold df_wf in Hwf.
  induction Hwf as [|[k s] kvs Hs Hall IH]; [constructor|].
  cbn [existsb] in Hnan. apply orb_false_iff in Hnan as [Hs_nan Hrest].
  constructor; [|apply IH; exact Hrest].
  cbn [snd] in *. split; [exact Hs|].
  destruct (iloc_last s) as (x & Hx & Hin); [lia|].
  exists x. split; [exact Hx|].
  destruct (is_nan x) eqn:Hnx; [|reflexivity].
  assert (existsb is_nan s = true) by (apply existsb_exists; exists x; auto).
  congruence.
Qed.

Lemma raw_features_lengths (lib : Lib) (n : nat) (close high low volume rsi : series)
    (macd : series * series * series) (ema12 ema26 : series)
    (bands : series * series * series) (stoch : series * series) (adx obv : series)
    (sr : series * series) :
  aligned lib ->
  length close = n -> length high = n -> length low = n -> length volume = n ->
  ta_rsi lib close 14 = Ok rsi ->
  ta_macd lib close = Ok macd ->
  ta_ema lib close 12 = Ok ema12 ->
  ta_ema lib close 26 = Ok ema26 ->
  ta_bollinger lib close 20 (Fin 2) = Ok bands ->
  ta_stoch lib high low close = Ok stoch ->
  ta_adx lib high low close = Ok adx ->
  (EnhancedMl.all_zero volume = false -> ta_obv lib close volume = Ok obv) ->
  ta_stochrsi lib close = Ok sr ->
  Forall (fun kv => length kv.2 = n)
         (raw_features lib n close high low volume rsi macd ema12 ema26 bands stoch adx obv sr).
Proof.
  intros Hal Hc Hh Hl Hv Hrsi Hmacd Hema12 Hema26 Hbands Hstoch Hadx Hobv Hsr.
  subst n.
  apply (al_rsi _ Hal) in Hrsi.
  apply (al_macd _ Hal) in Hmacd as (? & ? & ?).
  apply (al_ema _ Hal) in Hema12, Hema26.
  apply (al_bollinger _ Hal) in Hbands as (? & ? & ?).
  apply (al_stoch _ Hal) in Hstoch as (? & ?); [|assumption..].
  apply (al_adx _ Hal) in Hadx; [|assumption..].
  apply (al_stochrsi _ Hal) in Hsr as (? & ?).
  assert (Hobv' : EnhancedMl.all_zero volume = false -> length obv = length close).
  { intros Hz. apply Hobv in Hz. apply (al_obv _ Hal) in Hz; assumption. }
  clear Hobv.
  assert (Hstd : forall k, length (rolling_std lib k close) = length close)
    by (intros k; apply (al_rolling_std _ Hal)).
  unfold raw_features. cbv zeta.
  destruct (EnhancedMl.all_zero volume); [clear Hobv' | specialize (Hobv' eq_refl)];
    repeat first [apply Forall_app_2 | apply Forall_cons_2 | apply Forall_nil_2];
    cbn [snd]; unfold rolling_mean;
    repeat first
      [ assumption
      | reflexivity
      | apply length_replicate
      | apply Hstd
      | apply rolling_length
      | apply diff_length
      | apply smap2_length
      | rewrite length_fmap
      | rewrite shift_back_length
      | apply pct_change_length
      | rewrite rolling_length
      | rewrite diff_length
      | (rewrite length_zip_with, !diff_length; lia) ].
Qed.

Lemma add_missing_cols_other (cols : list string) (data out : DataFrame) (w w' : World)
    (c : string) :
  EnhancedMl.add_missing_cols cols data w = (Ok out, w') ->
  ~ In c cols -> df_getitem out c = df_getitem data c.
Proof.
  revert data w. induction cols as [|c0 cols IH]; intros data w H Hc.
  - injection H as <- _. reflexivity.
  - assert (Hne : String.eqb c c0 = false).
    { apply String.eqb_neq. intros ->. apply Hc. left. reflexivity. }
    assert (Hc' : ~ In c cols) by (intros Hin; apply Hc; right; exact Hin).
    cbn [EnhancedMl.add_missing_cols] in H.
    destruct (df_has data c0); [eapply IH; eassumption|].
    apply bind_ok in H. destruct H as (? & w0 & _ & H).
    destruct (String.eqb c0 "Volume").
    + rewrite (IH _ _ H Hc'), df_getitem_setscalar, Hne. reflexivity.
    + apply bind_ok in H. destruct H as (close & ? & _ & H).
      rewrite (IH _ _ H Hc'), df_getitem_setitem, Hne. reflexivity.
Qed.

Lemma steady_lib_aligned : aligned Examples.steady_lib.
Proof.
  constructor; cbn [Examples.steady_lib ta_rsi ta_macd ta_ema ta_bollinger ta_stoch ta_adx
                    ta_obv ta_stochrsi rolling_std]; unfold Examples.like.
  - intros c n s [= <-]. apply length_replicate.
  - intros c m [= <-]. cbn [fst snd]. rewrite !length_replicate. auto.
  - intros c n s [= <-]. reflexivity.
  - intros c n dev b [= <-]. cbn [fst snd]. rewrite !length_fmap. auto.
  - intros h l c s _ _ [= <-]. cbn [fst snd]. rewrite !length_replicate. auto.
  - intros h l c s _ _ [= <-]. apply length_replicate.
  - intros c v s Hv [= <-]. exact Hv.
  - intros c s [= <-]. cbn [fst snd]. rewrite !length_replicate. auto.
  - intros n c. apply length_replicate.
Qed.

Lemma flat_table_wf (n : nat) : df_wf (Examples.flat_table n).
Proof.
  unfold df_wf, Examples.flat_table, df_len. cbn [df_cols df_index].
  rewrite length_fmap, length_seq.
  repeat constructor; cbn [snd]; apply length_replicate.
Qed.

(** C6 (amended).  When every step of the feature generation completes,
    the output has no undefined cell in any column, keeps the rows of the
    input and holds the five columns Open, High, Low, Close and Volume: a
    required column of the input is that column back-filled, then
    forward-filled, then zero-filled; a missing Volume is a column of
    zeros and any other missing required column equals the close of the
    output.  Every column of the output, the indicator and rolling-window
    columns included, is the column assigned by the generator back-filled,
    then forward-filled, then zero-filled, and the columns of the input
    that the generator does not assign are kept.  For a table with at
    least one row whose columns have one cell per row, and indicators
    aligned with their input, the last row exists and every cell of it is
    defined.  When a step raises, the error is logged and the input table
    is returned as it is. *)
Theorem feature_generator_output (lib : Lib) (df : DataFrame) (w : World) :
  match EnhancedMl.generate_features_body lib df w with
  | (Ok out, w') =>
      EnhancedMl.generate_features lib df w = (Ok out, w')
      /\ df_has_nan out = false
      /\ df_index out = df_index df
      /\ forallb (df_has out) EnhancedMl.required_cols = true
      /\ (forall c s, In c EnhancedMl.required_cols ->
            df_getitem df c = Ok s ->
            df_getitem out c = Ok (fillna (Fin 0) (ffill (bfill s))))
      /\ (forall c, In c EnhancedMl.required_cols ->
            df_has df c = false ->
            df_getitem out c
            = if String.eqb c "Volume" then Ok (replicate (df_len df) (Fin 0))
              else df_getitem out "Close")
      /\ (exists prepared close high low volume rsi macd ema12 ema26 bands stoch adx obv sr,
            EnhancedMl.add_missing_cols EnhancedMl.required_cols df w = (Ok prepared, w')
            /\ (forall c, df_has df c = true \/ ~ In c EnhancedMl.required_cols ->
                  df_getitem prepared c = df_getitem df c)
            /\ (forall c, In c EnhancedMl.required_cols -> df_has df c = false ->
                  df_getitem prepared c
                  = if String.eqb c "Volume" then Ok (replicate (df_len df) (Fin 0))
                    else df_getitem df "Close")
            /\ df_getitem prepared "Close" = Ok close
            /\ df_getitem prepared "High" = Ok high
            /\ df_getitem prepared "Low" = Ok low
            /\ df_getitem prepared "Volume" = Ok volume
            /\ ta_rsi lib close 14 = Ok rsi
            /\ ta_macd lib close = Ok macd
            /\ ta_ema lib close 12 = Ok ema12
            /\ ta_ema lib close 26 = Ok ema26
            /\ ta_bollinger lib close 20 (Fin 2) = Ok bands
            /\ ta_stoch lib high low close = Ok stoch
            /\ ta_adx lib high low close = Ok adx
            /\ (EnhancedMl.all_zero volume = false -> ta_obv lib close volume = Ok obv)
            /\ ta_stochrsi lib close = Ok sr
            /\ df_cols out
               = (fun kv => (kv.1, fillna (Fin 0) (ffill (bfill kv.2))))
                 <$> df_cols (assign_all
                               (raw_features lib (df_len df) close high low volume rsi macd
                                  ema12 ema26 bands stoch adx obv sr) prepared))
      /\ (df_wf df -> aligned lib -> (1 <= df_len df)%nat ->
            (exists day, iloc (df_index out) (-1) = Ok day)
            /\ Forall (fun kv => length kv.2 = df_len df
                                 /\ exists x, iloc kv.2 (-1) = Ok x /\ is_nan x = false)
                      (df_cols out))
  | (Raise e, w') =>
      EnhancedMl.generate_features lib df w
      = (Ok df, world_after (logger ERROR ("Error generating features: " +:+ exn_str e)) w')
  end.
Proof.
  destruct (EnhancedMl.generate_features_body lib df w) as [[out|e] w'] eqn:Hbody.
  - assert (Hgen : EnhancedMl.generate_features lib df w = (Ok out, w')).
    { unfold EnhancedMl.generate_features. rewrite try_except_run, Hbody. reflexivity. }
    split; [exact Hgen|].
    destruct (generate_features_body_required _ _ _ _ _ Hbody)
      as (prepared & w1 & Hprep & Hfilled).
    destruct (add_missing_cols_values _ _ _ _ _ Hprep) as [Hkeep Hnew].
    destruct (add_missing_cols_has _ _ _ _ _ Hprep) as [_ Hhas].
    destruct (generate_features_body_shape _ _ _ _ _ Hbody) as (data & Hout & Hreq).
    assert (Hnonan : df_has_nan out = false) by (rewrite Hout; apply fill_all_no_nan).
    pose proof (generate_features_index _ _ _ _ _ Hgen) as Hindex.
    split; [exact Hnonan|].
    split; [exact Hindex|].
    split; [apply forallb_forall; intros c Hc;
            rewrite Hout, df_has_fill_all; apply Hreq, Hc|].
    split; [|split; [|split]].
    + intros c s Hc Hs. apply (Hfilled c s Hc). rewrite Hkeep; [exact Hs|].
      apply df_getitem_has. exists s. exact Hs.
    + intros c Hc Hmiss. specialize (Hnew c Hc Hmiss).
      destruct (String.eqb c "Volume").
      * rewrite (Hfilled c _ Hc Hnew), fill_zeros. reflexivity.
      * destruct (proj1 (df_getitem_has prepared c) (Hhas c Hc)) as [s Hs].
        assert (Hclose : df_getitem df "Close" = Ok s) by congruence.
        rewrite (Hfilled c s Hc Hs). symmetry.
        apply (Hfilled "Close" s); [cbn; tauto|].
        rewrite Hkeep; [exact Hclose|].
        apply df_getitem_has. exists s. exact Hclose.
    + destruct (generate_features_body_raw _ _ _ _ _ Hbody)
        as (prepared' & close & high & low & volume & rsi & macd & ema12 & ema26 & bands
            & stoch & adx & obv & sr & Hprep' & Hc & Hh & Hl & Hv & Hrsi & Hmacd & He12
            & He26 & Hbb & Hst & Hadx & Hobv & Hsr & Hraw).
      assert (prepared' = prepared) as -> by congruence.
      exists prepared, close, high, low, volume, rsi, macd, ema12, ema26, bands, stoch, adx,
        obv, sr.
      split; [exact Hprep'|].
      split; [intros c [Hc1|Hc1];
              [apply Hkeep; exact Hc1
              | exact (add_missing_cols_other _ _ _ _ _ c Hprep Hc1)]|].
      split; [exact Hnew|].
      repeat (split; [assumption|]).
      rewrite Hraw. apply fill_all_cols.
    + intros Hwf Hal Hrows.
      destruct (generate_features_body_raw _ _ _ _ _ Hbody)
        as (prepared' & close & high & low & volume & rsi & macd & ema12 & ema26 & bands
            & stoch & adx & obv & sr & Hprep' & Hc & Hh & Hl & Hv & Hrsi & Hmacd & He12
            & He26 & Hbb & Hst & Hadx & Hobv & Hsr & Hraw).
      pose proof (df_wf_add_missing_cols _ _ _ _ _ Hprep' Hwf) as Hwfp.
      assert (Hlenp : df_len prepared' = df_len df).
      { unfold df_len. rewrite (add_missing_cols_index _ _ _ _ _ Hprep'). reflexivity. }
      assert (Hlen_out : df_len out = df_len df) by (unfold df_len; congruence).
      assert (Hwf_out : df_wf out).
      { rewrite Hraw. apply df_wf_fill_all, df_wf_assign_all; [exact Hwfp|].
        rewrite Hlenp.
        apply raw_features_lengths; try assumption;
          rewrite <- Hlenp; eapply df_wf_getitem; eassumption. }
      split.
      * apply iloc_last_index. rewrite Hindex. exact Hrows.
      * rewrite <- Hlen_out. apply last_row_defined; [exact Hwf_out | lia | exact Hnonan].
  - unfold EnhancedMl.generate_features. rewrite try_except_run, Hbody. reflexivity.
Qed.

(** Three flat bars under the steady library: the output has a last row,
    defined in every column. *)
Lemma feature_generator_output_witness :
  exists out,
    value_of (EnhancedMl.generate_features Examples.steady_lib (Examples.flat_table 3))
             Examples.fresh = Ok out
    /\ df_has_nan out = false
    /\ (exists day, iloc (df_index out) (-1) = Ok day)
    /\ Forall (fun kv => length kv.2 = 3%nat
                         /\ exists x, iloc kv.2 (-1) = Ok x /\ is_nan x = false)
              (df_cols out).
Proof.
  pose proof (feature_generator_output Examples.steady_lib (Examples.flat_table 3)
                Examples.fresh) as H.
  destruct (EnhancedMl.generate_features_body Examples.steady_lib (Examples.flat_table 3)
              Examples.fresh) as [[out|e] w'] eqn:Hbody.
  - destruct H as (Hgen & Hnan & _ & _ & _ & _ & _ & Hlast).
    exists out. unfold value_of. rewrite Hgen. split; [reflexivity|].
    split; [exact Hnan|].
    apply Hlast; [apply flat_table_wf | apply steady_lib_aligned | vm_compute; lia].
  - exfalso. vm_compute in Hbody. discriminate Hbody.
Defined.

(** Counterexample to C6 as the specification words it.  A table of two
    bars whose second close is missing, with an ADX that raises on a
    table shorter than its window: the generator returns the
    table with its undefined cell and without the other four columns. *)
Lemma feature_generator_returns_input_on_error :
  (1 <= df_len Examples.gap_table)%nat
  /\ df_has Examples.gap_table "Close" = true
  /\ value_of (EnhancedMl.generate_features Examples.short_window_lib Examples.gap_table)
              Examples.fresh = Ok Examples.gap_table
  /\ df_has_nan Examples.gap_table = true
  /\ df_has Examples.gap_table "Volume" = false.
Proof. repeat split; vm_compute; try reflexivity; lia. Qed.

(** With working indicators a table of closes alone gets its four other
    columns: Volume as 0, the others as the close. *)
Lemma feature_generator_synthesizes_columns :
  exists out,
    value_of (EnhancedMl.generate_features Examples.steady_lib
                (mkDF (Examples.day <$> seq 0 3) [("Close", replicate 3 (Fin 100))]))
             Examples.fresh = Ok out
    /\ df_getitem out "Volume" = Ok (replicate 3 (Fin 0))
    /\ df_getitem out "Open" = Ok (replicate 3 (Fin 100))
    /\ df_getitem out "High" = Ok (replicate 3 (Fin 100))
    /\ df_getitem out "Low" = Ok (replicate 3 (Fin 100))
    /\ df_has_nan out = false.
Proof.
  eexists. split; [vm_compute; reflexivity|]. repeat split; vm_compute; reflexivity.
Qed.

(** ** Effects on the caches *)

Section Frames.
Context (onchain_key social_key : string -> Prop).

Lemma frame_refl (w : World)  : scorer_frame onchain_key social_key w w.
Proof.
  split; [reflexivity|]. split; [exists []; symmetry; apply app_nil_r|].
  split; reflexivity.
Qed.

Lemma frame_trans (w w1 w2 : World) :
  scorer_frame onchain_key social_key w w1 -> scorer_frame onchain_key social_key w1 w2 ->
  scorer_frame onchain_key social_key w w2.
Proof.
  intros (Hn1 & [m1 Hl1] & Ho1 & Hs1) (Hn2 & [m2 Hl2] & Ho2 & Hs2).
  split; [congruence|]. split.
  - exists (m1 ++ m2). rewrite Hl2, Hl1. symmetry. apply app_assoc.
  - split; intros k Hk; [rewrite Ho2, Ho1 | rewrite Hs2, Hs1]; auto.
Qed.

Lemma frames_ret {A} (a : A) : frames onchain_key social_key (mret a : M A).
Proof. intros w. split; [reflexivity | apply frame_refl]. Qed.

Lemma frames_raise {A} (e : exn) : frames onchain_key social_key (raise e : M A).
Proof. intros w. split; [reflexivity | apply frame_refl]. Qed.

Lemma frames_lift {A} (r : res A) : frames onchain_key social_key (lift r).
Proof. intros w. split; [reflexivity | apply frame_refl]. Qed.

Lemma frames_now : frames onchain_key social_key now_timestamp.
Proof. intros w. split; [reflexivity | apply frame_refl]. Qed.

Lemma frames_logger (lv : level) (msg : string) : frames onchain_key social_key (logger lv msg).
Proof.
  intros w. split; [reflexivity|]. split; [reflexivity|].
  split; [eexists; reflexivity|]. split; reflexivity.
Qed.

Lemma frames_bind {A B} (c : M A) (k : A -> M B) :
  frames onchain_key social_key c -> (forall a, frames onchain_key social_key (k a)) -> frames onchain_key social_key (c ≫= k).
Proof.
  intros Hc Hk w. rewrite bind_run. destruct (Hc w) as [H1 H2].
  destruct (c w) as [[a|e] w1]; cbn [snd] in *; [|split; assumption].
  destruct (Hk a w1) as [H3 H4]. split; [congruence|].
  eapply frame_trans; eassumption.
Qed.

Lemma frames_try {A} (body : M A) (handler : exn -> M A) :
  frames onchain_key social_key body -> (forall e, frames onchain_key social_key (handler e)) -> frames onchain_key social_key (try_except body handler).
Proof.
  intros Hb Hh w. rewrite try_except_run. destruct (Hb w) as [H1 H2].
  destruct (body w) as [[a|e] w1]; cbn [snd] in *; [split; assumption|].
  destruct (Hh e w1) as [H3 H4]. split; [congruence|].
  eapply frame_trans; eassumption.
Qed.

Lemma frames_onchain_get (k : string) : frames onchain_key social_key (OnChain._get_cached_data k).
Proof. intros w. split; [reflexivity | apply frame_refl]. Qed.

Lemma frames_social_get (k : string) : frames onchain_key social_key (Social._get_cached_data k).
Proof. intros w. split; [reflexivity | apply frame_refl]. Qed.

Lemma frames_onchain_set (k : string) (v : pyval) :
  onchain_key k -> frames onchain_key social_key (OnChain._set_cache k v).
Proof.
  intros Hk w. split; [reflexivity|]. split; [reflexivity|].
  split; [exists []; symmetry; apply app_nil_r|]. split; [|reflexivity].
  intros k' Hk'. cbn. apply lookup_insert_ne. intros ->. contradiction.
Qed.

Lemma frames_social_set (k : string) (v : pyval) :
  social_key k -> frames onchain_key social_key (Social._set_cache k v).
Proof.
  intros Hk w. split; [reflexivity|]. split; [reflexivity|].
  split; [exists []; symmetry; apply app_nil_r|]. split; [reflexivity|].
  intros k' Hk'. cbn. apply lookup_insert_ne. intros ->. contradiction.
Qed.

End Frames.


Lemma frames_calculate_ema (P S : string -> Prop) (data : series) (period : Z) :
  frames P S (Indicators.calculate_ema data period).
Proof. unfold Indicators.calculate_ema. repeat first
    [ apply frames_ret | apply frames_raise | apply frames_lift
    | apply frames_logger | apply frames_now
    | apply frames_onchain_get | apply frames_social_get
    | apply frames_bind; [| intros ?]
    | apply frames_try; [| intros ?]
    | match goal with
      | |- frames _ _ (if ?b then _ else _) => destruct b
      | |- frames _ _ (match ?x with _ => _ end) => destruct x
      | |- frames _ _ (let _ := _ in _) => cbv zeta
      end ]. Qed.

Lemma frames_calculate_macd (P S : string -> Prop) (data : series) (fast slow signal : Z) :
  frames P S (Indicators.calculate_macd data fast slow signal).
Proof.
  unfold Indicators.calculate_macd.
  apply frames_try; [|intros e; repeat first
    [ apply frames_ret | apply frames_raise | apply frames_lift
    | apply frames_logger | apply frames_now
    | apply frames_onchain_get | apply frames_social_get
    | apply frames_bind; [| intros ?]
    | apply frames_try; [| intros ?]
    | match goal with
      | |- frames _ _ (if ?b then _ else _) => destruct b
      | |- frames _ _ (match ?x with _ => _ end) => destruct x
      | |- frames _ _ (let _ := _ in _) => cbv zeta
      end ]].
  apply frames_bind; [apply frames_calculate_ema | intros fast_ema].
  apply frames_bind; [apply frames_calculate_ema | intros slow_ema].
  cbv zeta.
  apply frames_bind; [apply frames_calculate_ema | intros signal_line].
  apply frames_ret.
Qed.

Lemma frames_bollinger (P S : string -> Prop) (lib : Lib) (data : series) (window : nat)
    (dev : fnum) :
  frames P S (Indicators.calculate_bollinger_bands lib data window dev).
Proof. unfold Indicators.calculate_bollinger_bands. repeat first
    [ apply frames_ret | apply frames_raise | apply frames_lift
    | apply frames_logger | apply frames_now
    | apply frames_onchain_get | apply frames_social_get
    | apply frames_bind; [| intros ?]
    | apply frames_try; [| intros ?]
    | match goal with
      | |- frames _ _ (if ?b then _ else _) => destruct b
      | |- frames _ _ (match ?x with _ => _ end) => destruct x
      | |- frames _ _ (let _ := _ in _) => cbv zeta
      end ]. Qed.

(** The technical scorer raises inside its [try] and logs the error; it
    touches no cache. *)
Lemma frames_technical (P S : string -> Prop) (lib : Lib) (price_data : option DataFrame) :
  frames P S (MultiSignal._analyze_technical_indicators lib price_data).
Proof.
  unfold MultiSignal._analyze_technical_indicators.
  destruct price_data as [df|]; [|apply frames_ret].
  destruct (df_len df <? 30)%nat; [apply frames_ret|].
  apply frames_try; [|intros e; repeat first
    [ apply frames_ret | apply frames_raise | apply frames_lift
    | apply frames_logger | apply frames_now
    | apply frames_onchain_get | apply frames_social_get
    | apply frames_bind; [| intros ?]
    | apply frames_try; [| intros ?]
    | match goal with
      | |- frames _ _ (if ?b then _ else _) => destruct b
      | |- frames _ _ (match ?x with _ => _ end) => destruct x
      | |- frames _ _ (let _ := _ in _) => cbv zeta
      end ]].
  unfold MultiSignal.technical_body.
  apply frames_bind; [apply frames_lift | intros close].
  apply frames_bind; [apply frames_calculate_macd | intros [[macd_line signal_line] hist]].
  intros w. rewrite bind_run.
  destruct (frames_bollinger P S lib close 20 (Fin 2) w) as [Hc Hf].
  destruct (Indicators.calculate_bollinger_bands lib close 20 (Fin 2) w)
    as [[v|e] w1] eqn:Hbb; cbn [snd] in *; [|split; assumption].
  destruct (bollinger_bands_not_a_triple _ _ _ _ _ _ _ Hbb) as [e He].
  rewrite bind_run, lift_run, He. split; assumption.
Qed.

Lemma frames_onchain (P S : string -> Prop) (lib : Lib) (symbol timeframe : string) :
  P ("onchain_" +:+ symbol +:+ "_" +:+ timeframe) ->
  frames P S (OnChain.get_onchain_analysis lib symbol timeframe).
Proof.
  intros Hkey. unfold OnChain.get_onchain_analysis, OnChain.analysis, num_at. cbv zeta.
  apply frames_bind; [apply frames_onchain_get | intros cached].
  apply frames_bind; [apply frames_lift | intros hit].
  destruct hit; [apply frames_ret|].
  apply frames_try; [|intros e; repeat first
    [ apply frames_ret | apply frames_raise | apply frames_lift
    | apply frames_logger | apply frames_now
    | apply frames_onchain_get | apply frames_social_get
    | apply frames_bind; [| intros ?]
    | apply frames_try; [| intros ?]
    | match goal with
      | |- frames _ _ (if ?b then _ else _) => destruct b
      | |- frames _ _ (match ?x with _ => _ end) => destruct x
      | |- frames _ _ (let _ := _ in _) => cbv zeta
      end ]].
  apply frames_bind; [repeat first
    [ apply frames_ret | apply frames_raise | apply frames_lift
    | apply frames_logger | apply frames_now
    | apply frames_onchain_get | apply frames_social_get
    | apply frames_bind; [| intros ?]
    | apply frames_try; [| intros ?]
    | match goal with
      | |- frames _ _ (if ?b then _ else _) => destruct b
      | |- frames _ _ (match ?x with _ => _ end) => destruct x
      | |- frames _ _ (let _ := _ in _) => cbv zeta
      end ] | intros result].
  apply frames_bind; [apply frames_onchain_set; exact Hkey | intros _]. apply frames_ret.
Qed.

Lemma frames_platform (P S : string -> Prop) (prefix platform : string)
    (simulate : string -> Q -> res pyval) (symbol : string) :
  S (prefix +:+ symbol) ->
  frames P S (Social.platform_sentiment prefix platform simulate symbol).
Proof.
  intros Hkey. unfold Social.platform_sentiment. cbv zeta.
  apply frames_bind; [apply frames_social_get | intros cached].
  apply frames_bind; [apply frames_lift | intros hit].
  destruct hit; [apply frames_ret|].
  apply frames_try; [|intros e; repeat first
    [ apply frames_ret | apply frames_raise | apply frames_lift
    | apply frames_logger | apply frames_now
    | apply frames_onchain_get | apply frames_social_get
    | apply frames_bind; [| intros ?]
    | apply frames_try; [| intros ?]
    | match goal with
      | |- frames _ _ (if ?b then _ else _) => destruct b
      | |- frames _ _ (match ?x with _ => _ end) => destruct x
      | |- frames _ _ (let _ := _ in _) => cbv zeta
      end ]].
  apply frames_bind; [apply frames_now | intros now].
  apply frames_bind; [apply frames_lift | intros data].
  apply frames_bind; [apply frames_social_set; exact Hkey | intros _]. apply frames_ret.
Qed.

Lemma frames_social (P S : string -> Prop) (lib : Lib) (symbol : string) :
  S ("twitter_sentiment_" +:+ symbol) -> S ("reddit_sentiment_" +:+ symbol) ->
  S ("combined_sentiment_" +:+ symbol) ->
  frames P S (Social.get_combined_social_sentiment lib symbol).
Proof.
  intros Ht Hr Hc. unfold Social.get_combined_social_sentiment. cbv zeta.
  apply frames_bind; [apply frames_social_get | intros cached].
  apply frames_bind; [apply frames_lift | intros hit].
  destruct hit; [apply frames_ret|].
  apply frames_try; [|intros e; repeat first
    [ apply frames_ret | apply frames_raise | apply frames_lift
    | apply frames_logger | apply frames_now
    | apply frames_onchain_get | apply frames_social_get
    | apply frames_bind; [| intros ?]
    | apply frames_try; [| intros ?]
    | match goal with
      | |- frames _ _ (if ?b then _ else _) => destruct b
      | |- frames _ _ (match ?x with _ => _ end) => destruct x
      | |- frames _ _ (let _ := _ in _) => cbv zeta
      end ]].
  apply frames_bind;
    [|intros result; apply frames_bind;
      [apply frames_social_set; exact Hc | intros _; apply frames_ret]].
  unfold Social.combined, Social.get_twitter_sentiment, Social.get_reddit_sentiment, num_at.
  apply frames_bind; [apply frames_platform; exact Ht | intros twitter].
  apply frames_bind; [apply frames_platform; exact Hr | intros reddit].
  repeat first
    [ apply frames_ret | apply frames_raise | apply frames_lift
    | apply frames_logger | apply frames_now
    | apply frames_onchain_get | apply frames_social_get
    | apply frames_bind; [| intros ?]
    | apply frames_try; [| intros ?]
    | match goal with
      | |- frames _ _ (if ?b then _ else _) => destruct b
      | |- frames _ _ (match ?x with _ => _ end) => destruct x
      | |- frames _ _ (let _ := _ in _) => cbv zeta
      end ].
Qed.

Lemma combined_signal_pure (lib : Lib) (technical onchain social : pyval)
    (timeframe : string) (w : World) :
  (MultiSignal._calculate_combined_signal lib technical onchain social timeframe w).2 = w.
Proof.
  unfold MultiSignal._calculate_combined_signal.
  rewrite bind_run, lift_run.
  destruct (MultiSignal.normalized_scores technical onchain social) as [[[t o] s]|e];
    [|reflexivity].
  cbv zeta.
  repeat match goal with
    | |- context [if ?b then _ else _] => destruct b
    end;
  repeat match goal with
    | |- context [dict_getitem ?d ?k] => destruct (dict_getitem d k)
    end; reflexivity.
Qed.

Lemma agreement_signals_pure (technical onchain social : pyval) (w : World) :
  (MultiSignal.agreement_signals technical onchain social w).2 = w.
Proof.
  unfold MultiSignal.agreement_signals, num_at.
  cbv [mbind M_bind bind lift mret M_ret ret].
  destruct (dict_getitem technical "overall_signal") as [lt|]; [|reflexivity].
  destruct (dict_getitem onchain "score") as [v|]; [|reflexivity].
  destruct (as_num v) as [o|]; [|reflexivity].
  destruct (dict_getitem social "sentiment") as [ls|]; reflexivity.
Qed.

(** The result of the technical scorer is the neutral one. *)
Lemma technical_result_neutral (lib : Lib) (price_data : option DataFrame)
    (w w1 : World) (technical : pyval) :
  MultiSignal._analyze_technical_indicators lib price_data w = (Ok technical, w1) ->
  exists text, technical = MultiSignal.neutral_technical text.
Proof.
  unfold MultiSignal._analyze_technical_indicators.
  destruct price_data as [df|]; [|intros [= <- _]; eexists; reflexivity].
  destruct (df_len df <? 30)%nat; [intros [= <- _]; eexists; reflexivity|].
  rewrite try_except_run.
  destruct (technical_body_raises lib df w) as (e & w' & ->).
  intros [= <- _]. eexists. reflexivity.
Qed.

(** What a completed analysis returns and stores. *)
Lemma analyze_body_result (lib : Lib) (cache_key symbol : string)
    (price_data : option DataFrame) (timeframe : string) (w w1 : World) (result : pyval) :
  MultiSignal.analyze_body lib cache_key symbol price_data timeframe w = (Ok result, w1) ->
  exists technical onchain social signals score confidence prediction explanation w0,
    (exists text, technical = MultiSignal.neutral_technical text)
    /\ MultiSignal.agreement_signals technical onchain social w0 = (Ok signals, w0)
    /\ result
       = PDict [("symbol", PStr symbol);
                ("timeframe", PStr timeframe);
                ("prediction", PStr prediction);
                ("confidence", PNum confidence);
                ("score", PNum score);
                ("explanation", PStr explanation);
                ("agreement", PStr (MultiSignal.agreement_of signals));
                ("signals", PDict [("technical", technical);
                                   ("onchain", onchain);
                                   ("social", social)]);
                ("analysis_time", PStr (strftime_datetime lib (w_now w0)))]
    /\ w1 = world_after (MultiSignal._set_cache cache_key result) w0.
Proof.
  intros H. unfold MultiSignal.analyze_body in H.
  apply bind_ok in H. destruct H as (technical & wt & Ht & H).
  cbv zeta in H.
  apply bind_ok in H. destruct H as (onchain & wo & Ho & H).
  apply bind_ok in H. destruct H as (social & ws & Hs & H).
  apply bind_ok in H. destruct H as ([[[score confidence] prediction] explanation] & wc & Hc & H).
  pose proof (combined_signal_pure lib technical onchain social timeframe ws) as Hp.
  rewrite Hc in Hp. cbn [snd] in Hp. subst wc.
  apply bind_ok in H. destruct H as (signals & wa & Ha & H).
  pose proof (agreement_signals_pure technical onchain social ws) as Hp.
  rewrite Ha in Hp. cbn [snd] in Hp. subst wa.
  cbv [mbind M_bind bind now_timestamp MultiSignal._set_cache mret M_ret ret] in H.
  injection H as <- <-.
  exists technical, onchain, social, signals, score, confidence, prediction, explanation, ws.
  split; [eapply technical_result_neutral; exact Ht|].
  split; [exact Ha|]. split; reflexivity.
Qed.

(** The effect of the [try] of [analyze_all_signals] on the world, by its
    outcome. *)
Lemma analyze_body_effect (lib : Lib) (cache_key symbol : string)
    (price_data : option DataFrame) (timeframe : string) (w : World) :
  let onchain_timeframe :=
    if String.eqb timeframe "1h" || String.eqb timeframe "1d" then "24h" else "7d" in
  let onchain_key k := k = "onchain_" +:+ symbol +:+ "_" +:+ onchain_timeframe in
  let social_key k :=
    k = "twitter_sentiment_" +:+ symbol \/ k = "reddit_sentiment_" +:+ symbol
    \/ k = "combined_sentiment_" +:+ symbol in
  match MultiSignal.analyze_body lib cache_key symbol price_data timeframe w with
  | (Ok result, w1) =>
      w_cache w1 = <[cache_key := (w_now w, result)]> (w_cache w)
      /\ scorer_frame onchain_key social_key w w1
  | (Raise e, w1) =>
      w_cache w1 = w_cache w /\ scorer_frame onchain_key social_key w w1
  end.
Proof.
  intros onchain_timeframe onchain_key social_key.
  unfold MultiSignal.analyze_body. fold onchain_timeframe. cbv zeta.
  rewrite bind_run.
  destruct (frames_technical onchain_key social_key lib price_data w) as [Hc1 Hf1].
  destruct (MultiSignal._analyze_technical_indicators lib price_data w)
    as [[technical|e] w1]; cbn [snd] in Hc1, Hf1; [|split; assumption].
  rewrite bind_run.
  destruct (frames_onchain onchain_key social_key lib symbol onchain_timeframe eq_refl w1)
    as [Hc2 Hf2].
  destruct (OnChain.get_onchain_analysis lib symbol onchain_timeframe w1)
    as [[onchain|e] w2]; cbn [snd] in Hc2, Hf2;
    [|split; [congruence | eapply frame_trans; eassumption]].
  rewrite bind_run.
  destruct (frames_social onchain_key social_key lib symbol
              (or_introl eq_refl) (or_intror (or_introl eq_refl))
              (or_intror (or_intror eq_refl)) w2) as [Hc3 Hf3].
  destruct (Social.get_combined_social_sentiment lib symbol w2)
    as [[social|e] w3]; cbn [snd] in Hc3, Hf3;
    [|split; [congruence | eapply frame_trans; [eapply frame_trans|]; eassumption]].
  assert (Hc : w_cache w3 = w_cache w) by congruence.
  assert (Hf : scorer_frame onchain_key social_key w w3)
    by (eapply frame_trans; [eapply frame_trans|]; eassumption).
  rewrite bind_run.
  pose proof (combined_signal_pure lib technical onchain social timeframe w3) as Hp.
  destruct (MultiSignal._calculate_combined_signal lib technical onchain social timeframe w3)
    as [[[[[score confidence] prediction] explanation]|e] w4]; cbn [snd] in Hp; subst w4;
    [|split; assumption].
  rewrite bind_run.
  pose proof (agreement_signals_pure technical onchain social w3) as Hp.
  destruct (MultiSignal.agreement_signals technical onchain social w3)
    as [[signals|e] w4]; cbn [snd] in Hp; subst w4; [|split; assumption].
  cbv [mbind M_bind bind now_timestamp MultiSignal._set_cache mret M_ret ret].
  cbn [w_cache]. split.
  - rewrite Hc. destruct Hf as [Hn _]. rewrite Hn. reflexivity.
  - destruct Hf as (Hn & Hl & Ho & Hs). split; [exact Hn|]. split; [exact Hl|].
    split; [exact Ho | exact Hs].
Qed.

(** C8 (amended).  [analyze_all_signals] reads the cache of the analyzer,
    which all requests share.  A fresh entry for the key of the call is
    returned as it is and nothing changes.  Otherwise the analysis runs.
    When it completes, its result is returned and stored under that key
    with the time of the call, and no other entry of that cache changes.
    When it raises, the error is logged, the error result is returned and
    that cache is left as it was.  In both cases the clock is as it was,
    the log is extended, and the caches of the two scorers change at most
    under the keys of the call. *)
Theorem analyze_all_signals_cache_effect (lib : Lib) (symbol : string)
    (price_data : option DataFrame) (timeframe : string) (w : World) :
  let cache_key := "multi_signal_" +:+ symbol +:+ "_" +:+ timeframe in
  let cached := cache_lookup (w_cache w) MultiSignal.cache_ttl (w_now w) cache_key in
  let onchain_timeframe :=
    if String.eqb timeframe "1h" || String.eqb timeframe "1d" then "24h" else "7d" in
  let onchain_key k := k = "onchain_" +:+ symbol +:+ "_" +:+ onchain_timeframe in
  let social_key k :=
    k = "twitter_sentiment_" +:+ symbol \/ k = "reddit_sentiment_" +:+ symbol
    \/ k = "combined_sentiment_" +:+ symbol in
  let run := MultiSignal.analyze_all_signals lib symbol price_data timeframe w in
  match py_truthy cached with
  | Ok true => run = (Ok cached, w)
  | Raise e => run = (Raise e, w)
  | Ok false =>
      match MultiSignal.analyze_body lib cache_key symbol price_data timeframe w with
      | (Ok result, w1) =>
          run = (Ok result, w1)
          /\ w_cache w1 = <[cache_key := (w_now w, result)]> (w_cache w)
          /\ scorer_frame onchain_key social_key w w1
      | (Raise e, w1) =>
          run = (Ok (PDict [("symbol", PStr symbol);
                            ("timeframe", PStr timeframe);
                            ("prediction", PStr "Neutral");
                            ("confidence", pint 50);
                            ("explanation", PStr ("Error in analysis: " +:+ exn_str e));
                            ("agreement", PStr "Unknown");
                            ("error", PStr (exn_str e))]),
                 world_after (logger ERROR ("Error in multi-signal analysis for "
                                            +:+ symbol +:+ ": " +:+ exn_str e)) w1)
          /\ w_cache run.2 = w_cache w
          /\ w_cache w1 = w_cache w
          /\ scorer_frame onchain_key social_key w w1
      end
  end.
Proof.
  intros cache_key cached onchain_timeframe onchain_key social_key run. subst run.
  unfold MultiSignal.analyze_all_signals. cbv zeta. fold cache_key.
  assert (Hget : MultiSignal._get_cached_data cache_key w = (Ok cached, w))
    by reflexivity.
  rewrite bind_run, Hget, bind_run, lift_run.
  destruct (py_truthy cached) as [[|]|e]; [reflexivity| |reflexivity].
  rewrite try_except_run.
  pose proof (analyze_body_effect lib cache_key symbol price_data timeframe w) as Heffect.
  cbv zeta in Heffect. fold onchain_timeframe in Heffect.
  destruct (MultiSignal.analyze_body lib cache_key symbol price_data timeframe w)
    as [[result|e] w1].
  - destruct Heffect as [Hc Hf]. split; [reflexivity|]. split; [exact Hc | exact Hf].
  - destruct Heffect as [Hc Hf]. split; [reflexivity|].
    split; [exact Hc|]. split; [exact Hc | exact Hf].
Qed.

(** Counterexample to C8 as the specification words it.  One call on a
    fresh process: the analyzer's cache, empty before, holds
    the result under the key of the call afterwards, and the caches of
    the two scorers have their entries too.  A second call reads the
    entry and returns it. *)
Lemma analysis_writes_shared_cache :
  let call := MultiSignal.analyze_all_signals Examples.steady_lib "BTC"
                (Some (Examples.flat_table 40)) "1d" in
  let after := world_after call Examples.fresh in
  w_cache Examples.fresh !! "multi_signal_BTC_1d" = None
  /\ (exists result,
        value_of call Examples.fresh = Ok result
        /\ w_cache after !! "multi_signal_BTC_1d" = Some (w_now Examples.fresh, result)
        /\ call after = (Ok result, after))
  /\ w_cache after <> w_cache Examples.fresh
  /\ w_onchain_cache after !! "onchain_BTC_24h" <> None
  /\ w_social_cache after !! "combined_sentiment_BTC" <> None.
Proof.
  intros call after.
  assert (Hstored : exists result,
            value_of call Examples.fresh = Ok result
            /\ w_cache after !! "multi_signal_BTC_1d" = Some (w_now Examples.fresh, result)
            /\ call after = (Ok result, after)).
  { let r := eval vm_compute in (value_of call Examples.fresh) in
    match r with
    | Ok ?x => exists x
    end.
    repeat split; vm_compute; reflexivity. }
  split; [reflexivity|]. split; [exact Hstored|]. split.
  - destruct Hstored as (result & _ & Hlook & _). intros Heq.
    rewrite Heq in Hlook. discriminate Hlook.
  - split; vm_compute; discriminate.
Qed.

(** ** The agreement level of the fused result *)

(** C4 (amended).  A fused result that [analyze_all_signals] computes
    holds the three results of the scorers, and its agreement level is
    computed from three labels: the label of the technical result, which
    is always Neutral; the on-chain raw score against 20 and -20; and the
    sentiment label of the social result.  The level is Strong exactly
    when the three labels are all Bullish or all Bearish, which the
    Neutral technical label rules out; it is Moderate exactly when the
    on-chain label and the social label are both Bullish or both Bearish,
    and Weak otherwise. *)
Theorem agreement_level_of_labels (lib : Lib) (symbol : string)
    (price_data : option DataFrame) (timeframe : string) (w w1 : World)
    (result : pyval) :
  let cache_key := "multi_signal_" +:+ symbol +:+ "_" +:+ timeframe in
  py_truthy (cache_lookup (w_cache w) MultiSignal.cache_ttl (w_now w) cache_key)
    = Ok false ->
  MultiSignal.analyze_body lib cache_key symbol price_data timeframe w = (Ok result, w1) ->
  exists (technical onchain social raw ls : pyval) (o : fnum) (agreement : string),
    MultiSignal.analyze_all_signals lib symbol price_data timeframe w = (Ok result, w1)
    /\ dict_getitem result "signals"
       = Ok (PDict [("technical", technical); ("onchain", onchain); ("social", social)])
    /\ dict_getitem result "agreement" = Ok (PStr agreement)
    /\ dict_getitem technical "overall_signal" = Ok (PStr "Neutral")
    /\ dict_getitem onchain "score" = Ok raw
    /\ as_num raw = Ok o
    /\ dict_getitem social "sentiment" = Ok ls
    /\ let lt := PStr "Neutral" in
       let lo := PStr (if fgt o (Fin 20) then "Bullish"
                       else if flt o (Fin (-20)) then "Bearish" else "Neutral") in
       let all3 (x : string) := lt = PStr x /\ lo = PStr x /\ ls = PStr x in
       let two (x : string) :=
         (lt = PStr x /\ lo = PStr x) \/ (lt = PStr x /\ ls = PStr x)
         \/ (lo = PStr x /\ ls = PStr x) in
       (agreement = "Strong" <-> all3 "Bullish" \/ all3 "Bearish")
       /\ (agreement = "Moderate" <->
             ~ (all3 "Bullish" \/ all3 "Bearish") /\ (two "Bullish" \/ two "Bearish"))
       /\ (agreement = "Weak" <-> ~ (two "Bullish" \/ two "Bearish"))
       /\ agreement <> "Strong"
       /\ (agreement = "Moderate" <->
             (fgt o (Fin 20) = true /\ ls = PStr "Bullish")
             \/ (fgt o (Fin 20) = false /\ flt o (Fin (-20)) = true /\ ls = PStr "Bearish")).
Proof.
  intros cache_key Hmiss Hbody.
  destruct (analyze_body_result _ _ _ _ _ _ _ _ Hbody)
    as (technical & onchain & social & signals & score & confidence & prediction
        & explanation & w0 & [text ->] & Hsignals & Hresult & _).
  unfold MultiSignal.agreement_signals, num_at in Hsignals.
  cbn [MultiSignal.neutral_technical dict_getitem assoc_get String.eqb Ascii.eqb Bool.eqb]
    in Hsignals.
  rewrite bind_run, lift_run in Hsignals.
  apply bind_ok in Hsignals. destruct Hsignals as (o & ? & Ho & Hsignals).
  apply bind_ok in Ho. destruct Ho as (raw & ? & Hraw & Ho).
  injection Hraw as Hraw <-. injection Ho as Ho _.
  apply bind_ok in Hsignals. destruct Hsignals as (ls & ? & Hls & Hsignals).
  injection Hls as Hls _. injection Hsignals as <- _.
  exists (MultiSignal.neutral_technical text), onchain, social, raw, ls, o.
  eexists.
  split.
  { unfold MultiSignal.analyze_all_signals. cbv zeta. fold cache_key.
    assert (Hget : MultiSignal._get_cached_data cache_key w
                   = (Ok (cache_lookup (w_cache w) MultiSignal.cache_ttl (w_now w)
                                       cache_key), w)) by reflexivity.
    rewrite bind_run, Hget, bind_run, lift_run, Hmiss, try_except_run, Hbody.
    reflexivity. }
  split; [rewrite Hresult; reflexivity|].
  split; [rewrite Hresult; reflexivity|].
  split; [reflexivity|]. split; [exact Hraw|]. split; [exact Ho|]. split; [exact Hls|].
  cbv zeta.
  pose proof (agreement_of_cases (PStr "Neutral")
                (PStr (if fgt o (Fin 20) then "Bullish"
                       else if flt o (Fin (-20)) then "Bearish" else "Neutral")) ls)
    as (H1 & H2 & H3).
  cbv zeta in H1, H2, H3.
  split; [exact H1|]. split; [exact H2|]. split; [exact H3|].
  split.
  - intros Hs. apply H1 in Hs. destruct Hs as [[Hs _]|[Hs _]]; discriminate Hs.
  - rewrite H2. split.
    + intros [_ [[[Hs _]|[[Hs _]|[Hlo Hs]]]|[[Hs _]|[[Hs _]|[Hlo Hs]]]]];
        try discriminate Hs.
      * left. split; [|exact Hs]. destruct (fgt o (Fin 20)); [reflexivity|].
        destruct (flt o (Fin (-20))); discriminate Hlo.
      * right. destruct (fgt o (Fin 20)); [discriminate Hlo|].
        split; [reflexivity|]. split; [|exact Hs].
        destruct (flt o (Fin (-20))); [reflexivity | discriminate Hlo].
    + intros [[Ho1 Hs]|(Ho1 & Ho2 & Hs)].
      * rewrite Ho1. split.
        -- intros [[Hn _]|[Hn _]]; discriminate Hn.
        -- left. right. right. split; [reflexivity | exact Hs].
      * rewrite Ho1, Ho2. split.
        -- intros [[Hn _]|[Hn _]]; discriminate Hn.
        -- right. right. right. split; [reflexivity | exact Hs].
Qed.

(** A run in which coins leave the exchanges and every platform is
    positive: the on-chain and social labels are Bullish and the level of
    the result is Moderate. *)
Lemma agreement_level_of_labels_witness :
  exists result,
    value_of (MultiSignal.analyze_all_signals Examples.bullish_lib "BTC"
                (Some (Examples.flat_table 40)) "1d") Examples.fresh = Ok result
    /\ dict_getitem result "agreement" = Ok (PStr "Moderate").
Proof.
  pose (body := MultiSignal.analyze_body Examples.bullish_lib "multi_signal_BTC_1d" "BTC"
                  (Some (Examples.flat_table 40)) "1d" Examples.fresh).
  assert (Hbody : exists result w1, body = (Ok result, w1)).
  { let r := eval vm_compute in body in
    match r with
    | (Ok ?x, ?y) => exists x, y
    end.
    vm_compute. reflexivity. }
  destruct Hbody as (result & w1 & Hbody).
  destruct (agreement_level_of_labels Examples.bullish_lib "BTC"
              (Some (Examples.flat_table 40)) "1d" Examples.fresh w1 result
              eq_refl Hbody)
    as (technical & onchain & social & raw & ls & o & agreement
        & Hrun & Hsignals & Hagreement & _ & Hraw & Ho & Hls & _ & _ & _ & _ & Hmoderate).
  exists result. split.
  - unfold value_of. rewrite Hrun. reflexivity.
  - rewrite Hagreement. f_equal. f_equal. apply Hmoderate.
    subst body. vm_compute in Hbody. injection Hbody as <- _.
    injection Hsignals as _ <- <-.
    injection Hraw as <-. injection Ho as <-. injection Hls as <-.
    left. split; reflexivity.
Defined.

(** Counterexample to C4 as the specification words it.  Two runs of the
    whole analysis.  On a steady market the technical score is 0, the
    on-chain score 12 (1.2 on the common scale) and the social score 0.04
    (0.4): the three directions by the thresholds 3 and -3 are all
    Neutral, so they match, and the agreement level of the result is
    Weak.  On a mild accumulation the on-chain score is 22.5 (2.25) and
    the social score 0.25 (2.5): the three directions are again all
    Neutral, but the on-chain score is above 20 and the social analyzer
    reports Bullish, and the agreement level of the result is Moderate. *)
Lemma agreement_of_matching_neutral_directions :
  (exists result technical onchain social t o s,
     value_of (MultiSignal.analyze_all_signals Examples.steady_lib "BTC"
                 (Some (Examples.flat_table 40)) "1d") Examples.fresh = Ok result
     /\ dict_getitem result "signals"
          = Ok (PDict [("technical", technical); ("onchain", onchain); ("social", social)])
     /\ MultiSignal.normalized_scores technical onchain social = Ok (t, o, s)
     /\ MultiSignal.direction t = "Neutral"
     /\ MultiSignal.direction o = "Neutral"
     /\ MultiSignal.direction s = "Neutral"
     /\ SpecWords.agreement t o s = "Strong"
     /\ dict_getitem result "agreement" = Ok (PStr "Weak"))
  /\ (exists result technical onchain social t o s raw,
        value_of (MultiSignal.analyze_all_signals Examples.mild_lib "BTC"
                    (Some (Examples.flat_table 40)) "1d") Examples.fresh = Ok result
        /\ dict_getitem result "signals"
             = Ok (PDict [("technical", technical); ("onchain", onchain);
                          ("social", social)])
        /\ MultiSignal.normalized_scores technical onchain social = Ok (t, o, s)
        /\ MultiSignal.direction t = "Neutral"
        /\ MultiSignal.direction o = "Neutral"
        /\ MultiSignal.direction s = "Neutral"
        /\ SpecWords.agreement t o s = "Strong"
        /\ dict_getitem technical "overall_signal" = Ok (PStr "Neutral")
        /\ dict_getitem onchain "score" = Ok (PNum raw)
        /\ fgt raw (Fin 20) = true
        /\ dict_getitem social "sentiment" = Ok (PStr "Bullish")
        /\ dict_getitem result "agreement" = Ok (PStr "Moderate")).
Proof.
  split.
  - eexists _, _, _, _, _, _, _. split; [vm_compute; reflexivity|].
    split; [reflexivity|]. split; [vm_compute; reflexivity|].
    repeat split; vm_compute; reflexivity.
  - eexists _, _, _, _, _, _, _, _. split; [vm_compute; reflexivity|].
    split; [reflexivity|]. split; [vm_compute; reflexivity|].
    split; [vm_compute; reflexivity|]. split; [vm_compute; reflexivity|].
    split; [vm_compute; reflexivity|]. split; [vm_compute; reflexivity|].
    split; [reflexivity|]. split; [reflexivity|].
    repeat split; vm_compute; reflexivity.
Qed.

(** * Further properties of the analyzers and indicators *)

(** ** The caches: storing and reading back *)

Lemma cache_lookup_insert (cache : gmap string (Q * pyval)) (ttl t dt : Q)
    (k : string) (data : pyval) :
  cache_lookup (<[k := (t, data)]> cache) ttl (t + dt) k
  = if Qltb dt ttl then data else PNone.
Proof.
  unfold cache_lookup. rewrite lookup_insert_eq.
  assert (E : Qltb (t + dt - t) ttl = Qltb dt ttl).
  { destruct (Qltb dt ttl) eqn:H.
    - apply Qltb_lt. apply Qltb_lt in H. lra.
    - apply Qltb_ge. apply Qltb_ge in H. lra. }
  rewrite E. reflexivity.
Qed.

Lemma cache_lookup_insert_ne (cache : gmap string (Q * pyval)) (ttl t now : Q)
    (k k' : string) (data : pyval) :
  k' <> k ->
  cache_lookup (<[k := (t, data)]> cache) ttl now k' = cache_lookup cache ttl now k'.
Proof.
  intros Hne. unfold cache_lookup. rewrite lookup_insert_ne by congruence. reflexivity.
Qed.

(** X1.  What [_set_cache] of the multi-signal analyzer stores under a key,
    [_get_cached_data] returns for that key during the next 1800 seconds
    and no longer; the other keys read as before, and the caches of the
    two scorers and the log are left as they were. *)
Theorem multi_signal_cache_round_trip (k : string) (data : pyval) (dt : Q) (w : World) :
  let stored := world_after (MultiSignal._set_cache k data) w in
  let later := at_time (w_now w + dt) stored in
  ((dt < 1800)%Q -> value_of (MultiSignal._get_cached_data k) later = Ok data)
  /\ ((1800 <= dt)%Q -> value_of (MultiSignal._get_cached_data k) later = Ok PNone)
  /\ (forall k', k' <> k ->
        value_of (MultiSignal._get_cached_data k') later
        = value_of (MultiSignal._get_cached_data k') (at_time (w_now w + dt) w))
  /\ w_onchain_cache stored = w_onchain_cache w
  /\ w_social_cache stored = w_social_cache w
  /\ w_log stored = w_log w.
Proof.
  cbn zeta.
  unfold value_of, world_after, MultiSignal._get_cached_data, MultiSignal._set_cache, at_time.
  cbn [fst snd w_cache w_now w_onchain_cache w_social_cache w_log].
  repeat split.
  - intros H. rewrite cache_lookup_insert.
    apply Qltb_lt in H. unfold MultiSignal.cache_ttl. rewrite H. reflexivity.
  - intros H. rewrite cache_lookup_insert.
    apply Qltb_ge in H. unfold MultiSignal.cache_ttl. rewrite H. reflexivity.
  - intros k' Hne. rewrite cache_lookup_insert_ne by exact Hne. reflexivity.
Qed.

Lemma clamp_range (lo hi : Q) (x : fnum) :
  (lo <= hi)%Q ->
  exists q, clamp (Fin lo) (Fin hi) x = Fin q /\ (lo <= q <= hi)%Q.
Proof.
  intros Hle. unfold clamp, py_max, py_min, fgt.
  destruct x as [| |q|]; cbn [flt].
  - (* NaN *) destruct (Qltb lo hi) eqn:E; eexists; (split; [reflexivity|]); lra.
  - (* -inf *) exists lo. split; [reflexivity | lra].
  - destruct (Qltb q hi) eqn:E1; cbn [flt].
    + destruct (Qltb lo q) eqn:E2; eexists; (split; [reflexivity|]).
      * apply Qltb_lt in E1, E2. lra.
      * lra.
    + destruct (Qltb lo hi) eqn:E2; eexists; (split; [reflexivity|]); lra.
  - destruct (Qltb lo hi) eqn:E; eexists; (split; [reflexivity|]); lra.
Qed.


(** X2.  The score of a completed on-chain analysis lies between -76 and
    76, and the overall sentiment is Bullish above 20, Bearish below -20
    and Neutral otherwise. *)
Theorem onchain_score_range (lib : Lib) (symbol timeframe : string) (w w' : World)
    (result : pyval) :
  OnChain.analysis lib symbol timeframe w = (Ok result, w') ->
  exists q,
    dict_getitem result "score" = Ok (PNum (Fin q))
    /\ (-76 <= q <= 76)%Q
    /\ dict_getitem result "overall_sentiment"
       = Ok (PStr (if Qltb 20 q then "Bullish"
                   else if Qltb q (-20) then "Bearish" else "Neutral")).
Proof.
  intros H. unfold OnChain.analysis in H.
  repeat (apply bind_ok in H; destruct H as (? & ? & _ & H)).
  injection H as <- _.
  match goal with
  | |- context [clamp (Fin (-80)) (Fin 80) ?x] =>
      destruct (clamp_range (-80) 80 x) as (a & -> & Ha); [lra|]
  end.
  match goal with
  | |- context [clamp (Fin (-70)) (Fin 70) ?x] =>
      destruct (clamp_range (-70) 70 x) as (b & -> & Hb); [lra|]
  end.
  cbn [fmul fadd].
  assert (Hc : clamp (Fin (-100)) (Fin 100) (Fin (a * (6 # 10) + b * (4 # 10)))
               = Fin (a * (6 # 10) + b * (4 # 10))).
  { unfold clamp, py_max, py_min, fgt. cbn [flt].
    assert (E1 : Qltb (a * (6 # 10) + b * (4 # 10)) 100 = true) by (apply Qltb_lt; lra).
    rewrite E1. cbn [flt].
    assert (E2 : Qltb (-100) (a * (6 # 10) + b * (4 # 10)) = true) by (apply Qltb_lt; lra).
    rewrite E2. reflexivity. }
  rewrite Hc. eexists. split; [reflexivity|]. split; [lra|]. reflexivity.
Qed.

Lemma onchain_score_range_witness :
  exists result q,
    value_of (OnChain.analysis Examples.steady_lib "BTC" "24h") Examples.fresh = Ok result
    /\ dict_getitem result "score" = Ok (PNum (Fin q))
    /\ (-76 <= q <= 76)%Q.
Proof.
  assert (Hrun : exists result w1,
            OnChain.analysis Examples.steady_lib "BTC" "24h" Examples.fresh
            = (Ok result, w1)).
  { let r := eval vm_compute in
        (OnChain.analysis Examples.steady_lib "BTC" "24h" Examples.fresh) in
    match r with
    | (Ok ?x, ?y) => exists x, y
    end.
    vm_compute. reflexivity. }
  destruct Hrun as (result & w1 & Hrun).
  destruct (onchain_score_range _ _ _ _ _ _ Hrun) as (q & Hscore & Hq & _).
  exists result, q. split; [unfold value_of; rewrite Hrun; reflexivity|].
  split; [exact Hscore | exact Hq].
Defined.

(** X3.  The caches of the on-chain and of the social analyzer return what
    was stored under a key during the next 3600 seconds and no longer.
    The two caches are separate, and neither write touches the cache of
    the multi-signal analyzer. *)
Theorem scorer_caches_round_trip (k : string) (data : pyval) (dt : Q) (w : World) :
  let onchain := at_time (w_now w + dt) (world_after (OnChain._set_cache k data) w) in
  let social := at_time (w_now w + dt) (world_after (Social._set_cache k data) w) in
  ((dt < 3600)%Q ->
     value_of (OnChain._get_cached_data k) onchain = Ok data
     /\ value_of (Social._get_cached_data k) social = Ok data)
  /\ ((3600 <= dt)%Q ->
        value_of (OnChain._get_cached_data k) onchain = Ok PNone
        /\ value_of (Social._get_cached_data k) social = Ok PNone)
  /\ (forall k', value_of (Social._get_cached_data k') onchain
                 = value_of (Social._get_cached_data k') (at_time (w_now w + dt) w))
  /\ (forall k', value_of (OnChain._get_cached_data k') social
                 = value_of (OnChain._get_cached_data k') (at_time (w_now w + dt) w))
  /\ w_cache onchain = w_cache w
  /\ w_cache social = w_cache w.
Proof.
  cbn zeta.
  unfold value_of, world_after, OnChain._get_cached_data, OnChain._set_cache,
    Social._get_cached_data, Social._set_cache, at_time.
  cbn [fst snd w_cache w_now w_onchain_cache w_social_cache w_log].
  repeat split.
  - rewrite cache_lookup_insert. apply Qltb_lt in H. unfold OnChain.cache_ttl.
    rewrite H. reflexivity.
  - rewrite cache_lookup_insert. apply Qltb_lt in H. unfold Social.cache_ttl.
    rewrite H. reflexivity.
  - rewrite cache_lookup_insert. apply Qltb_ge in H. unfold OnChain.cache_ttl.
    rewrite H. reflexivity.
  - rewrite cache_lookup_insert. apply Qltb_ge in H. unfold Social.cache_ttl.
    rewrite H. reflexivity.
Qed.

(** X4.  The chain chosen for a symbol is always one of the supported
    chains, so the default name of the blockchain lookup is never used; a
    supported symbol is its own chain, and choosing twice changes nothing. *)
Theorem chain_for_symbol_supported (symbol : string) :
  (exists blockchain,
     assoc_get (OnChain._get_chain_for_symbol symbol) OnChain.supported_chains
     = Some blockchain)
  /\ (forall blockchain,
        assoc_get symbol OnChain.supported_chains = Some blockchain ->
        OnChain._get_chain_for_symbol symbol = symbol)
  /\ OnChain._get_chain_for_symbol (OnChain._get_chain_for_symbol symbol)
     = OnChain._get_chain_for_symbol symbol.
Proof.
  unfold OnChain._get_chain_for_symbol.
  destruct (assoc_get symbol OnChain.supported_chains) as [name|] eqn:Hs.
  - rewrite bool_decide_eq_true_2 by (eexists; reflexivity).
    rewrite Hs. rewrite bool_decide_eq_true_2 by (eexists; reflexivity).
    split; [eauto|]. split; [reflexivity|]. reflexivity.
  - rewrite bool_decide_eq_false_2 by (intros [x Hx]; discriminate).
    split; [|split; [discriminate|]];
      destruct (OnChain.mem symbol ["WBTC"; "BTCB"]);
      [| destruct (OnChain.mem symbol _); [| destruct (OnChain.mem symbol _)] | |
         destruct (OnChain.mem symbol _); [| destruct (OnChain.mem symbol _)]];
      first [eexists; reflexivity | reflexivity].
Qed.









Lemma py_int_at_least_50 (x : fnum) (c : Z) :
  py_int x = Ok c ->
  (exists q, x = Fin q /\ (50 <= q)%Q) -> (50 <= c)%Z.
Proof.
  intros H (q & -> & Hq). cbn in H.
  assert (E : Qltb q 0 = false) by (apply Qltb_ge; lra).
  rewrite E in H. injection H as <-.
  rewrite <- (Qfloor_Z 50). apply Qfloor_resp_le. exact Hq.
Qed.

Lemma rule_based_confidence (current_rsi recent_change : fnum) (c : Z) :
  let '(prediction, confidence) :=
    (if flt current_rsi (Fin 30) then
       ("Bullish", (Fin 70 + (Fin 30 - current_rsi))%F)
     else if fgt current_rsi (Fin 70) then
       ("Bearish", (Fin 70 + (current_rsi - Fin 70))%F)
     else if fgt recent_change (Fin 2) then
       ("Bullish", (Fin 50 + py_min recent_change (Fin 20))%F)
     else if flt recent_change (Fin (-2)) then
       ("Bearish", (Fin 50 + py_min (fabs recent_change) (Fin 20))%F)
     else
       ("Neutral", (Fin 50 + py_min (fabs recent_change * Fin (5 # 2)) (Fin 10))%F))
    : string * fnum in
  py_int confidence = Ok c ->
  (50 <= c)%Z
  /\ (prediction = "Bullish" \/ prediction = "Bearish" \/ prediction = "Neutral").
Proof.
  destruct (flt current_rsi (Fin 30)) eqn:E1;
    [|destruct (fgt current_rsi (Fin 70)) eqn:E2;
      [|destruct (fgt recent_change (Fin 2)) eqn:E3;
        [|destruct (flt recent_change (Fin (-2))) eqn:E4]]];
  intros H; (split; [|tauto]);
  apply (py_int_at_least_50 _ _ H).
  - destruct current_rsi as [| |r|]; try (cbn in E1, H; discriminate).
    eexists. split; [reflexivity|]. apply Qltb_lt in E1. lra.
  - destruct current_rsi as [| |r|]; try (cbn in E2, H; discriminate).
    eexists. split; [reflexivity|]. apply Qltb_lt in E2. lra.
  - destruct recent_change as [| |q|]; try (cbn in E3, H; discriminate).
    + unfold py_min. cbn [flt]. apply Qltb_lt in E3.
      destruct (Qltb 20 q) eqn:F; cbn [fadd]; (eexists; split; [reflexivity|]); lra.
    + eexists. split; [reflexivity|]. lra.
  - destruct recent_change as [| |q|]; try (cbn in E4, H; discriminate).
    + eexists. split; [reflexivity|]. lra.
    + unfold py_min. cbn [flt fabs]. pose proof (Qabs_nonneg q).
      destruct (Qltb 20 (Qabs q)) eqn:F; cbn [fadd]; (eexists; split; [reflexivity|]); lra.
  - destruct recent_change as [| |q|]; try (cbn in H; discriminate).
    unfold py_min. cbn [flt fabs fmul]. pose proof (Qabs_nonneg q).
    destruct (Qltb 10 (Qabs q * (5 # 2))) eqn:F; cbn [fadd];
      (eexists; split; [reflexivity|]); lra.
Qed.

Lemma rule_based_body_triple (lib : Lib) (df : option DataFrame) (w w' : World)
    (v : pyval) :
  EnhancedMl.rule_based_body lib df w = (Ok v, w') ->
  exists (prediction reason : string) (confidence : Z),
    v = PTuple [PStr prediction; pint confidence; PStr reason]
    /\ (prediction = "Bullish" \/ prediction = "Bearish" \/ prediction = "Neutral")
    /\ (50 <= confidence <= 95)%Z.
Proof.
  intros H. unfold EnhancedMl.rule_based_body in H.
  assert (Hneutral : forall reason,
            exists (prediction reason' : string) (confidence : Z),
              PTuple [PStr "Neutral"; pint 50; PStr reason]
              = PTuple [PStr prediction; pint confidence; PStr reason']
              /\ (prediction = "Bullish" \/ prediction = "Bearish" \/ prediction = "Neutral")
              /\ (50 <= confidence <= 95)%Z).
  { intros reason. exists "Neutral", reason, 50%Z. split; [reflexivity|]. split; [tauto | lia]. }
  destruct df as [df|]; [|injection H as <- _; apply Hneutral].
  destruct (df_len df <? 5)%nat; [injection H as <- _; apply Hneutral|].
  destruct (df_len df <=? _)%nat; [injection H as <- _; apply Hneutral|].
  apply bind_ok in H. destruct H as (close & ? & _ & H).
  apply bind_ok in H. destruct H as (last & ? & _ & H).
  apply bind_ok in H. destruct H as (base & ? & _ & H).
  apply bind_ok in H. destruct H as (current_rsi & ? & _ & H).
  pose proof (rule_based_confidence current_rsi
                ((last / base - Fin 1) * Fin 100)%F) as Hconf.
  destruct (if flt current_rsi (Fin 30) then _ else _) as [prediction confidence].
  apply bind_ok in H. destruct H as (c & ? & Hint & H).
  injection Hint as Hint _. destruct (Hconf c Hint) as [Hc Hp].
  injection H as <- _. eexists _, _, _. split; [reflexivity|]. split; [exact Hp | lia].
Qed.

(** X7.  [rule_based_prediction] never raises: on every input it returns a
    triple of a label among Bullish, Bearish and Neutral, a confidence
    between 50 and 95 and a reason, which unpacks into three names. *)
Theorem rule_based_prediction_triple (lib : Lib) (df : option DataFrame) (w : World) :
  exists (prediction reason : string) (confidence : Z) (w' : World),
    EnhancedMl.rule_based_prediction lib df w
      = (Ok (PTuple [PStr prediction; pint confidence; PStr reason]), w')
    /\ (prediction = "Bullish" \/ prediction = "Bearish" \/ prediction = "Neutral")
    /\ (50 <= confidence <= 95)%Z
    /\ py_unpack 3 (PTuple [PStr prediction; pint confidence; PStr reason])
       = Ok [PStr prediction; pint confidence; PStr reason].
Proof.
  unfold EnhancedMl.rule_based_prediction. rewrite try_except_run.
  destruct (EnhancedMl.rule_based_body lib df w) as [[v|e] w1] eqn:Hbody.
  - destruct (rule_based_body_triple _ _ _ _ _ Hbody) as (p & r & c & -> & Hp & Hc).
    exists p, r, c, w1. repeat split; try assumption; lia.
  - eexists "Neutral", _, 50%Z, _. split; [reflexivity|].
    split; [tauto|]. split; [lia | reflexivity].
Qed.






Lemma flt_asym (x y : fnum) : flt x y = true -> flt y x = false.
Proof.
  destruct x as [| |a|], y as [| |b|]; cbn; try discriminate; try reflexivity.
  intros H. apply Qltb_lt in H. apply Qltb_ge. lra.
Qed.



(** ** EMA crossover *)

Lemma calculate_ema_empty (period : Z) (w : World) :
  exists w', Indicators.calculate_ema [] period w = (Ok [], w').
Proof.
  unfold Indicators.calculate_ema. rewrite try_except_run.
  unfold lift, ewm_mean. destruct (period <? 1)%Z; eexists; reflexivity.
Qed.

(** X10.  [check_ema_crossover] never raises and returns its five entries.
    The position is bullish, bearish or unknown; a bullish crossover comes
    with a bullish position and excludes a bearish one, and the other way
    round; empty data gives the unknown position, which is the one with no
    averages; one observation gives no crossover. *)
Theorem ema_crossover_result (data : series) (short_period long_period : Z) (w : World) :
  exists (short_ema long_ema : pyval) (position : string) (bullish bearish : bool)
         (w' : World),
    Indicators.check_ema_crossover data short_period long_period w
    = (Ok (PDict [("short_ema", short_ema);
                  ("long_ema", long_ema);
                  ("position", PStr position);
                  ("bullish_crossover", PBool bullish);
                  ("bearish_crossover", PBool bearish)]), w')
    /\ (position = "bullish" \/ position = "bearish" \/ position = "unknown")
    /\ (bullish = true -> position = "bullish" /\ bearish = false)
    /\ (bearish = true -> position = "bearish" /\ bullish = false)
    /\ (data = [] -> position = "unknown")
    /\ (position = "unknown" <-> short_ema = PNone)
    /\ (length data = 1%nat -> bullish = false /\ bearish = false).
Proof.
  unfold Indicators.check_ema_crossover. rewrite try_except_run.
  match goal with
  | |- context [match ?body w with _ => _ end] => destruct (body w) as [[v|e] w1] eqn:Hbody
  end.
  - apply bind_ok in Hbody. destruct Hbody as (short_ema & w2 & Hshort & Hbody).
    apply bind_ok in Hbody. destruct Hbody as (long_ema & w3 & Hlong & Hbody).
    apply bind_ok in Hbody. destruct Hbody as (cs & ? & Hcs & Hbody).
    apply bind_ok in Hbody. destruct Hbody as (cl & ? & Hcl & Hbody).
    apply bind_ok in Hbody. destruct Hbody as (ps & ? & Hps & Hbody).
    apply bind_ok in Hbody. destruct Hbody as (pl & ? & Hpl & Hbody).
    assert (Hne : data <> []).
    { intros ->. destruct (calculate_ema_empty short_period w) as [w' He].
      rewrite He in Hshort. injection Hshort as <- _. discriminate Hcs. }
    assert (Hlen1 : length data = 1%nat -> ps = None).
    { intros Hlen. destruct (1 <? length short_ema)%nat eqn:E.
      - exfalso. apply Nat.ltb_lt in E.
        unfold Indicators.calculate_ema in Hshort. rewrite try_except_run in Hshort.
        unfold lift, ewm_mean in Hshort.
        destruct (short_period <? 1)%Z.
        + cbn in Hshort. injection Hshort as <- _.
          unfold nan_series in E. rewrite length_replicate in E. lia.
        + destruct data as [|d0 [|d1 rest]]; try discriminate.
          injection Hshort as <- _. cbn in E. lia.
      - injection Hps as <- _. reflexivity. }
    destruct ps as [ps|], pl as [pl|]; injection Hbody as <- _;
      eexists _, _, _, _, _, _; (split; [reflexivity|]);
      (split; [destruct (fgt cs cl); tauto|]).
    + split; [|split; [|split; [|split]]].
      * intros H. apply andb_true_iff in H as [H1 H2]. rewrite H2.
        split; [reflexivity|]. unfold fgt in H2. rewrite (flt_asym _ _ H2).
        apply andb_false_r.
      * intros H. apply andb_true_iff in H as [H1 H2]. unfold fgt at 1.
        rewrite (flt_asym _ _ H2). split; [reflexivity|]. unfold fgt.
        rewrite (flt_asym _ _ H2). apply andb_false_r.
      * intros H. contradiction.
      * split; [destruct (fgt cs cl); discriminate | discriminate].
      * intros H. specialize (Hlen1 H). discriminate.
    + repeat split; try discriminate; try contradiction;
        destruct (fgt cs cl); discriminate.
    + repeat split; try discriminate; try contradiction;
        destruct (fgt cs cl); discriminate.
    + repeat split; try discriminate; try contradiction;
        destruct (fgt cs cl); discriminate.
  - eexists _, _, _, _, _, _. split; [reflexivity|].
    split; [tauto|]. repeat split; try discriminate; reflexivity.
Qed.

Lemma calculate_ema_of_constant (c : fnum) (n : nat) (period : Z) (w : World) :
  (1 <= period)%Z ->
  Indicators.calculate_ema (replicate n c) period w = (Ok (replicate n c), w).
Proof.
  intros Hp. unfold Indicators.calculate_ema. rewrite try_except_run.
  unfold lift. rewrite (ewm_mean_constant period c n Hp). reflexivity.
Qed.

Lemma zip_with_replicate {A B C} (f : A -> B -> C) (n : nat) (a : A) (b : B) :
  zip_with f (replicate n a) (replicate n b) = replicate n (f a b).
Proof. induction n as [|n IH]; [reflexivity|]. cbn. rewrite IH. reflexivity. Qed.

(** X11.  On a flat price every line of the MACD is zero, at every
    position. *)
Theorem macd_of_constant_prices (q : Q) (n : nat) (fast slow signal : Z) (w : World) :
  (1 <= fast)%Z -> (1 <= slow)%Z -> (1 <= signal)%Z ->
  exists macd_line signal_line histogram,
    Indicators.calculate_macd (replicate n (Fin q)) fast slow signal w
    = (Ok (macd_line, signal_line, histogram), w)
    /\ length macd_line = n /\ length signal_line = n /\ length histogram = n
    /\ Forall (fun x => feq x (Fin 0)) macd_line
    /\ Forall (fun x => feq x (Fin 0)) signal_line
    /\ Forall (fun x => feq x (Fin 0)) histogram.
Proof.
  intros Hf Hs Hg. unfold Indicators.calculate_macd. rewrite try_except_run.
  cbv [mbind M_bind bind].
  rewrite (calculate_ema_of_constant _ _ _ _ Hf), (calculate_ema_of_constant _ _ _ _ Hs).
  unfold smap2. rewrite zip_with_replicate.
  rewrite (calculate_ema_of_constant _ _ _ _ Hg). rewrite zip_with_replicate.
  eexists _, _, _. split; [reflexivity|].
  rewrite !length_replicate. repeat split; apply Forall_replicate; cbn; lra.
Qed.

Lemma macd_of_constant_prices_witness :
  exists macd_line signal_line histogram,
    Indicators.calculate_macd (replicate 30 (Fin 100)) 12 26 9 Examples.fresh
    = (Ok (macd_line, signal_line, histogram), Examples.fresh)
    /\ length macd_line = 30%nat /\ length signal_line = 30%nat
    /\ length histogram = 30%nat
    /\ Forall (fun x => feq x (Fin 0)) macd_line
    /\ Forall (fun x => feq x (Fin 0)) signal_line
    /\ Forall (fun x => feq x (Fin 0)) histogram.
Proof.
  apply (macd_of_constant_prices 100 30 12 26 9 Examples.fresh); lia.
Defined.

(** ** Every indicator series is as long as the prices it reads *)

Lemma ewm_go_length (alpha : Q) (weighted : fnum) (old_wt : Q) (xs : series) :
  length (ewm_go alpha weighted old_wt xs) = length xs.
Proof.
  revert weighted old_wt. induction xs as [|x xs IH]; intros weighted old_wt; [reflexivity|].
  cbn [ewm_go]. destruct (is_nan weighted); [cbn; rewrite IH; reflexivity|].
  destruct (is_nan x); cbn; rewrite IH; reflexivity.
Qed.

Lemma calculate_ema_length (data out : series) (period : Z) (w w' : World) :
  Indicators.calculate_ema data period w = (Ok out, w') -> length out = length data.
Proof.
  unfold Indicators.calculate_ema. rewrite try_except_run. unfold lift, ewm_mean.
  destruct (period <? 1)%Z.
  - intros [= <- _]. apply length_replicate.
  - destruct data as [|x rest]; intros [= <- _]; [reflexivity|].
    cbn. rewrite ewm_go_length. reflexivity.
Qed.



(** X12.  Every indicator series is as long as the prices it was computed
    from: the EMA, the three lines of the MACD, the three series of the
    stochastic RSI and the simple RSI. *)
Theorem indicator_lengths (data : series) :
  (forall period w out w',
     Indicators.calculate_ema data period w = (Ok out, w') ->
     length out = length data)
  /\ (forall fast slow signal w macd_line signal_line histogram w',
        Indicators.calculate_macd data fast slow signal w
        = (Ok (macd_line, signal_line, histogram), w') ->
        length macd_line = length data /\ length signal_line = length data
        /\ length histogram = length data)
  /\ (forall period k_period d_period w rsi k d w',
        Indicators.calculate_stochastic_rsi data period k_period d_period w
        = (Ok (rsi, k, d), w') ->
        length rsi = length data /\ length k = length data /\ length d = length data)
  /\ (forall window w rsi w',
        SimpleRsi.calculate_rsi data window w = (Ok rsi, w') ->
        length rsi = length data).
Proof.
  split; [intros; eapply calculate_ema_length; eassumption|].
  split; [|split].
  - intros fast slow signal w macd_line signal_line histogram w' H.
    unfold Indicators.calculate_macd in H. rewrite try_except_run in H.
    match type of H with
    | context [match ?body w with _ => _ end] => destruct (body w) as [[v|e] w1] eqn:Hbody
    end.
    + apply bind_ok in Hbody. destruct Hbody as (fast_ema & ? & Hfast & Hbody).
      apply bind_ok in Hbody. destruct Hbody as (slow_ema & ? & Hslow & Hbody).
      apply bind_ok in Hbody. destruct Hbody as (sig & ? & Hsig & Hbody).
      injection Hbody as <- _. injection H as <- <- <- _.
      apply calculate_ema_length in Hfast, Hslow, Hsig.
      unfold smap2 in *. rewrite length_zip_with in Hsig.
      rewrite !length_zip_with. lia.
    + injection H as <- <- <- _. unfold nan_series. rewrite length_replicate. auto.
  - intros period k_period d_period w rsi k d w' H.
    unfold Indicators.calculate_stochastic_rsi in H. rewrite try_except_run in H.
    unfold ret in H. injection H as <- <- <- _.
    unfold Indicators.stochastic_rsi_body, Indicators.rsi_of_rs,
      Indicators.relative_strength, Indicators.average_gain, Indicators.average_loss,
      rolling_mean, rolling_min, rolling_max, where_, fillna, replace_val, smap2.
    cbn [fst snd].
    repeat first [rewrite rolling_length | rewrite length_fmap | rewrite length_zip_with
                 | rewrite diff_length].
    lia.
  - intros window w rsi w' H.
    unfold SimpleRsi.calculate_rsi in H. rewrite try_except_run in H.
    unfold ret in H. injection H as <- _.
    unfold SimpleRsi.rsi_body, smap2, rolling_mean, mask_assign.
    repeat first [rewrite rolling_length | rewrite length_fmap | rewrite length_zip_with
                 | rewrite diff_length].
    lia.
Qed.

Lemma rolling_lookup (agg : series -> fnum) (w i : nat) (xs : series) :
  (i < length xs)%nat ->
  rolling agg w xs !! i
  = Some (if (S i <? w)%nat then NaN
          else if existsb is_nan (window w i xs) then NaN else agg (window w i xs)).
Proof.
  intros Hi. unfold rolling. rewrite list_lookup_imap.
  destruct (lookup_lt_is_Some_2 xs i Hi) as [x ->]. reflexivity.
Qed.

(** Before [w] observations the rolling value is undefined. *)
Lemma rolling_warm_up (agg : series -> fnum) (w i : nat) (xs : series) :
  (S i < w)%nat -> (i < length xs)%nat -> rolling agg w xs !! i = Some NaN.
Proof.
  intros Hw Hi. rewrite rolling_lookup by exact Hi.
  apply Nat.ltb_lt in Hw. rewrite Hw. reflexivity.
Qed.

(** When the series starts with an undefined value, so is the rolling
    value of the first full window. *)
Lemma rolling_head_nan (agg : series -> fnum) (w i : nat) (x : fnum) (xs : series) :
  is_nan x = true -> (i < w)%nat -> (i < length (x :: xs))%nat ->
  rolling agg w (x :: xs) !! i = Some NaN.
Proof.
  intros Hx Hw Hi. rewrite rolling_lookup by exact Hi.
  destruct (S i <? w)%nat eqn:E; [reflexivity|].
  apply Nat.ltb_ge in E. assert (w = S i) as -> by lia.
  unfold window. rewrite Nat.sub_diag. cbn [drop take existsb]. rewrite Hx. reflexivity.
Qed.

Lemma diff_head (xs : series) (x : fnum) :
  exists rest, diff 1 (x :: xs) = NaN :: rest /\ length rest = length xs.
Proof.
  unfold diff. cbn [imap]. eexists. split; [reflexivity|]. apply length_imap.
Qed.

(** X13.  The warm-up of the two RSI functions: the simple RSI of window
    [n] is undefined at the first [n] positions, the RSI inside the
    stochastic RSI at the first [n - 1]. *)
Theorem rsi_warm_up (prices : series) (n i : nat) :
  (i < length prices)%nat ->
  ((i < n)%nat ->
     forall w rsi w', SimpleRsi.calculate_rsi prices n w = (Ok rsi, w') ->
                      rsi !! i = Some NaN)
  /\ ((S i < n)%nat ->
        forall k_period d_period w rsi k d w',
          Indicators.calculate_stochastic_rsi prices n k_period d_period w
          = (Ok (rsi, k, d), w') ->
          rsi !! i = Some NaN).
Proof.
  intros Hi. split.
  - intros Hn w rsi w' H.
    unfold SimpleRsi.calculate_rsi in H. rewrite try_except_run in H.
    unfold ret in H. injection H as <- _.
    unfold SimpleRsi.rsi_body, smap2, rolling_mean.
    destruct prices as [|p prices]; [cbn in Hi; lia|].
    destruct (diff_head prices p) as (rest & -> & Hrest).
    unfold mask_assign. cbn [fmap list_fmap flt fgt fabs is_nan].
    rewrite list_lookup_fmap, lookup_zip_with, list_lookup_fmap.
    rewrite !rolling_head_nan;
      [reflexivity | reflexivity | exact Hn | | reflexivity | exact Hn |];
      cbn [length] in *; rewrite ?length_fmap; lia.
  - intros Hn k_period d_period w rsi k d w' H.
    unfold Indicators.calculate_stochastic_rsi in H. rewrite try_except_run in H.
    unfold ret in H. injection H as <- _ _ _.
    unfold Indicators.stochastic_rsi_body. cbn [fst].
    unfold Indicators.rsi_of_rs, Indicators.relative_strength.
    rewrite list_lookup_fmap, lookup_zip_with.
    unfold Indicators.average_gain, Indicators.average_loss, rolling_mean.
    rewrite !rolling_warm_up; [reflexivity | exact Hn | | exact Hn |].
    + unfold where_. rewrite !length_fmap. unfold diff. rewrite length_imap. exact Hi.
    + unfold where_. rewrite !length_fmap. unfold diff. rewrite length_imap. exact Hi.
Qed.

Lemma rsi_warm_up_witness :
  SimpleRsi.rsi_body [Fin 1; Fin 2; Fin 3] 2 !! 1%nat = Some NaN
  /\ (Indicators.stochastic_rsi_body [Fin 1; Fin 2; Fin 3] 3 3 3).1.1 !! 1%nat = Some NaN.
Proof.
  pose proof (rsi_warm_up [Fin 1; Fin 2; Fin 3] 2 1 ltac:(cbn; lia)) as [Hsimple _].
  pose proof (rsi_warm_up [Fin 1; Fin 2; Fin 3] 3 1 ltac:(cbn; lia)) as [_ Hstoch].
  split.
  - apply (Hsimple ltac:(lia) Examples.fresh _ Examples.fresh).
    unfold SimpleRsi.calculate_rsi. rewrite try_except_run. reflexivity.
  - apply (Hstoch ltac:(lia) 3%nat 3%nat Examples.fresh _
             (Indicators.stochastic_rsi_body [Fin 1; Fin 2; Fin 3] 3 3 3).1.2
             (Indicators.stochastic_rsi_body [Fin 1; Fin 2; Fin 3] 3 3 3).2
             Examples.fresh).
    unfold Indicators.calculate_stochastic_rsi. rewrite try_except_run.
    unfold ret.
    destruct (Indicators.stochastic_rsi_body [Fin 1; Fin 2; Fin 3] 3 3 3) as [[a b] c].
    reflexivity.
Defined.
